(** * Editorial-workflow policies of the Strapi backend

    A shallow embedding of the route policies under [src/policies/]:
    [role-check], [cms-role], [is-owner], [is-owner-or-editor],
    [can-publish] and [workflow-status].

    Each policy is an [async] function
    [(policyContext, config, { strapi }) => Promise<boolean>] that either
    resolves to a boolean or rejects with a thrown value.  It is modelled
    as a total function into [outcome bool].  The only service a policy
    calls that influences its result is [strapi.entityService.findOne];
    the calls to [strapi.log.*] do not and are left out.

    The route tables of the article and tag APIs are data, and the
    validation hooks of the user content type
    ([beforeCreate], [beforeUpdate]) are functions of the data of the
    event and of the uniqueness query of the store; their regular
    expressions are run by a derivative matcher.

    A string is the sequence of the bytes of its UTF-8 text.  Its length
    is counted in UTF-16 code units, as JavaScript counts it; white space
    and lower case are the ASCII ones, which are those of JavaScript on
    ASCII text, and a statement that would not hold of the code on other
    text is made for strings of ASCII characters. *)

From Stdlib Require Import ZArith.
From stdpp Require Import base strings gmap list pretty.

Local Open Scope string_scope.

(** ** JavaScript values and strings *)

Module JS.

(** The primitive values that reach the policies: identifiers, JSON body
    fields and columns of a stored entity.  Numbers are the integers
    (ids are integers; [NaN] and fractions do not occur). *)
Inductive value : Type :=
| Undefined
| Null
| Bool (b : bool)
| Num (n : Z)
| Str (s : string).

#[global] Instance value_eq_dec : EqDecision value.
Proof. solve_decision. Defined.

(** [ToBoolean]. *)
Definition truthy (v : value) : bool :=
  match v with
  | Undefined | Null => false
  | Bool b => b
  | Num n => negb (n =? 0)%Z
  | Str s => negb (String.eqb s EmptyString)
  end.

(** [a || b]. *)
Definition or (a b : value) : value := if truthy a then a else b.

(** [a === b]. *)
Definition strict_eq (a b : value) : bool := bool_decide (a = b).

(** [`${v}`]. *)
Definition to_string (v : value) : string :=
  match v with
  | Undefined => "undefined"
  | Null => "null"
  | Bool true => "true"
  | Bool false => "false"
  | Num n => pretty n
  | Str s => s
  end.

(** [s || ''] for a field that holds a string or is absent. *)
Definition or_empty (o : option string) : string := default EmptyString o.

(** [!s] for a string. *)
Definition is_empty (s : string) : bool := String.eqb s EmptyString.

(** [a || b] for strings. *)
Definition str_or (a b : string) : string := if is_empty a then b else a.

(** [String.prototype.toLowerCase], on the ASCII letters; other bytes
    are kept. *)
Definition lower_ascii (c : Ascii.ascii) : Ascii.ascii :=
  let n := Ascii.nat_of_ascii c in
  if (65 <=? n)%nat && (n <=? 90)%nat then Ascii.ascii_of_nat (n + 32) else c.

Fixpoint toLowerCase (s : string) : string :=
  match s with
  | EmptyString => EmptyString
  | String c r => String (lower_ascii c) (toLowerCase r)
  end.

(** [String.prototype.trim], on the ASCII white space (tab, line feed,
    vertical tab, form feed, carriage return, space). *)
Definition is_space (c : Ascii.ascii) : bool :=
  let n := Ascii.nat_of_ascii c in
  ((9 <=? n)%nat && (n <=? 13)%nat) || (n =? 32)%nat.

Fixpoint trimStart (s : string) : string :=
  match s with
  | EmptyString => EmptyString
  | String c r => if is_space c then trimStart r else s
  end.

Fixpoint trimEnd (s : string) : string :=
  match s with
  | EmptyString => EmptyString
  | String c r =>
      let r' := trimEnd r in
      if is_space c && is_empty r' then EmptyString else String c r'
  end.

Definition trim (s : string) : string := trimEnd (trimStart s).

(** [String.prototype.includes]. *)
Fixpoint includes (s sub : string) : bool :=
  String.prefix sub s ||
  match s with
  | EmptyString => false
  | String _ r => includes r sub
  end.

(** [s.length]: the number of UTF-16 code units of the text.  A byte
    below 0x80 and the first byte of a sequence of two or three bytes
    count one, the first byte of a sequence of four bytes counts two (a
    surrogate pair), and a continuation byte counts none. *)
Definition units (c : Ascii.ascii) : nat :=
  let n := Ascii.nat_of_ascii c in
  if (n <? 128)%nat then 1%nat
  else if (n <? 192)%nat then 0%nat
  else if (n <? 240)%nat then 1%nat
  else 2%nat.

Fixpoint string_length (s : string) : nat :=
  match s with
  | EmptyString => 0%nat
  | String c r => (units c + string_length r)%nat
  end.

(** [Array.prototype.join]. *)
Definition join (sep : string) (l : list string) : string := String.concat sep l.

(** [Array.prototype.includes] on an array of strings. *)
Definition array_includes (l : list string) (v : value) : bool :=
  existsb (fun s => strict_eq (Str s) v) l.

(** The double quote, for the messages that quote a value. *)
Definition dq : string := String (Ascii.ascii_of_nat 34) EmptyString.

End JS.

(** ** Requests, stored entities and the outcome of a policy *)

(** [user.role]: the host stores [type] and [name] as strings; a field is
    a string or absent. *)
Record Role : Type := mkRole {
  role_type : option string;
  role_name : option string;
}.

(** [ctx.state.user]. *)
Record User : Type := mkUser {
  user_id : JS.value;
  user_role : option Role;
}.

(** [ctx.state]: the user, when one was resolved, and
    [state.auth.strategy.name], when present. *)
Record State : Type := mkState {
  state_user : option User;
  auth_strategy_name : option string;
}.

(** The two places of [request.body] a policy reads:
    [body.data.workflowStatus] and [body.workflowStatus]. *)
Record Body : Type := mkBody {
  data_workflowStatus : JS.value;
  body_workflowStatus : JS.value;
}.

Record PolicyContext : Type := mkContext {
  state : State;
  request_body : Body;
  params_id : JS.value;
}.

(** The [config] argument: [config.roles] and [config.contentType]. *)
Record PolicyConfig : Type := mkConfig {
  roles : option (list string);
  contentType : option string;
}.

(** [entity.createdBy], when the relation is there. *)
Record Creator : Type := mkCreator {
  creator_id : JS.value;
}.

Record Entity : Type := mkEntity {
  createdBy : option Creator;
  workflowStatus : JS.value;
}.

(** What a [throw] carries: an [Error] with its message, or any other
    value ([error instanceof Error] is false for it). *)
Inductive thrown : Type :=
| Error (message : string)
| NonError.

(** A settled promise: resolved with a value or rejected. *)
Inductive outcome (A : Type) : Type :=
| Returned (a : A)
| Thrown (e : thrown).
Arguments Returned {A} a.
Arguments Thrown {A} e.

#[global] Instance outcome_ret : MRet outcome := fun A a => Returned a.
#[global] Instance outcome_bind : MBind outcome := fun A B k m =>
  match m with
  | Returned a => k a
  | Thrown e => Thrown e
  end.

(** [throw new Error(message)]. *)
Definition throw {A : Type} (message : string) : outcome A :=
  Thrown (Error message).

(** [try { body } catch (error) { handler }]. *)
Definition try_catch {A : Type} (body : outcome A)
    (handler : thrown -> outcome A) : outcome A :=
  match body with
  | Returned a => Returned a
  | Thrown e => handler e
  end.

(** [strapi.entityService.findOne(uid, id, { populate })]: resolves to
    the entity or to [null], or rejects. *)
Record Strapi : Type := mkStrapi {
  findOne : string -> JS.value -> list string -> outcome (option Entity);
}.

(** [entity.createdBy?.id]. *)
Definition id_of_creator (entity : Entity) : JS.value :=
  match createdBy entity with
  | Some c => creator_id c
  | None => JS.Undefined
  end.

(** Optional chaining on the user. *)
Definition id_of (user : option User) : JS.value :=
  match user with
  | Some u => user_id u
  | None => JS.Undefined
  end.

Definition role_of (user : option User) : option Role :=
  user ≫= user_role.

Definition type_of (role : option Role) : option string :=
  role ≫= role_type.

Definition name_of (role : option Role) : option string :=
  role ≫= role_name.

(** [state?.auth?.strategy?.name === 'api-token']. *)
Definition is_api_token (st : State) : bool :=
  bool_decide (auth_strategy_name st = Some "api-token").

(** [typeof f === 'string' ? f.toLowerCase() : ''] and
    [(f || '').toLowerCase()], which agree on a field that is a string or
    absent. *)
Definition lowered (f : option string) : string :=
  JS.toLowerCase (JS.or_empty f).

(** ** can-publish.ts *)

Definition can_publish (policyContext : PolicyContext) (config : PolicyConfig)
    (strapi : Strapi) : outcome bool :=
  let user := state_user (state policyContext) in
  if is_api_token (state policyContext) then Returned true
  else if negb (JS.truthy (id_of user)) then
    throw "You must be logged in to publish content"
  else
    let role := role_of user in
    let roleType := lowered (type_of role) in
    let roleName := lowered (name_of role) in
    let canPublish := String.eqb roleType "editor" || String.eqb roleName "editor" in
    if negb canPublish then
      throw "You do not have permission to publish content. Only Editors can publish or unpublish articles."
    else Returned true.

(** ** cms-role.ts *)

Definition cms_allowed : gset string :=
  list_to_set ["admin"; "editor"; "reviewer"; "reporter"; "author"; "contributor"].

Definition cms_role (policyContext : PolicyContext) (config : PolicyConfig)
    (strapi : Strapi) : outcome bool :=
  if is_api_token (state policyContext) then Returned true
  else
    match state_user (state policyContext) with
    | None => Returned false
    | Some u =>
        let role := user_role u in
        let type := JS.or_empty (type_of role) in
        let name := JS.or_empty (name_of role) in
        let normalized :=
          JS.toLowerCase (JS.trim (JS.str_or (JS.str_or type name) EmptyString)) in
        if JS.is_empty normalized then Returned false
        else
          let hasAccess := bool_decide (normalized ∈ cms_allowed) in
          Returned hasAccess
    end.

(** ** role-check.ts *)

Definition role_check (policyContext : PolicyContext) (config : PolicyConfig)
    (strapi : Strapi) : outcome bool :=
  let user := state_user (state policyContext) in
  if is_api_token (state policyContext) then Returned true
  else if negb (JS.truthy (id_of user)) then
    throw "You must be logged in to access this resource"
  else
    let allowedRoles := default [] (roles config) in
    if (length allowedRoles =? 0)%nat then
      throw "Access denied - policy configuration error"
    else
      let role := role_of user in
      let roleType := lowered (type_of role) in
      let roleName := lowered (name_of role) in
      if JS.is_empty roleType && JS.is_empty roleName then
        throw "Access denied - no role assigned to your account"
      else
        let normalizedAllowed : gset string :=
          list_to_set (map (fun r => JS.trim (JS.toLowerCase r)) allowedRoles) in
        let hasRole :=
          bool_decide (roleType ∈ normalizedAllowed)
          || bool_decide (roleName ∈ normalizedAllowed) in
        if negb hasRole then
          let userRole := JS.str_or roleType roleName in
          throw ("Access denied. Your role " ++ JS.dq ++ userRole ++ JS.dq
                 ++ " does not have permission for this action. "
                 ++ "Required roles: " ++ JS.join ", " allowedRoles)
        else Returned true.

(** ** is-owner.ts and is-owner-or-editor.ts *)

(** The messages of its own errors that the [catch] block passes on. *)
Definition is_own_error (message : string) : bool :=
  JS.includes message "permission"
  || JS.includes message "not found"
  || JS.includes message "logged in"
  || JS.includes message "ownership"
  || JS.includes message "required".

Definition is_owner (policyContext : PolicyContext) (config : PolicyConfig)
    (strapi : Strapi) : outcome bool :=
  let user := state_user (state policyContext) in
  if is_api_token (state policyContext) then Returned true
  else if negb (JS.truthy (id_of user)) then
    throw "You must be logged in to access this resource"
  else
    let resourceId := params_id policyContext in
    if negb (JS.truthy resourceId) then throw "Resource ID is required"
    else
      let contentType :=
        JS.str_or (JS.or_empty (contentType config)) "api::article.article" in
      try_catch
        (entity ← findOne strapi contentType resourceId ["createdBy"];
         match entity with
         | None => throw "Resource not found"
         | Some entity =>
             let createdById := id_of_creator entity in
             if negb (JS.truthy createdById) then
               throw "Unable to verify ownership - resource has no creator"
             else
               let isOwner := JS.strict_eq createdById (id_of user) in
               if negb isOwner then
                 throw "You do not have permission to modify this resource. Only the owner can perform this action."
               else Returned true
         end)
        (fun error =>
           match error with
           | Error message =>
               if is_own_error message then Thrown error
               else throw "An error occurred while verifying ownership"
           | NonError => throw "An error occurred while verifying ownership"
           end).

Definition is_owner_or_editor (policyContext : PolicyContext)
    (config : PolicyConfig) (strapi : Strapi) : outcome bool :=
  let user := state_user (state policyContext) in
  if is_api_token (state policyContext) then Returned true
  else if negb (JS.truthy (id_of user)) then
    throw "You must be logged in to access this resource"
  else
    let role := role_of user in
    let roleType := lowered (type_of role) in
    let roleName := lowered (name_of role) in
    let isEditor := String.eqb roleType "editor" || String.eqb roleName "editor" in
    if isEditor then Returned true
    else
      let resourceId := params_id policyContext in
      if negb (JS.truthy resourceId) then throw "Resource ID is required"
      else
        let contentType :=
          JS.str_or (JS.or_empty (contentType config)) "api::article.article" in
        try_catch
          (entity ← findOne strapi contentType resourceId ["createdBy"];
           match entity with
           | None => throw "Resource not found"
           | Some entity =>
               let createdById := id_of_creator entity in
               if negb (JS.truthy createdById) then
                 throw "Unable to verify ownership - resource has no creator"
               else
                 let isOwner := JS.strict_eq createdById (id_of user) in
                 if negb isOwner then
                   throw ("You do not have permission to modify this resource. "
                          ++ "Only the content owner or an Editor can perform this action.")
                 else Returned true
           end)
          (fun error =>
             match error with
             | Error message =>
                 if is_own_error message then Thrown error
                 else throw "An error occurred while verifying access permissions"
             | NonError =>
                 throw "An error occurred while verifying access permissions"
             end).

(** ** workflow-status.ts *)

Definition VALID_TRANSITIONS : gmap string (gmap string (list string)) :=
  list_to_map [
    ("reader", ∅);
    ("reporter", list_to_map [
       ("draft", ["review"]);
       ("review", []);
       ("published", [])]);
    ("reviewer", list_to_map [
       ("draft", ["review"]);
       ("review", ["draft"]);
       ("published", [])]);
    ("editor", list_to_map [
       ("draft", ["review"; "published"]);
       ("review", ["draft"; "published"]);
       ("published", ["draft"])])
  ].

Definition TRANSITION_ERROR_MESSAGES : gmap string string :=
  list_to_map [
    ("reporter:review",
     "Reporters cannot modify articles that are in review. Please wait for a Reviewer or Editor to process your submission.");
    ("reporter:published",
     "Reporters cannot modify published articles. Please contact an Editor if changes are needed.");
    ("reviewer:published",
     "Reviewers cannot unpublish articles. Only Editors can unpublish content.");
    ("reader:any",
     "Readers do not have permission to change article status.")
  ].

Definition validStatuses : list string := ["draft"; "review"; "published"].

(** The message built when no fixed text applies. *)
Definition transition_message (effectiveRole : string)
    (currentStatus newStatus : JS.value) (allowedNextStatuses : list string)
    : string :=
  "Invalid status transition: " ++ JS.dq ++ JS.to_string currentStatus ++ JS.dq
  ++ " → " ++ JS.dq ++ JS.to_string newStatus ++ JS.dq
  ++ " is not allowed for " ++ effectiveRole ++ " role. "
  ++ "Allowed transitions from " ++ JS.dq ++ JS.to_string currentStatus ++ JS.dq
  ++ ": "
  ++ (if (0 <? length allowedNextStatuses)%nat
      then JS.join ", " allowedNextStatuses else "none").

Definition workflow_status (policyContext : PolicyContext)
    (config : PolicyConfig) (strapi : Strapi) : outcome bool :=
  let user := state_user (state policyContext) in
  if is_api_token (state policyContext) then Returned true
  else if negb (JS.truthy (id_of user)) then
    throw "You must be logged in to change article status"
  else
    let body := request_body policyContext in
    let newStatus := JS.or (data_workflowStatus body) (body_workflowStatus body) in
    if negb (JS.truthy newStatus) then Returned true
    else if negb (JS.array_includes validStatuses newStatus) then
      throw ("Invalid status value: " ++ JS.dq ++ JS.to_string newStatus ++ JS.dq
             ++ ". Valid values are: " ++ JS.join ", " validStatuses)
    else
      let resourceId := params_id policyContext in
      if negb (JS.truthy resourceId) then
        let roleType := lowered (type_of (role_of user)) in
        if String.eqb roleType "reporter"
           && negb (JS.strict_eq newStatus (JS.Str "draft")) then
          throw "Reporters can only create articles in draft status. Submit for review after creation."
        else if String.eqb roleType "reviewer" then
          throw "Reviewers cannot create articles. Only Reporters and Editors can create content."
        else if String.eqb roleType "reader" then
          throw "Readers cannot create articles."
        else Returned true
      else
        article ← try_catch
          (findOne strapi "api::article.article" resourceId [])
          (fun error => throw "Unable to verify article status");
        match article with
        | None => throw "Article not found"
        | Some article =>
            let currentStatus := JS.or (workflowStatus article) (JS.Str "draft") in
            if JS.strict_eq currentStatus newStatus then Returned true
            else
              let roleType := lowered (type_of (role_of user)) in
              let roleName := lowered (name_of (role_of user)) in
              let effectiveRole := JS.str_or roleType roleName in
              let transitions := default ∅ (VALID_TRANSITIONS !! effectiveRole) in
              let allowedNextStatuses :=
                default [] (transitions !! JS.to_string currentStatus) in
              let isValid := JS.array_includes allowedNextStatuses newStatus in
              if negb isValid then
                let errorKey := effectiveRole ++ ":" ++ JS.to_string currentStatus in
                let specificError :=
                  JS.or_empty (TRANSITION_ERROR_MESSAGES !! errorKey) in
                let errorMessage :=
                  if negb (JS.is_empty specificError) then specificError
                  else if JS.is_empty effectiveRole
                          || String.eqb effectiveRole "reader" then
                    JS.or_empty (TRANSITION_ERROR_MESSAGES !! "reader:any")
                  else
                    transition_message effectiveRole currentStatus newStatus
                      allowedNextStatuses in
                throw errorMessage
              else Returned true
        end.

(** * Notions used in the statements *)

(** The target status a request carries, as the workflow policy reads it:
    [body?.data?.workflowStatus || body?.workflowStatus]. *)
Definition requested_status (policyContext : PolicyContext) : JS.value :=
  JS.or (data_workflowStatus (request_body policyContext))
        (body_workflowStatus (request_body policyContext)).

(** A principal that passed the [!user?.id] test of a policy. *)
Definition authenticated (policyContext : PolicyContext) : Prop :=
  JS.truthy (id_of (state_user (state policyContext))) = true.

(** A request that does not carry the trusted service credential. *)
Definition not_bypassed (policyContext : PolicyContext) : Prop :=
  is_api_token (state policyContext) = false.

(** The two lower-cased role fields of the principal. *)
Definition roleType_of (policyContext : PolicyContext) : string :=
  lowered (type_of (role_of (state_user (state policyContext)))).

Definition roleName_of (policyContext : PolicyContext) : string :=
  lowered (name_of (role_of (state_user (state policyContext)))).

(** [new Set(allowedRoles.map(r => r.toLowerCase().trim()))]. *)
Definition normalized_allowed (allowedRoles : list string) : gset string :=
  list_to_set (map (fun r => JS.trim (JS.toLowerCase r)) allowedRoles).

(** The message of the denial that names the required roles. *)
Definition required_roles_message (userRole : string)
    (allowedRoles : list string) : string :=
  "Access denied. Your role " ++ JS.dq ++ userRole ++ JS.dq
  ++ " does not have permission for this action. "
  ++ "Required roles: " ++ JS.join ", " allowedRoles.



(** The four roles and three states of the specification, with the tags
    the code knows them by. *)
Inductive role : Type := reader | reporter | reviewer | editor.

Inductive status : Type := draft | review | published.

#[global] Instance role_eq_dec : EqDecision role.
Proof. solve_decision. Defined.

#[global] Instance status_eq_dec : EqDecision status.
Proof. solve_decision. Defined.

Definition role_tag (r : role) : string :=
  match r with
  | reader => "reader"
  | reporter => "reporter"
  | reviewer => "reviewer"
  | editor => "editor"
  end.

Definition status_tag (s : status) : string :=
  match s with
  | draft => "draft"
  | review => "review"
  | published => "published"
  end.

(** The table as the specification words it: reader, no transition;
    reporter, only draft to review; reviewer, draft to review and review to
    draft; editor, draft to review or published, review to draft or
    published, published to draft. *)
Definition spec_table (r : role) (current : status) : list status :=
  match r, current with
  | reader, _ => []
  | reporter, draft => [review]
  | reporter, _ => []
  | reviewer, draft => [review]
  | reviewer, review => [draft]
  | reviewer, published => []
  | editor, draft => [review; published]
  | editor, review => [draft; published]
  | editor, published => [draft]
  end.

(** The role the workflow policy acts on: [roleType || roleName]. *)
Definition effectiveRole_of (policyContext : PolicyContext) : string :=
  JS.str_or (roleType_of policyContext) (roleName_of policyContext).

(** The message of a denied transition: the fixed text registered for the
    role and the current state when there is one, the readers' text for a
    reader, and the built message otherwise. *)
Definition denial_text (r : role) (current requested : status) : string :=
  match TRANSITION_ERROR_MESSAGES !! (role_tag r ++ ":" ++ status_tag current) with
  | Some text => text
  | None =>
      match r with
      | reader => "Readers do not have permission to change article status."
      | _ =>
          transition_message (role_tag r) (JS.Str (status_tag current))
            (JS.Str (status_tag requested))
            (map status_tag (spec_table r current))
      end
  end.

(** How the built message words the allowed set. *)
Definition allowed_text (r : role) (current : status) : string :=
  match spec_table r current with
  | [] => "none"
  | l => JS.join ", " (map status_tag l)
  end.

(** ** Sample requests for the concrete instances *)

Module Sample.

Definition user (uid : Z) (type name : option string) : option User :=
  Some (mkUser (JS.Num uid) (Some (mkRole type name))).

(** A session request ([users-permissions] strategy). *)
Definition session (usr : option User) (status resourceId : JS.value)
    : PolicyContext :=
  mkContext (mkState usr (Some "users-permissions"))
            (mkBody status JS.Undefined) resourceId.

(** A request made with an API token. *)
Definition token (usr : option User) (status resourceId : JS.value)
    : PolicyContext :=
  mkContext (mkState usr (Some "api-token"))
            (mkBody status JS.Undefined) resourceId.

Definition no_config : PolicyConfig := mkConfig None None.

Definition with_roles (l : list string) : PolicyConfig := mkConfig (Some l) None.

(** A store in which every id resolves to one article, created by
    [owner] and in state [status]. *)
Definition store (owner : Z) (status : JS.value) : Strapi :=
  mkStrapi (fun _ _ _ =>
    Returned (Some (mkEntity (Some (mkCreator (JS.Num owner))) status))).

End Sample.

(** ** The table read as the policy reads it *)

(** [(VALID_TRANSITIONS[effectiveRole] || {})[currentStatus] || []]. *)
Definition allowed_next (effectiveRole currentStatus : string) : list string :=
  default [] (default ∅ (VALID_TRANSITIONS !! effectiveRole) !! currentStatus).

(** [r.toLowerCase().trim()], the normal form of a configured role. *)
Definition normalize_role (r : string) : string := JS.trim (JS.toLowerCase r).

(** ** What a denial says *)








(** ** Route tables: src/api/article/routes/article.ts and
    src/api/tag/routes/tag.ts *)

(** An entry of [config.policies]: a bare name, or a name with its
    [config]. *)
Inductive PolicyEntry : Type :=
| Named (name : string)
| Configured (name : string) (config : PolicyConfig).

(** A route: [auth] is [false] for [auth: false] and [true] for
    [auth: {}]; the [description] texts are left out. *)
Record Route : Type := mkRoute {
  method : string;
  path : string;
  handler : string;
  auth : bool;
  policies : list PolicyEntry;
}.

(** [{ name: 'global::role-check', config: { roles } }]. *)
Definition role_check_entry (l : list string) : PolicyEntry :=
  Configured "global::role-check" (mkConfig (Some l) None).

Definition article_routes : list Route := [
  mkRoute "GET" "/articles" "article.find" false [];
  mkRoute "GET" "/articles/featured" "article.featured" false [];
  mkRoute "GET" "/articles/breaking" "article.breaking" false [];
  mkRoute "GET" "/articles/trending" "article.trending" false [];
  mkRoute "GET" "/articles/bycategory/:slug" "article.byCategory" false [];
  mkRoute "GET" "/articles/search" "article.search" false [];
  mkRoute "GET" "/articles/slug/:slug" "article.findBySlug" false [];
  mkRoute "GET" "/articles/:id" "article.findOne" false [];
  mkRoute "GET" "/articles/my" "article.myArticles" true
    [role_check_entry ["reporter"; "reviewer"; "editor"; "admin"]];
  mkRoute "GET" "/articles/review-queue" "article.reviewQueue" true
    [role_check_entry ["reviewer"; "editor"; "admin"]];
  mkRoute "GET" "/articles/admin" "article.adminFind" true
    [Named "global::cms-role"];
  mkRoute "GET" "/articles/admin/slug/:slug" "article.adminFindBySlug" true
    [Named "global::cms-role"];
  mkRoute "GET" "/articles/admin/:id" "article.adminFindOne" true
    [Named "global::cms-role"];
  mkRoute "POST" "/articles" "article.create" true
    [role_check_entry ["reporter"; "reviewer"; "editor"; "admin"]];
  mkRoute "PUT" "/articles/:id" "article.update" true
    [role_check_entry ["reporter"; "reviewer"; "editor"; "admin"];
     Named "global::is-owner-or-editor";
     Named "global::workflow-status"];
  mkRoute "PATCH" "/articles/:id" "article.update" true
    [role_check_entry ["reporter"; "reviewer"; "editor"; "admin"];
     Named "global::is-owner-or-editor";
     Named "global::workflow-status"];
  mkRoute "DELETE" "/articles/:id" "article.delete" true
    [role_check_entry ["editor"; "admin"];
     Named "global::is-owner-or-editor"];
  mkRoute "POST" "/articles/:id/submit-for-review" "article.submitForReview" true
    [role_check_entry ["reporter"; "editor"; "admin"];
     Named "global::is-owner-or-editor"];
  mkRoute "POST" "/articles/:id/approve" "article.approve" true
    [role_check_entry ["reviewer"; "editor"; "admin"]];
  mkRoute "POST" "/articles/:id/reject" "article.reject" true
    [role_check_entry ["reviewer"; "editor"; "admin"]];
  mkRoute "POST" "/articles/:id/publish" "article.publish" true
    [Named "global::can-publish"];
  mkRoute "POST" "/articles/:id/unpublish" "article.unpublish" true
    [Named "global::can-publish"]
].

Definition tag_routes : list Route := [
  mkRoute "GET" "/tags" "tag.find" false [];
  mkRoute "GET" "/tags/slug/:slug" "tag.findBySlug" false [];
  mkRoute "GET" "/tags/:id" "tag.findOne" false [];
  mkRoute "POST" "/tags" "tag.create" false [Named "global::cms-role"];
  mkRoute "PATCH" "/tags/:id" "tag.update" false [Named "global::cms-role"];
  mkRoute "DELETE" "/tags/:id" "tag.delete" false [Named "global::cms-role"]
].

(** The routes of both tables. *)
Definition all_routes : list Route := (article_routes ++ tag_routes)%list.

(** The global policies, by the name a route refers to them:
    [global::] followed by the file name under [src/policies/]. *)
Definition Policy : Type := PolicyContext -> PolicyConfig -> Strapi -> outcome bool.

Definition global_policies : gmap string Policy :=
  list_to_map [
    ("global::can-publish", can_publish);
    ("global::cms-role", cms_role);
    ("global::is-owner", is_owner);
    ("global::is-owner-or-editor", is_owner_or_editor);
    ("global::role-check", role_check);
    ("global::workflow-status", workflow_status)
  ].

Definition entry_name (e : PolicyEntry) : string :=
  match e with
  | Named name => name
  | Configured name _ => name
  end.

(** A bare name runs the policy with no [config]. *)
Definition entry_config (e : PolicyEntry) : PolicyConfig :=
  match e with
  | Named _ => mkConfig None None
  | Configured _ config => config
  end.

(** The outcome of one entry of a route on a request; a name that is not
    registered resolves to nothing. *)
Definition run_entry (e : PolicyEntry) (policyContext : PolicyContext)
    (strapi : Strapi) : option (outcome bool) :=
  (fun policy : Policy => policy policyContext (entry_config e) strapi)
    <$> global_policies !! entry_name e.

(** Every policy of the route resolves to [true] on the request: the
    condition under which the route's handler is reached. *)
Definition route_passes (r : Route) (policyContext : PolicyContext)
    (strapi : Strapi) : Prop :=
  Forall (fun e => run_entry e policyContext strapi = Some (Returned true))
    (policies r).

(** ** Regular expressions *)

(** The regular expressions of the user lifecycle hooks, as terms, with
    a matcher by derivatives.  A character is a byte, which on ASCII text
    is a character of the string; [\s] is the ASCII white space. *)
Module Regex.

Inductive re : Type :=
| Empty
| Eps
| Class (p : Ascii.ascii -> bool)
| Cat (r1 r2 : re)
| Alt (r1 r2 : re)
| Star (r : re).

(** [r+], a literal character, and [.] with the [s] flag. *)
Definition Plus (r : re) : re := Cat r (Star r).

Definition Chr (c : Ascii.ascii) : re := Class (Ascii.eqb c).

Definition any : re := Class (fun _ => true).

Fixpoint nullable (r : re) : bool :=
  match r with
  | Empty => false
  | Eps => true
  | Class _ => false
  | Cat r1 r2 => nullable r1 && nullable r2
  | Alt r1 r2 => nullable r1 || nullable r2
  | Star _ => true
  end.

Fixpoint deriv (c : Ascii.ascii) (r : re) : re :=
  match r with
  | Empty => Empty
  | Eps => Empty
  | Class p => if p c then Eps else Empty
  | Cat r1 r2 =>
      if nullable r1 then Alt (Cat (deriv c r1) r2) (deriv c r2)
      else Cat (deriv c r1) r2
  | Alt r1 r2 => Alt (deriv c r1) (deriv c r2)
  | Star r => Cat (deriv c r) (Star r)
  end.

Fixpoint matches (r : re) (w : list Ascii.ascii) : bool :=
  match w with
  | [] => nullable r
  | c :: w => matches (deriv c r) w
  end.

(** [/^r$/.test(s)]. *)
Definition test_whole (r : re) (s : string) : bool :=
  matches r (String.list_ascii_of_string s).

(** [/r/.test(s)]: some part of [s] matches. *)
Definition test (r : re) (s : string) : bool :=
  matches (Cat (Star any) (Cat r (Star any))) (String.list_ascii_of_string s).

(** A character class given by the characters it lists. *)
Definition one_of (chars : string) : re :=
  Class (fun c => existsb (Ascii.eqb c) (String.list_ascii_of_string chars)).

(** A character class given by a range. *)
Definition range (lo hi : Ascii.ascii) : re :=
  Class (fun c =>
    (Ascii.nat_of_ascii lo <=? Ascii.nat_of_ascii c)%nat
    && (Ascii.nat_of_ascii c <=? Ascii.nat_of_ascii hi)%nat).

End Regex.

(** The language of a regular expression, for the statements about the
    matcher. *)
Inductive Matches : Regex.re -> list Ascii.ascii -> Prop :=
| M_Eps : Matches Regex.Eps []
| M_Class p c : p c = true -> Matches (Regex.Class p) [c]
| M_Cat r1 r2 w1 w2 :
    Matches r1 w1 -> Matches r2 w2 -> Matches (Regex.Cat r1 r2) (w1 ++ w2)%list
| M_AltL r1 r2 w : Matches r1 w -> Matches (Regex.Alt r1 r2) w
| M_AltR r1 r2 w : Matches r2 w -> Matches (Regex.Alt r1 r2) w
| M_Star_nil r : Matches (Regex.Star r) []
| M_Star_cons r w1 w2 :
    Matches r w1 -> Matches (Regex.Star r) w2 ->
    Matches (Regex.Star r) (w1 ++ w2)%list.

(** The characters of a string. *)
Definition chars (s : string) : list Ascii.ascii :=
  String.list_ascii_of_string s.

(** A string of ASCII characters. On these a byte is a character, and
    the length, the white space and the lower case of the model are those
    of JavaScript; the statements that depend on it are made for them. *)
Definition is_ascii (s : string) : bool :=
  forallb (fun c => (Ascii.nat_of_ascii c <? 128)%nat) (chars s).

(** A value that is not a string, or is a string of ASCII characters. *)
Definition ascii_value (v : JS.value) : bool :=
  match v with
  | JS.Str s => is_ascii s
  | _ => true
  end.

(** [s] has a character with the property [P]. *)
Definition contains (P : Ascii.ascii -> Prop) (s : string) : Prop :=
  exists c, c ∈ chars s /\ P c.

(** The character lies between two others, in code order. *)
Definition between (lo hi c : Ascii.ascii) : Prop :=
  (Ascii.nat_of_ascii lo <= Ascii.nat_of_ascii c <= Ascii.nat_of_ascii hi)%nat.

(** ** User lifecycle hooks:
    src/extensions/users-permissions/content-types/user/lifecycles.ts *)

Module Lifecycles.

Import Stdlib.Strings.Ascii.

(** [{ valid, message }]. *)
Record Validation : Type := mkValidation {
  valid : bool;
  message : string;
}.

(** [/[A-Z]/], [/[a-z]/], [/[0-9]/] and the class of the special
    characters: the ones listed below, with the double quote. *)
Definition upper : Regex.re := Regex.range "A"%char "Z"%char.
Definition lower : Regex.re := Regex.range "a"%char "z"%char.
Definition digit : Regex.re := Regex.range "0"%char "9"%char.
Definition specials : string :=
  "!@#$%^&*()_+-=[]{};':" ++ JS.dq ++ "\|,.<>/?".
Definition special : Regex.re := Regex.one_of specials.

Definition validatePasswordStrength (password : JS.value) : Validation :=
  match password with
  | JS.Str p =>
      if JS.is_empty p then mkValidation false "Password is required"
      else if (JS.string_length p <? 8)%nat then
        mkValidation false "Password must be at least 8 characters long"
      else if negb (Regex.test upper p) then
        mkValidation false "Password must contain at least one uppercase letter"
      else if negb (Regex.test lower p) then
        mkValidation false "Password must contain at least one lowercase letter"
      else if negb (Regex.test digit p) then
        mkValidation false "Password must contain at least one number"
      else if negb (Regex.test special p) then
        mkValidation false "Password must contain at least one special character"
      else mkValidation true "Password meets strength requirements"
  | _ => mkValidation false "Password is required"
  end.

(** [[^\s@]]. *)
Definition not_space_at : Regex.re :=
  Regex.Class (fun c => negb (JS.is_space c || Ascii.eqb c "@"%char)).

(** [/^[^\s@]+@[^\s@]+\.[^\s@]+$/]. *)
Definition emailRegex : Regex.re :=
  Regex.Cat (Regex.Plus not_space_at)
    (Regex.Cat (Regex.Chr "@"%char)
       (Regex.Cat (Regex.Plus not_space_at)
          (Regex.Cat (Regex.Chr "."%char) (Regex.Plus not_space_at)))).

Definition disposableDomains : list string :=
  ["tempmail.com"; "throwaway.com"; "mailinator.com"; "guerrillamail.com";
   "10minutemail.com"].

(** [s.split(c)] for a one-character separator. *)
Fixpoint split (c : Ascii.ascii) (s : string) : list string :=
  match s with
  | EmptyString => [EmptyString]
  | String a r =>
      if Ascii.eqb a c then EmptyString :: split c r
      else match split c r with
           | [] => [String a EmptyString]
           | x :: l => String a x :: l
           end
  end.

Definition validateEmail (email : JS.value) : Validation :=
  match email with
  | JS.Str e =>
      if JS.is_empty e then mkValidation false "Email is required"
      else if negb (Regex.test_whole emailRegex e) then
        mkValidation false "Invalid email format"
      else
        let domain :=
          match split "@"%char e !! 1%nat with
          | Some d => JS.Str (JS.toLowerCase d)
          | None => JS.Undefined
          end in
        if JS.array_includes disposableDomains domain then
          mkValidation false "Disposable email addresses are not allowed"
        else mkValidation true "Email is valid"
  | _ => mkValidation false "Email is required"
  end.

(** [event.params.data], as far as the hooks read it. *)
Record UserData : Type := mkUserData {
  email : JS.value;
  password : JS.value;
  role : JS.value;
}.

(** The [where] clause of the uniqueness query: the email, and the id to
    leave out when there is one. *)
Record UserQuery : Type := mkUserQuery {
  where_email : string;
  where_id_ne : option JS.value;
}.

(** [strapi.db.query('plugin::users-permissions.user').findOne]: resolves
    to a user ([true]) or to [null] ([false]), or rejects. *)
Record UsersDb : Type := mkUsersDb {
  findOne_user : UserQuery -> outcome bool;
}.

(** [data.email.toLowerCase()] on the value of [data.email]. *)
Definition email_toLowerCase (v : JS.value) : outcome string :=
  match v with
  | JS.Str e => Returned (JS.toLowerCase e)
  | _ => throw "data.email.toLowerCase is not a function"
  end.

Definition beforeCreate (db : UsersDb) (data : UserData) : outcome UserData :=
  (if JS.truthy (email data) then
     let emailValidation := validateEmail (email data) in
     if negb (valid emailValidation) then throw (message emailValidation)
     else
       email_toLowerCase (email data) ≫= fun lowercased : string =>
       findOne_user db (mkUserQuery lowercased None) ≫= fun existingUser : bool =>
       if existingUser then throw "Email already exists"
       else Returned (mkUserData (JS.Str lowercased) (password data) (role data))
   else Returned data) ≫= fun data : UserData =>
  (if JS.truthy (password data) then
     let passwordValidation := validatePasswordStrength (password data) in
     if negb (valid passwordValidation) then throw (message passwordValidation)
     else Returned data
   else Returned data) ≫= fun data : UserData =>
  if JS.strict_eq (role data) JS.Null then
    throw "User must have a role assigned"
  else Returned data.

Definition beforeUpdate (db : UsersDb) (userId : JS.value) (data : UserData)
    : outcome UserData :=
  if JS.strict_eq (role data) JS.Null then
    throw "User role cannot be set to null"
  else
    (if negb (JS.strict_eq (email data) JS.Undefined) then
       let emailValidation := validateEmail (email data) in
       if negb (valid emailValidation) then throw (message emailValidation)
       else
         email_toLowerCase (email data) ≫= fun lowercased : string =>
         findOne_user db (mkUserQuery lowercased (Some userId))
           ≫= fun existingUser : bool =>
         if existingUser then throw "Email already exists"
         else Returned (mkUserData (JS.Str lowercased) (password data) (role data))
     else Returned data) ≫= fun data : UserData =>
    if JS.truthy (password data) then
      let passwordValidation := validatePasswordStrength (password data) in
      if negb (valid passwordValidation) then throw (message passwordValidation)
      else Returned data
    else Returned data.

(** What the hooks accept: an email or a password that passes its
    validation. *)
Definition email_ok (e : string) : Prop :=
  valid (validateEmail (JS.Str e)) = true.

Definition password_ok (p : string) : Prop :=
  valid (validatePasswordStrength (JS.Str p)) = true.

(** The email step and the password step of the two hooks, as the
    proofs take them apart; [exclude] is the id the update hook leaves
    out of the uniqueness query. *)
Definition check_email (db : UsersDb) (exclude : option JS.value)
    (data : UserData) : outcome UserData :=
  let emailValidation := validateEmail (email data) in
  if negb (valid emailValidation) then throw (message emailValidation)
  else
    email_toLowerCase (email data) ≫= fun lowercased : string =>
    findOne_user db (mkUserQuery lowercased exclude)
      ≫= fun existingUser : bool =>
    if existingUser then throw "Email already exists"
    else Returned (mkUserData (JS.Str lowercased) (password data) (role data)).

Definition check_password (data : UserData) : outcome UserData :=
  if JS.truthy (password data) then
    let passwordValidation := validatePasswordStrength (password data) in
    if negb (valid passwordValidation) then throw (message passwordValidation)
    else Returned data
  else Returned data.

(** A non-empty string with no white space and no [@]: what [[^\s@]+]
    stands for. *)
Definition plain (s : string) : Prop :=
  s <> EmptyString /\
  forall c, c ∈ chars s -> JS.is_space c = false /\ c <> "@"%char.

(** [local@domain.tld]. *)
Definition email_shape (e : string) : Prop :=
  exists l d t, e = l ++ "@" ++ d ++ "." ++ t /\ plain l /\ plain d /\ plain t.

(** The requirements on a password, on its characters. *)
Definition strong (p : string) : Prop :=
  (8 <= JS.string_length p)%nat
  /\ contains (between "A"%char "Z"%char) p
  /\ contains (between "a"%char "z"%char) p
  /\ contains (between "0"%char "9"%char) p
  /\ contains (fun c => c ∈ chars specials) p.

(** What a hook leaves behind: a role that is not [null], an email that
    is valid and in lower case when there is one, a password that is
    strong when there is one. *)
Definition well_formed (data : UserData) : Prop :=
  role data <> JS.Null
  /\ (JS.truthy (email data) = true ->
      exists e, email data = JS.Str e /\ email_ok e /\ JS.toLowerCase e = e)
  /\ (JS.truthy (password data) = true ->
      exists p, password data = JS.Str p /\ password_ok p).

End Lifecycles.

(** Sample users for the hooks: a store with no user, a store that
    fails, and the data of a new reporter. *)
Module SampleUsers.

Definition empty_db : Lifecycles.UsersDb :=
  Lifecycles.mkUsersDb (fun _ => Returned false).

Definition taken_db : Lifecycles.UsersDb :=
  Lifecycles.mkUsersDb (fun _ => Returned true).

Definition failing_db : Lifecycles.UsersDb :=
  Lifecycles.mkUsersDb (fun _ => Thrown NonError).

Definition new_user : Lifecycles.UserData :=
  Lifecycles.mkUserData (JS.Str "Reporter@Example.com") (JS.Str "Abcdef1!")
    JS.Undefined.

Definition stored_user : Lifecycles.UserData :=
  Lifecycles.mkUserData (JS.Str "reporter@example.com") (JS.Str "Abcdef1!")
    JS.Undefined.

End SampleUsers.

(** * Properties *)

(** ** Strings *)

Example toLowerCase_mixed : JS.toLowerCase "EdiTor-1" = "editor-1".
Proof. reflexivity. Qed.

Example trim_both_ends : JS.trim "  Ad min  " = "Ad min".
Proof. vm_compute. reflexivity. Qed.

Example includes_inside : JS.includes "Resource not found" "not found" = true.
Proof. vm_compute. reflexivity. Qed.

Example includes_absent : JS.includes "Resource not found" "Not found" = false.
Proof. vm_compute. reflexivity. Qed.

Example to_string_number : JS.to_string (JS.Num (-42)) = "-42".
Proof. vm_compute. reflexivity. Qed.

Lemma includes_unfold (s sub : string) :
  JS.includes s sub =
    String.prefix sub s
    || match s with
       | EmptyString => false
       | String _ r => JS.includes r sub
       end.
Proof. by destruct s. Qed.

Lemma append_empty_r (s : string) : s ++ EmptyString = s.
Proof.
  induction s as [| c s IH]; [done |].
  change (String c s ++ EmptyString) with (String c (s ++ EmptyString)).
  by rewrite IH.
Qed.

Lemma prefix_append (s t : string) : String.prefix s (s ++ t) = true.
Proof.
  induction s as [| c s IH]; [by destruct t |].
  change (String c s ++ t) with (String c (s ++ t)).
  cbn [String.prefix]. by destruct (Ascii.ascii_dec c c).
Qed.

Lemma prefix_append_same (a s t : string) :
  String.prefix s t = true -> String.prefix (a ++ s) (a ++ t) = true.
Proof.
  intros H. induction a as [| c a IH]; [done |].
  change (String.prefix (String c (a ++ s)) (String c (a ++ t)) = true).
  cbn [String.prefix]. by destruct (Ascii.ascii_dec c c).
Qed.

Lemma includes_prefix (s sub : string) :
  String.prefix sub s = true -> JS.includes s sub = true.
Proof. intros H. by rewrite includes_unfold, H. Qed.

Lemma includes_append_r (a s sub : string) :
  JS.includes s sub = true -> JS.includes (a ++ s) sub = true.
Proof.
  intros H. induction a as [| c a IH]; [done |].
  change (String c a ++ s) with (String c (a ++ s)).
  rewrite includes_unfold, IH. apply orb_true_r.
Qed.

Lemma includes_refl (s : string) : JS.includes s s = true.
Proof.
  apply includes_prefix.
  rewrite <- (append_empty_r s) at 2. apply prefix_append.
Qed.

(** The built transition message quotes the current and the requested
    state and ends with the allowed next states. *)
Lemma transition_message_quotes_states (effectiveRole : string)
    (currentStatus newStatus : JS.value) (allowedNextStatuses : list string) :
  JS.includes
    (transition_message effectiveRole currentStatus newStatus allowedNextStatuses)
    (JS.dq ++ JS.to_string currentStatus ++ JS.dq ++ " → "
     ++ JS.dq ++ JS.to_string newStatus ++ JS.dq) = true
  /\ JS.includes
       (transition_message effectiveRole currentStatus newStatus allowedNextStatuses)
       ("Allowed transitions from " ++ JS.dq ++ JS.to_string currentStatus
        ++ JS.dq ++ ": "
        ++ (if (0 <? length allowedNextStatuses)%nat
            then JS.join ", " allowedNextStatuses else "none")) = true.
Proof.
  unfold transition_message. split.
  - apply includes_append_r, includes_prefix.
    do 6 apply prefix_append_same. apply prefix_append.
  - do 11 apply includes_append_r. apply includes_refl.
Qed.

(** The role gate's denial ends with the list of required roles. *)
Lemma required_roles_message_names_roles (userRole : string)
    (allowedRoles : list string) :
  JS.includes (required_roles_message userRole allowedRoles)
    ("Required roles: " ++ JS.join ", " allowedRoles) = true.
Proof.
  unfold required_roles_message.
  do 5 apply includes_append_r. apply includes_refl.
Qed.

(** ** The service-credential bypass *)

Lemma api_token_flag (st : State) :
  auth_strategy_name st = Some "api-token" -> is_api_token st = true.
Proof. intros H. unfold is_api_token. by rewrite bool_decide_eq_true. Qed.

(** C4. A request made with the trusted service credential (auth strategy
    [api-token]) is allowed by every policy (role-check, cms-role,
    is-owner, is-owner-or-editor, workflow-status, can-publish), whatever
    the principal, its role, the configuration, the resource and its owner,
    and the requested status. *)
Theorem api_token_bypasses_every_policy
    (policyContext : PolicyContext) (config : PolicyConfig) (strapi : Strapi) :
  auth_strategy_name (state policyContext) = Some "api-token" ->
  role_check policyContext config strapi = Returned true
  /\ cms_role policyContext config strapi = Returned true
  /\ is_owner policyContext config strapi = Returned true
  /\ is_owner_or_editor policyContext config strapi = Returned true
  /\ workflow_status policyContext config strapi = Returned true
  /\ can_publish policyContext config strapi = Returned true.
Proof.
  intros H%api_token_flag.
  unfold role_check, cms_role, is_owner, is_owner_or_editor, workflow_status,
    can_publish.
  by rewrite H.
Qed.

(** A reader holding an API token, asking to publish article 5 that user
    3 created, with no roles configured. *)
Lemma api_token_bypasses_every_policy_witness :
  let ctx := Sample.token (Sample.user 7 (Some "reader") (Some "Reader"))
               (JS.Str "published") (JS.Str "5") in
  let strapi := Sample.store 3 (JS.Str "draft") in
  role_check ctx Sample.no_config strapi = Returned true
  /\ cms_role ctx Sample.no_config strapi = Returned true
  /\ is_owner ctx Sample.no_config strapi = Returned true
  /\ is_owner_or_editor ctx Sample.no_config strapi = Returned true
  /\ workflow_status ctx Sample.no_config strapi = Returned true
  /\ can_publish ctx Sample.no_config strapi = Returned true.
Proof.
  intros ctx strapi.
  apply (api_token_bypasses_every_policy ctx Sample.no_config strapi).
  reflexivity.
Defined.

(** ** Requests that do not change the status *)

Lemma falsy_not_valid (v : JS.value) :
  JS.truthy v = false -> JS.array_includes validStatuses v = false.
Proof.
  destruct v as [| |[]|n|s]; try done.
  intros H. destruct s; [done | discriminate H].
Qed.

Lemma workflow_status_no_status
    (policyContext : PolicyContext) (config : PolicyConfig) (strapi : Strapi) :
  authenticated policyContext ->
  JS.truthy (requested_status policyContext) = false ->
  workflow_status policyContext config strapi = Returned true.
Proof.
  unfold authenticated, requested_status, workflow_status.
  intros Hid Hno. cbv zeta. rewrite Hid, Hno.
  by destruct (is_api_token _).
Qed.

(** C6. For every role and every current status, the workflow check
    passes for an authenticated principal when the request carries no
    target status at all, and when the target status equals the current
    status of the article (the stored status, [draft] when none is
    stored). *)
Theorem unchanged_status_always_passes
    (policyContext : PolicyContext) (config : PolicyConfig) (strapi : Strapi) :
  authenticated policyContext ->
  (data_workflowStatus (request_body policyContext) = JS.Undefined
   /\ body_workflowStatus (request_body policyContext) = JS.Undefined)
  \/ (exists (article : Entity) (current : string),
        current ∈ validStatuses
        /\ JS.truthy (params_id policyContext) = true
        /\ findOne strapi "api::article.article" (params_id policyContext) []
           = Returned (Some article)
        /\ JS.or (workflowStatus article) (JS.Str "draft") = JS.Str current
        /\ requested_status policyContext = JS.Str current) ->
  workflow_status policyContext config strapi = Returned true.
Proof.
  intros Hid [[Hd Hb] | (article & current & Hin & Hpar & Hfind & Hcur & Hreq)].
  - apply workflow_status_no_status; [done |].
    unfold requested_status. by rewrite Hd, Hb.
  - assert (Hvalid : JS.array_includes validStatuses (JS.Str current) = true).
    { unfold validStatuses in *.
      repeat (apply elem_of_cons in Hin as [-> | Hin]; [done |]).
      by apply elem_of_nil in Hin. }
    assert (Htruthy : JS.truthy (JS.Str current) = true).
    { destruct (JS.truthy (JS.Str current)) eqn:E; [done |].
      apply falsy_not_valid in E. congruence. }
    unfold authenticated, requested_status, workflow_status in *.
    cbv zeta. rewrite Hid, Hreq, Htruthy, Hvalid, Hpar, Hfind.
    destruct (is_api_token _); [done |].
    cbn [negb try_catch mbind outcome_bind]. rewrite Hcur.
    unfold JS.strict_eq. by rewrite bool_decide_eq_true_2.
Qed.

(** A reader re-submitting [published] on a published article. *)
Lemma unchanged_status_always_passes_witness :
  workflow_status
    (Sample.session (Sample.user 7 (Some "reader") None)
       (JS.Str "published") (JS.Str "5"))
    Sample.no_config (Sample.store 3 (JS.Str "published"))
  = Returned true.
Proof.
  apply unchanged_status_always_passes; [reflexivity |].
  right. exists (mkEntity (Some (mkCreator (JS.Num 3))) (JS.Str "published")).
  exists "published". repeat split; try reflexivity.
  unfold validStatuses. repeat constructor.
Defined.

(** C10. For an authenticated request without the service credential
    whose target status is a falsy value (the empty string in particular),
    the workflow check allows: it takes the request as one that asks for
    no status change, whoever the principal and whatever the resource and
    the store, although such a value is outside the enumeration and the
    validation would have rejected it. *)
Theorem falsy_status_is_allowed_unvalidated
    (policyContext : PolicyContext) (config : PolicyConfig) (strapi : Strapi) :
  not_bypassed policyContext ->
  authenticated policyContext ->
  JS.truthy (requested_status policyContext) = false ->
  workflow_status policyContext config strapi = Returned true
  /\ JS.array_includes validStatuses (requested_status policyContext) = false.
Proof.
  intros _ Hid Hno. split.
  - by apply workflow_status_no_status.
  - by apply falsy_not_valid.
Qed.

(** A reader sending [workflowStatus: ''] for article 5. *)
Lemma falsy_status_is_allowed_unvalidated_witness :
  let ctx := Sample.session (Sample.user 7 (Some "reader") None)
               (JS.Str EmptyString) (JS.Str "5") in
  workflow_status ctx Sample.no_config (Sample.store 3 (JS.Str "published"))
  = Returned true
  /\ JS.array_includes validStatuses (requested_status ctx) = false.
Proof.
  intros ctx.
  apply (falsy_status_is_allowed_unvalidated ctx); reflexivity.
Defined.

(** ** The publish gate *)

Lemma can_publish_decision
    (policyContext : PolicyContext) (config : PolicyConfig) (strapi : Strapi) :
  not_bypassed policyContext ->
  authenticated policyContext ->
  can_publish policyContext config strapi =
    if String.eqb (roleType_of policyContext) "editor"
       || String.eqb (roleName_of policyContext) "editor"
    then Returned true
    else throw "You do not have permission to publish content. Only Editors can publish or unpublish articles.".
Proof.
  unfold not_bypassed, authenticated, can_publish, roleType_of, roleName_of.
  intros -> ->. cbv zeta. cbn [negb].
  by destruct (_ || _).
Qed.

(** C3, as the code has it. The publish gate allows exactly the
    authenticated principals whose lower-cased role type or role name is
    [editor]; every other authenticated principal, [admin] included, is
    denied with the editors-only message. The decision reads neither the
    request body, the resource id nor the store, so it does not depend on
    the workflow status of any article. *)
Theorem can_publish_editor_only
    (policyContext : PolicyContext) (config : PolicyConfig) (strapi : Strapi) :
  not_bypassed policyContext ->
  authenticated policyContext ->
  (can_publish policyContext config strapi = Returned true
   <-> roleType_of policyContext = "editor" \/ roleName_of policyContext = "editor")
  /\ (~ (roleType_of policyContext = "editor" \/ roleName_of policyContext = "editor") ->
      can_publish policyContext config strapi =
        throw "You do not have permission to publish content. Only Editors can publish or unpublish articles.")
  /\ (forall (body' : Body) (id' : JS.value) (config' : PolicyConfig)
             (strapi' : Strapi),
        can_publish (mkContext (state policyContext) body' id') config' strapi'
        = can_publish policyContext config strapi).
Proof.
  intros Hapi Hid.
  rewrite (can_publish_decision _ _ _ Hapi Hid).
  split; [| split].
  - rewrite <- !String.eqb_eq, <- orb_true_iff.
    destruct (_ || _); split; done.
  - rewrite <- !String.eqb_eq, <- orb_true_iff.
    destruct (_ || _); [| done]. by intros [].
  - intros body' id' config' strapi'.
    by rewrite can_publish_decision.
Qed.

(** An authenticated editor passes the publish gate. *)
Lemma can_publish_editor_only_witness :
  let ctx := Sample.session (Sample.user 7 (Some "editor") (Some "Editor"))
               JS.Undefined (JS.Str "5") in
  can_publish ctx Sample.no_config (Sample.store 3 (JS.Str "draft"))
  = Returned true.
Proof.
  intros ctx.
  destruct (can_publish_editor_only ctx Sample.no_config
              (Sample.store 3 (JS.Str "draft")) eq_refl eq_refl)
    as [[_ Hpass] _].
  apply Hpass. left. reflexivity.
Defined.

(** C3 fails as stated: an authenticated principal whose role type and
    role name are both [admin] is denied by the publish gate. *)
Lemma can_publish_denies_admin :
  let ctx := Sample.session (Sample.user 7 (Some "admin") (Some "Admin"))
               JS.Undefined (JS.Str "5") in
  authenticated ctx
  /\ roleType_of ctx = "admin" /\ roleName_of ctx = "admin"
  /\ can_publish ctx Sample.no_config (Sample.store 3 (JS.Str "draft"))
     = throw "You do not have permission to publish content. Only Editors can publish or unpublish articles.".
Proof. repeat split. Qed.

(** ** Ownership or editor *)

Lemma own_error_nonempty (message : string) :
  is_own_error message = true -> message <> EmptyString.
Proof. by intros H ->. Qed.

Lemma is_owner_or_editor_editor
    (policyContext : PolicyContext) (config : PolicyConfig) (strapi : Strapi) :
  not_bypassed policyContext ->
  authenticated policyContext ->
  roleType_of policyContext = "editor" \/ roleName_of policyContext = "editor" ->
  is_owner_or_editor policyContext config strapi = Returned true.
Proof.
  unfold not_bypassed, authenticated, is_owner_or_editor, roleType_of,
    roleName_of.
  intros -> -> Hed. cbv zeta. cbn [negb].
  rewrite <- !String.eqb_eq, <- orb_true_iff in Hed.
  by rewrite Hed.
Qed.

Lemma is_owner_or_editor_other
    (policyContext : PolicyContext) (config : PolicyConfig) (strapi : Strapi)
    (entity : Entity) :
  not_bypassed policyContext ->
  authenticated policyContext ->
  ~ (roleType_of policyContext = "editor" \/ roleName_of policyContext = "editor") ->
  JS.truthy (params_id policyContext) = true ->
  findOne strapi
    (JS.str_or (JS.or_empty (contentType config)) "api::article.article")
    (params_id policyContext) ["createdBy"] = Returned (Some entity) ->
  is_owner_or_editor policyContext config strapi =
    if negb (JS.truthy (id_of_creator entity)) then
      throw "Unable to verify ownership - resource has no creator"
    else if JS.strict_eq (id_of_creator entity)
              (id_of (state_user (state policyContext))) then Returned true
    else throw "You do not have permission to modify this resource. Only the content owner or an Editor can perform this action.".
Proof.
  unfold not_bypassed, authenticated, is_owner_or_editor, roleType_of,
    roleName_of.
  intros -> -> Hed -> ->. cbv zeta. cbn [negb mbind outcome_bind].
  rewrite <- !String.eqb_eq, <- orb_true_iff in Hed.
  apply not_true_is_false in Hed as ->.
  destruct (JS.truthy (id_of_creator entity)); [| done].
  cbn [negb]. by destruct (JS.strict_eq _ _).
Qed.

(** C2, as the code has it. In the ownership-or-editor check an
    authenticated principal whose lower-cased role type or role name is
    [editor] passes, whatever the resource and its creator. Any other
    authenticated principal, [admin] included, passes on a resource the
    store returns if and only if the resource's creator id is the
    principal's id, and is otherwise denied: with the not-owner message
    when the resource has a creator, with the no-creator message when it
    has none. *)
Theorem owner_or_editor_decision
    (policyContext : PolicyContext) (config : PolicyConfig) (strapi : Strapi) :
  not_bypassed policyContext ->
  authenticated policyContext ->
  (roleType_of policyContext = "editor" \/ roleName_of policyContext = "editor" ->
   is_owner_or_editor policyContext config strapi = Returned true)
  /\ (~ (roleType_of policyContext = "editor" \/ roleName_of policyContext = "editor") ->
      forall entity : Entity,
        JS.truthy (params_id policyContext) = true ->
        findOne strapi
          (JS.str_or (JS.or_empty (contentType config)) "api::article.article")
          (params_id policyContext) ["createdBy"] = Returned (Some entity) ->
        (is_owner_or_editor policyContext config strapi = Returned true
         <-> id_of_creator entity = id_of (state_user (state policyContext)))
        /\ (id_of_creator entity <> id_of (state_user (state policyContext)) ->
            is_owner_or_editor policyContext config strapi =
              if JS.truthy (id_of_creator entity) then
                throw "You do not have permission to modify this resource. Only the content owner or an Editor can perform this action."
              else throw "Unable to verify ownership - resource has no creator")).
Proof.
  intros Hapi Hid. split.
  - by apply is_owner_or_editor_editor.
  - intros Hed entity Hpar Hfind.
    rewrite (is_owner_or_editor_other _ _ _ entity Hapi Hid Hed Hpar Hfind).
    unfold JS.strict_eq.
    destruct (JS.truthy (id_of_creator entity)) eqn:Hcr; cbn [negb].
    + case_bool_decide as Heq; split; done.
    + assert (id_of_creator entity <> id_of (state_user (state policyContext)))
        by (intros Heq; unfold authenticated in Hid; congruence).
      split; [split; done | done].
Qed.

(** A reporter updating an article of their own. *)
Lemma owner_or_editor_decision_witness :
  is_owner_or_editor
    (Sample.session (Sample.user 7 (Some "reporter") (Some "Reporter"))
       JS.Undefined (JS.Str "5"))
    Sample.no_config (Sample.store 7 (JS.Str "draft"))
  = Returned true.
Proof.
  destruct (owner_or_editor_decision
    (Sample.session (Sample.user 7 (Some "reporter") (Some "Reporter"))
       JS.Undefined (JS.Str "5"))
    Sample.no_config (Sample.store 7 (JS.Str "draft")) eq_refl eq_refl)
    as [_ H].
  assert (Hrole : ~ ("reporter" = "editor" \/ "reporter" = "editor"))
    by (intros [|]; discriminate).
  destruct (H Hrole (mkEntity (Some (mkCreator (JS.Num 7))) (JS.Str "draft"))
              eq_refl eq_refl) as [[_ Hpass] _].
  apply Hpass. reflexivity.
Defined.

(** C2 fails as stated: an authenticated [admin] who did not create the
    article is denied by the ownership-or-editor check. *)
Lemma owner_or_editor_denies_admin :
  let ctx := Sample.session (Sample.user 7 (Some "admin") (Some "Admin"))
               JS.Undefined (JS.Str "5") in
  authenticated ctx
  /\ roleType_of ctx = "admin" /\ roleName_of ctx = "admin"
  /\ is_owner_or_editor ctx Sample.no_config (Sample.store 3 (JS.Str "draft"))
     = throw "You do not have permission to modify this resource. Only the content owner or an Editor can perform this action.".
Proof. repeat split. Qed.

(** ** Creation requests *)

Lemma valid_status_accepted (s : string) :
  s ∈ validStatuses ->
  JS.truthy (JS.Str s) = true /\ JS.array_includes validStatuses (JS.Str s) = true.
Proof.
  unfold validStatuses. intros Hin.
  repeat (apply elem_of_cons in Hin as [-> | Hin]; [done |]).
  by apply elem_of_nil in Hin.
Qed.

Lemma workflow_status_creation
    (policyContext : PolicyContext) (config : PolicyConfig) (strapi : Strapi)
    (s : string) :
  not_bypassed policyContext ->
  authenticated policyContext ->
  JS.truthy (params_id policyContext) = false ->
  requested_status policyContext = JS.Str s ->
  s ∈ validStatuses ->
  workflow_status policyContext config strapi =
    if String.eqb (roleType_of policyContext) "reporter"
       && negb (String.eqb s "draft") then
      throw "Reporters can only create articles in draft status. Submit for review after creation."
    else if String.eqb (roleType_of policyContext) "reviewer" then
      throw "Reviewers cannot create articles. Only Reporters and Editors can create content."
    else if String.eqb (roleType_of policyContext) "reader" then
      throw "Readers cannot create articles."
    else Returned true.
Proof.
  unfold not_bypassed, authenticated, requested_status, workflow_status,
    roleType_of.
  intros Hapi Hid Hpar Hreq [Htruthy Hvalid]%valid_status_accepted.
  cbv zeta. rewrite Hapi, Hid, Hreq, Htruthy, Hvalid, Hpar.
  cbn [negb]. unfold JS.strict_eq.
  replace (bool_decide (JS.Str s = JS.Str "draft")) with (String.eqb s "draft");
    [done |].
  destruct (String.eqb_spec s "draft") as [-> | Hne].
  - by rewrite bool_decide_eq_true_2.
  - rewrite bool_decide_eq_false_2; [done | congruence].
Qed.

(** C5, as the code has it. On a creation request (no resource id) of an
    authenticated principal: when the request carries no target status the
    workflow check passes for every role; when it carries one of the three
    statuses, a principal whose lower-cased role type is [reporter] is
    denied unless that status is [draft], one whose role type is
    [reviewer] or [reader] is denied, and a principal of any other role
    type is allowed at each of the three statuses. *)
Theorem creation_initial_status_rule
    (policyContext : PolicyContext) (config : PolicyConfig) (strapi : Strapi) :
  not_bypassed policyContext ->
  authenticated policyContext ->
  JS.truthy (params_id policyContext) = false ->
  (JS.truthy (requested_status policyContext) = false ->
   workflow_status policyContext config strapi = Returned true)
  /\ (forall s : string,
        requested_status policyContext = JS.Str s ->
        s ∈ validStatuses ->
        (roleType_of policyContext = "reporter" -> s <> "draft" ->
         workflow_status policyContext config strapi =
           throw "Reporters can only create articles in draft status. Submit for review after creation.")
        /\ (roleType_of policyContext = "reporter" -> s = "draft" ->
            workflow_status policyContext config strapi = Returned true)
        /\ (roleType_of policyContext = "reviewer" ->
            workflow_status policyContext config strapi =
              throw "Reviewers cannot create articles. Only Reporters and Editors can create content.")
        /\ (roleType_of policyContext = "reader" ->
            workflow_status policyContext config strapi =
              throw "Readers cannot create articles.")
        /\ (roleType_of policyContext <> "reporter" ->
            roleType_of policyContext <> "reviewer" ->
            roleType_of policyContext <> "reader" ->
            workflow_status policyContext config strapi = Returned true)).
Proof.
  intros Hapi Hid Hpar. split.
  - by apply workflow_status_no_status.
  - intros s Hreq Hin.
    rewrite (workflow_status_creation _ _ _ s Hapi Hid Hpar Hreq Hin).
    repeat split.
    + intros -> Hne%String.eqb_neq. by rewrite Hne.
    + by intros -> ->.
    + by intros ->.
    + by intros ->.
    + intros H1%String.eqb_neq H2%String.eqb_neq H3%String.eqb_neq.
      by rewrite H1, H2, H3.
Qed.

(** A reporter creating an article in [review] is denied. *)
Lemma creation_initial_status_rule_witness :
  workflow_status
    (Sample.session (Sample.user 7 (Some "reporter") None)
       (JS.Str "review") JS.Undefined)
    Sample.no_config (Sample.store 3 JS.Null)
  = throw "Reporters can only create articles in draft status. Submit for review after creation.".
Proof.
  destruct (creation_initial_status_rule
    (Sample.session (Sample.user 7 (Some "reporter") None)
       (JS.Str "review") JS.Undefined)
    Sample.no_config (Sample.store 3 JS.Null) eq_refl eq_refl eq_refl)
    as [_ H].
  assert (Hin : "review" ∈ validStatuses) by (unfold validStatuses; repeat constructor).
  destruct (H "review" eq_refl Hin) as [Hdeny _].
  apply Hdeny; [reflexivity | discriminate].
Defined.

(** C5 fails as stated: a reviewer, and likewise a reader, creating an
    article without a target status passes the workflow check. *)
Lemma creation_without_status_passes_for_reviewer :
  let reviewer := Sample.session (Sample.user 7 (Some "reviewer") (Some "Reviewer"))
                    JS.Undefined JS.Undefined in
  let reader := Sample.session (Sample.user 8 (Some "reader") (Some "Reader"))
                  JS.Undefined JS.Undefined in
  roleType_of reviewer = "reviewer"
  /\ roleType_of reader = "reader"
  /\ params_id reviewer = JS.Undefined
  /\ params_id reader = JS.Undefined
  /\ workflow_status reviewer Sample.no_config (Sample.store 3 JS.Null)
     = Returned true
  /\ workflow_status reader Sample.no_config (Sample.store 3 JS.Null)
     = Returned true.
Proof. repeat split. Qed.

(** ** The role gate *)

(** Membership in a set of strings, decided by evaluation. *)
Lemma gset_elem_by_eval (x : string) (X : gset string) :
  bool_decide (x ∈ X) = true -> x ∈ X.
Proof. apply bool_decide_eq_true_1. Qed.

Lemma gset_not_elem_by_eval (x : string) (X : gset string) :
  bool_decide (x ∈ X) = false -> x ∉ X.
Proof. apply bool_decide_eq_false_1. Qed.

Lemma role_check_unauthenticated
    (policyContext : PolicyContext) (config : PolicyConfig) (strapi : Strapi) :
  not_bypassed policyContext ->
  ~ authenticated policyContext ->
  role_check policyContext config strapi =
    throw "You must be logged in to access this resource".
Proof.
  unfold not_bypassed, authenticated, role_check.
  intros -> Hid%not_true_is_false. cbv zeta. by rewrite Hid.
Qed.

Lemma role_check_authenticated
    (policyContext : PolicyContext) (config : PolicyConfig) (strapi : Strapi) :
  not_bypassed policyContext ->
  authenticated policyContext ->
  role_check policyContext config strapi =
    let allowedRoles := default [] (roles config) in
    match allowedRoles with
    | [] => throw "Access denied - policy configuration error"
    | _ :: _ =>
        if JS.is_empty (roleType_of policyContext)
           && JS.is_empty (roleName_of policyContext) then
          throw "Access denied - no role assigned to your account"
        else if bool_decide (roleType_of policyContext ∈ normalized_allowed allowedRoles)
                || bool_decide (roleName_of policyContext ∈ normalized_allowed allowedRoles)
        then Returned true
        else throw (required_roles_message
                      (JS.str_or (roleType_of policyContext) (roleName_of policyContext))
                      allowedRoles)
    end.
Proof.
  unfold not_bypassed, authenticated, role_check, roleType_of, roleName_of.
  intros -> ->. cbv zeta. cbn [negb].
  destruct (default [] (roles config)) as [| r l]; [done |].
  cbn [length Nat.eqb].
  destruct (_ && _); [done |].
  fold (normalized_allowed (r :: l)).
  by destruct (_ || _).
Qed.

Lemma required_roles_message_distinct (userRole : string)
    (allowedRoles : list string) :
  required_roles_message userRole allowedRoles
  <> "Access denied - policy configuration error"
  /\ required_roles_message userRole allowedRoles
     <> "Access denied - no role assigned to your account"
  /\ required_roles_message userRole allowedRoles
     <> "You must be logged in to access this resource".
Proof. repeat split; discriminate. Qed.

(** C7, as the code has it. For a request without the service
    credential the role gate fails, in this order: with the not-logged-in
    denial when the context has no principal id; with the configuration
    denial when no role is configured; with the no-role-assigned denial,
    which does not name the required roles, when both lower-cased role
    fields of the principal are empty; and otherwise with the denial that
    names the required roles exactly when neither the lower-cased role
    type nor the lower-cased role name is in the lower-cased, trimmed
    allowed set, and allows when one of them is. The denial naming the
    required roles differs from each of the other three. *)
Theorem role_check_decision
    (policyContext : PolicyContext) (config : PolicyConfig) (strapi : Strapi) :
  not_bypassed policyContext ->
  let allowedRoles := default [] (roles config) in
  let roleType := roleType_of policyContext in
  let roleName := roleName_of policyContext in
  let matched := roleType ∈ normalized_allowed allowedRoles
                 \/ roleName ∈ normalized_allowed allowedRoles in
  (~ authenticated policyContext ->
   role_check policyContext config strapi =
     throw "You must be logged in to access this resource")
  /\ (authenticated policyContext -> allowedRoles = [] ->
      role_check policyContext config strapi =
        throw "Access denied - policy configuration error")
  /\ (authenticated policyContext -> allowedRoles <> [] ->
      roleType = EmptyString /\ roleName = EmptyString ->
      role_check policyContext config strapi =
        throw "Access denied - no role assigned to your account")
  /\ (authenticated policyContext -> allowedRoles <> [] ->
      ~ (roleType = EmptyString /\ roleName = EmptyString) ->
      (matched -> role_check policyContext config strapi = Returned true)
      /\ (role_check policyContext config strapi =
            throw (required_roles_message (JS.str_or roleType roleName) allowedRoles)
          <-> ~ matched))
  /\ (forall userRole : string,
        JS.includes (required_roles_message userRole allowedRoles)
          ("Required roles: " ++ JS.join ", " allowedRoles) = true
        /\ required_roles_message userRole allowedRoles
           <> "Access denied - policy configuration error"
        /\ required_roles_message userRole allowedRoles
           <> "Access denied - no role assigned to your account"
        /\ required_roles_message userRole allowedRoles
           <> "You must be logged in to access this resource").
Proof.
  intros Hapi allowedRoles roleType roleName matched.
  split; [by apply role_check_unauthenticated |].
  assert (Hnorole : JS.is_empty roleType && JS.is_empty roleName = true
                    <-> roleType = EmptyString /\ roleName = EmptyString).
  { unfold JS.is_empty. by rewrite andb_true_iff, !String.eqb_eq. }
  assert (Hmatched : bool_decide (roleType ∈ normalized_allowed allowedRoles)
                     || bool_decide (roleName ∈ normalized_allowed allowedRoles)
                     = true <-> matched).
  { unfold matched. by rewrite orb_true_iff, !bool_decide_eq_true. }
  assert (Hauth : authenticated policyContext -> allowedRoles <> [] ->
            ~ (roleType = EmptyString /\ roleName = EmptyString) ->
            role_check policyContext config strapi =
              if bool_decide (roleType ∈ normalized_allowed allowedRoles)
                 || bool_decide (roleName ∈ normalized_allowed allowedRoles)
              then Returned true
              else throw (required_roles_message (JS.str_or roleType roleName)
                            allowedRoles)).
  { intros Hid Hne Hrole.
    rewrite (role_check_authenticated _ _ _ Hapi Hid).
    fold allowedRoles roleType roleName. cbv zeta.
    destruct allowedRoles; [done |].
    rewrite <- Hnorole in Hrole. by apply not_true_is_false in Hrole as ->. }
  split; [| split; [| split;
    [| intros userRole; split;
       [apply required_roles_message_names_roles
       | apply required_roles_message_distinct]]]].
  - intros Hid Hempty.
    rewrite (role_check_authenticated _ _ _ Hapi Hid).
    fold allowedRoles. by rewrite Hempty.
  - intros Hid Hne Hrole%Hnorole.
    rewrite (role_check_authenticated _ _ _ Hapi Hid).
    fold allowedRoles roleType roleName. cbv zeta.
    destruct allowedRoles; [done |]. by rewrite Hrole.
  - intros Hid Hne Hrole. rewrite (Hauth Hid Hne Hrole).
    rewrite <- Hmatched. split.
    + by intros ->.
    + destruct (_ || _); split; done.
Qed.

(** A reader on a route gated to editors and admins is denied with the
    message naming both roles. *)
Lemma role_check_decision_witness :
  role_check
    (Sample.session (Sample.user 7 (Some "reader") (Some "Reader"))
       JS.Undefined JS.Undefined)
    (Sample.with_roles ["editor"; "admin"]) (Sample.store 3 JS.Null)
  = throw (required_roles_message "reader" ["editor"; "admin"]).
Proof.
  destruct (role_check_decision
    (Sample.session (Sample.user 7 (Some "reader") (Some "Reader"))
       JS.Undefined JS.Undefined)
    (Sample.with_roles ["editor"; "admin"]) (Sample.store 3 JS.Null) eq_refl)
    as (_ & _ & _ & H & _).
  assert (Hroles : default [] (Some ["editor"; "admin"]) <> []) by discriminate.
  assert (Hrole : ~ ("reader" = EmptyString /\ "reader" = EmptyString))
    by (intros [? _]; discriminate).
  destruct (H eq_refl Hroles Hrole) as [_ [_ Hdeny]].
  apply Hdeny.
  intros [Hin | Hin]; revert Hin;
    apply gset_not_elem_by_eval; vm_compute; reflexivity.
Defined.

(** C7 fails as stated: an authenticated principal without a role, on a
    route gated to editors and admins, has neither role field in the
    allowed set, yet the denial is the no-role one, which names neither
    [editor] nor [admin] nor the list of required roles. *)
Lemma role_check_no_role_denial_names_no_roles :
  let ctx := mkContext (mkState (Some (mkUser (JS.Num 7) None))
                          (Some "users-permissions"))
               (mkBody JS.Undefined JS.Undefined) JS.Undefined in
  let config := Sample.with_roles ["editor"; "admin"] in
  authenticated ctx
  /\ (roleType_of ctx ∉ normalized_allowed ["editor"; "admin"])
  /\ (roleName_of ctx ∉ normalized_allowed ["editor"; "admin"])
  /\ role_check ctx config (Sample.store 3 JS.Null)
     = throw "Access denied - no role assigned to your account"
  /\ role_check ctx config (Sample.store 3 JS.Null)
     <> throw (required_roles_message EmptyString ["editor"; "admin"])
  /\ JS.includes "Access denied - no role assigned to your account" "editor" = false
  /\ JS.includes "Access denied - no role assigned to your account" "admin" = false.
Proof.
  intros ctx config.
  split; [reflexivity |].
  split; [apply gset_not_elem_by_eval; vm_compute; reflexivity |].
  split; [apply gset_not_elem_by_eval; vm_compute; reflexivity |].
  split; [vm_compute; reflexivity |].
  split; [vm_compute; congruence |].
  split; vm_compute; reflexivity.
Qed.

(** ** Matching on the two role fields *)

Lemma normalized_allowed_nil : normalized_allowed [] = ∅.
Proof. reflexivity. Qed.

Lemma empty_not_cms : EmptyString ∉ cms_allowed.
Proof. apply gset_not_elem_by_eval. vm_compute. reflexivity. Qed.

Lemma cms_role_decision
    (policyContext : PolicyContext) (config : PolicyConfig) (strapi : Strapi)
    (user : User) :
  not_bypassed policyContext ->
  state_user (state policyContext) = Some user ->
  cms_role policyContext config strapi =
    Returned (bool_decide
      (JS.toLowerCase
         (JS.trim (JS.str_or (JS.or_empty (type_of (user_role user)))
                             (JS.or_empty (name_of (user_role user)))))
       ∈ cms_allowed)).
Proof.
  unfold not_bypassed, cms_role. intros -> ->. cbv zeta.
  set (tag := JS.str_or (JS.or_empty _) _).
  replace (JS.str_or tag EmptyString) with tag
    by (unfold JS.str_or, JS.is_empty;
        by destruct (String.eqb_spec tag EmptyString)).
  unfold JS.is_empty.
  destruct (String.eqb_spec (JS.toLowerCase (JS.trim tag)) EmptyString)
    as [E |]; [| done].
  rewrite E, bool_decide_eq_false_2; [done | apply empty_not_cms].
Qed.

(** C8, as the code has it. In the role gate a match on either role
    field is sufficient: an authenticated principal with a role is allowed
    as soon as the lower-cased role type or the lower-cased role name is in
    the lower-cased, trimmed allowed set, whatever the other field holds.
    The CMS-role gate instead resolves one tag, the type field when it is a
    non-empty string and the name field otherwise, and allows exactly when
    that tag, trimmed and lower-cased, is one of the six CMS roles: a
    matching name is sufficient there only when the type is absent or
    empty. *)
Theorem role_field_matching
    (policyContext : PolicyContext) (config : PolicyConfig) (strapi : Strapi) :
  not_bypassed policyContext ->
  (authenticated policyContext ->
   ~ (roleType_of policyContext = EmptyString
      /\ roleName_of policyContext = EmptyString) ->
   roleType_of policyContext ∈ normalized_allowed (default [] (roles config))
   \/ roleName_of policyContext ∈ normalized_allowed (default [] (roles config)) ->
   role_check policyContext config strapi = Returned true)
  /\ (forall user : User,
        state_user (state policyContext) = Some user ->
        let type := JS.or_empty (type_of (user_role user)) in
        let name := JS.or_empty (name_of (user_role user)) in
        (type <> EmptyString ->
         cms_role policyContext config strapi =
           Returned (bool_decide (JS.toLowerCase (JS.trim type) ∈ cms_allowed)))
        /\ (type = EmptyString ->
            cms_role policyContext config strapi =
              Returned (bool_decide (JS.toLowerCase (JS.trim name) ∈ cms_allowed)))).
Proof.
  intros Hapi. split.
  - intros Hid Hrole Hmatch.
    assert (Hne : default [] (roles config) <> []).
    { intros Hnil. rewrite Hnil, normalized_allowed_nil in Hmatch.
      destruct Hmatch as [Hin | Hin]; by apply not_elem_of_empty in Hin. }
    rewrite (role_check_authenticated _ _ _ Hapi Hid). cbv zeta.
    destruct (default [] (roles config)) as [| r l]; [done |].
    fold (roleType_of policyContext) (roleName_of policyContext) in *.
    unfold JS.is_empty. rewrite <- !String.eqb_eq, <- andb_true_iff in Hrole.
    apply not_true_is_false in Hrole as ->.
    destruct (bool_decide (roleType_of policyContext ∈ _)
              || bool_decide (roleName_of policyContext ∈ _)) eqn:E; [done |].
    rewrite orb_false_iff, !bool_decide_eq_false in E. tauto.
  - intros user Huser type name.
    rewrite (cms_role_decision _ _ _ user Hapi Huser).
    fold type name. unfold JS.str_or, JS.is_empty.
    split; intros Htype.
    + by apply String.eqb_neq in Htype as ->.
    + by rewrite Htype.
Qed.

(** A principal whose role type is the host's [authenticated] and whose
    role name is [Editor] passes a role gate that lists [editor]; a
    principal with only the role name [Editor] passes the CMS-role gate. *)
Lemma role_field_matching_witness :
  role_check
    (Sample.session (Sample.user 7 (Some "authenticated") (Some "Editor"))
       JS.Undefined JS.Undefined)
    (Sample.with_roles ["editor"; "admin"]) (Sample.store 3 JS.Null)
  = Returned true
  /\ cms_role
       (Sample.session (Sample.user 7 None (Some "Editor"))
          JS.Undefined JS.Undefined)
       Sample.no_config (Sample.store 3 JS.Null)
     = Returned true.
Proof.
  split.
  - destruct (role_field_matching
      (Sample.session (Sample.user 7 (Some "authenticated") (Some "Editor"))
         JS.Undefined JS.Undefined)
      (Sample.with_roles ["editor"; "admin"]) (Sample.store 3 JS.Null) eq_refl)
      as [H _].
    apply H.
    + reflexivity.
    + intros [? _]; discriminate.
    + right. apply gset_elem_by_eval. vm_compute. reflexivity.
  - destruct (role_field_matching
      (Sample.session (Sample.user 7 None (Some "Editor"))
         JS.Undefined JS.Undefined)
      Sample.no_config (Sample.store 3 JS.Null) eq_refl)
      as [_ H].
    destruct (H (mkUser (JS.Num 7) (Some (mkRole None (Some "Editor")))) eq_refl)
      as [_ Hname].
    rewrite (Hname eq_refl). vm_compute. reflexivity.
Defined.

(** C8 fails as stated: the role name [Editor] matches the allowed CMS
    role [editor] whatever the case, the role type [authenticated] is
    present and is not an allowed value, and the CMS-role gate denies. *)
Lemma cms_role_ignores_matching_name :
  let ctx := Sample.session (Sample.user 7 (Some "authenticated") (Some "Editor"))
               JS.Undefined JS.Undefined in
  roleName_of ctx = "editor"
  /\ "editor" ∈ cms_allowed
  /\ cms_role ctx Sample.no_config (Sample.store 3 JS.Null) = Returned false.
Proof.
  intros ctx.
  split; [reflexivity |].
  split; [apply gset_elem_by_eval; vm_compute; reflexivity |].
  vm_compute. reflexivity.
Qed.

(** ** What a denial carries *)















(** ** The transition table *)

Lemma workflow_status_on_table
    (policyContext : PolicyContext) (config : PolicyConfig) (strapi : Strapi)
    (article : Entity) (r : role) (current requested : status) :
  not_bypassed policyContext ->
  authenticated policyContext ->
  effectiveRole_of policyContext = role_tag r ->
  JS.truthy (params_id policyContext) = true ->
  findOne strapi "api::article.article" (params_id policyContext) []
  = Returned (Some article) ->
  JS.or (workflowStatus article) (JS.Str "draft") = JS.Str (status_tag current) ->
  requested_status policyContext = JS.Str (status_tag requested) ->
  requested <> current ->
  workflow_status policyContext config strapi =
    if bool_decide (requested ∈ spec_table r current) then Returned true
    else throw (denial_text r current requested).
Proof.
  unfold not_bypassed, authenticated, effectiveRole_of, roleType_of,
    roleName_of, requested_status, workflow_status.
  intros Hapi Hid Hrole Hpar Hfind Hcur Hreq Hne. cbv zeta.
  rewrite Hapi, Hid, Hreq, Hpar, Hfind.
  assert (Hvalid : JS.truthy (JS.Str (status_tag requested)) = true
                   /\ JS.array_includes validStatuses
                        (JS.Str (status_tag requested)) = true)
    by (by destruct requested).
  destruct Hvalid as [-> ->].
  cbn [negb try_catch mbind outcome_bind]. rewrite Hcur, Hrole.
  destruct r, current, requested;
    first [by elim Hne | vm_compute; reflexivity].
Qed.

(** C1, as the code has it. For a principal acting as reader, reporter,
    reviewer or editor on an existing article, and a requested status
    other than the current one, the workflow check allows the transition
    if and only if the requested status is in the table entry for the role
    and the current status. Every other transition is denied with a thrown
    error at the table lookup. Its message is the built one, which quotes
    the current state, the requested state and the allowed next states
    ([none] when there are none), when no fixed text is registered for the
    role and the current state and the role is not reader; otherwise it is
    the fixed text (reporter from review or published, reviewer from
    published, reader from any state). *)
Theorem transition_table_decides
    (policyContext : PolicyContext) (config : PolicyConfig) (strapi : Strapi)
    (article : Entity) (r : role) (current requested : status) :
  not_bypassed policyContext ->
  authenticated policyContext ->
  effectiveRole_of policyContext = role_tag r ->
  JS.truthy (params_id policyContext) = true ->
  findOne strapi "api::article.article" (params_id policyContext) []
  = Returned (Some article) ->
  JS.or (workflowStatus article) (JS.Str "draft") = JS.Str (status_tag current) ->
  requested_status policyContext = JS.Str (status_tag requested) ->
  requested <> current ->
  (workflow_status policyContext config strapi = Returned true
   <-> requested ∈ spec_table r current)
  /\ (requested ∉ spec_table r current ->
      workflow_status policyContext config strapi
      = throw (denial_text r current requested))
  /\ (r <> reader ->
      TRANSITION_ERROR_MESSAGES !! (role_tag r ++ ":" ++ status_tag current) = None ->
      JS.includes (denial_text r current requested)
        (JS.dq ++ status_tag current ++ JS.dq ++ " → "
         ++ JS.dq ++ status_tag requested ++ JS.dq) = true
      /\ JS.includes (denial_text r current requested)
           ("Allowed transitions from " ++ JS.dq ++ status_tag current ++ JS.dq
            ++ ": " ++ allowed_text r current) = true)
  /\ (r = reader
      \/ is_Some (TRANSITION_ERROR_MESSAGES !! (role_tag r ++ ":" ++ status_tag current)) ->
      forall requested' : status,
        denial_text r current requested' = denial_text r current requested).
Proof.
  intros Hapi Hid Hrole Hpar Hfind Hcur Hreq Hne.
  rewrite (workflow_status_on_table _ _ _ article r current requested) by done.
  split; [| split; [| split]].
  - case_bool_decide; split; done.
  - intros Hnot. by rewrite bool_decide_eq_false_2.
  - intros Hreader Hnone.
    assert (Hbuilt : denial_text r current requested =
              transition_message (role_tag r) (JS.Str (status_tag current))
                (JS.Str (status_tag requested))
                (map status_tag (spec_table r current))).
    { unfold denial_text. rewrite Hnone. by destruct r. }
    assert (Hallowed : allowed_text r current =
              if (0 <? length (map status_tag (spec_table r current)))%nat
              then JS.join ", " (map status_tag (spec_table r current))
              else "none").
    { unfold allowed_text. by destruct (spec_table r current). }
    rewrite Hbuilt, Hallowed.
    apply transition_message_quotes_states.
  - intros Hfixed requested'.
    destruct Hfixed as [-> | [text Htext]]; [by destruct current |].
    destruct r, current; vm_compute in Htext; try discriminate Htext;
      reflexivity.
Qed.

(** An editor publishing an article that is in review. *)
Lemma transition_table_decides_witness :
  workflow_status
    (Sample.session (Sample.user 7 (Some "editor") (Some "Editor"))
       (JS.Str "published") (JS.Str "5"))
    Sample.no_config (Sample.store 3 (JS.Str "review"))
  = Returned true.
Proof.
  assert (Hne : published <> review) by discriminate.
  destruct (transition_table_decides
    (Sample.session (Sample.user 7 (Some "editor") (Some "Editor"))
       (JS.Str "published") (JS.Str "5"))
    Sample.no_config (Sample.store 3 (JS.Str "review"))
    (mkEntity (Some (mkCreator (JS.Num 3))) (JS.Str "review"))
    editor review published
    eq_refl eq_refl eq_refl eq_refl eq_refl eq_refl eq_refl Hne)
    as [[_ Hallow] _].
  apply Hallow. unfold spec_table. repeat constructor.
Defined.

(** C1 fails as stated: a reader asking for draft to review and a
    reporter asking for review to published are denied, as the table says,
    but with fixed texts: the first names neither state, the second does
    not name the requested state, and neither names the allowed set. *)
Lemma fixed_denial_text_omits_states :
  let readers := "Readers do not have permission to change article status." in
  let reporters := "Reporters cannot modify articles that are in review. Please wait for a Reviewer or Editor to process your submission." in
  workflow_status
    (Sample.session (Sample.user 7 (Some "reader") (Some "Reader"))
       (JS.Str "review") (JS.Str "5"))
    Sample.no_config (Sample.store 3 (JS.Str "draft"))
  = throw readers
  /\ JS.includes readers "draft" = false
  /\ JS.includes readers "review" = false
  /\ JS.includes readers "none" = false
  /\ workflow_status
       (Sample.session (Sample.user 7 (Some "reporter") (Some "Reporter"))
          (JS.Str "published") (JS.Str "5"))
       Sample.no_config (Sample.store 3 (JS.Str "review"))
     = throw reporters
  /\ JS.includes reporters "published" = false
  /\ JS.includes reporters "none" = false.
Proof. repeat split; vm_compute; reflexivity. Qed.

(** * Further properties of the policies and the routes *)

(** ** The transition table, entry by entry *)

Lemma allowed_next_cases (effectiveRole currentStatus : string) :
  allowed_next effectiveRole currentStatus =
    if decide (effectiveRole = "reporter") then
      if decide (currentStatus = "draft") then ["review"] else []
    else if decide (effectiveRole = "reviewer") then
      if decide (currentStatus = "draft") then ["review"]
      else if decide (currentStatus = "review") then ["draft"] else []
    else if decide (effectiveRole = "editor") then
      if decide (currentStatus = "draft") then ["review"; "published"]
      else if decide (currentStatus = "review") then ["draft"; "published"]
      else if decide (currentStatus = "published") then ["draft"] else []
    else [].
Proof.
  unfold allowed_next, VALID_TRANSITIONS.
  rewrite !list_to_map_cons, !list_to_map_nil. cbn [fst snd].
  rewrite !lookup_insert, lookup_empty.
  repeat case_decide; simplify_eq; cbn [default from_option id];
    rewrite ?lookup_insert, ?lookup_empty;
    repeat case_decide; simplify_eq; done.
Qed.

Lemma workflow_status_existing
    (policyContext : PolicyContext) (config : PolicyConfig) (strapi : Strapi)
    (s : string) :
  not_bypassed policyContext ->
  authenticated policyContext ->
  requested_status policyContext = JS.Str s ->
  s ∈ validStatuses ->
  JS.truthy (params_id policyContext) = true ->
  workflow_status policyContext config strapi = Returned true
  <-> exists article : Entity,
        findOne strapi "api::article.article" (params_id policyContext) []
        = Returned (Some article)
        /\ (JS.or (workflowStatus article) (JS.Str "draft") = JS.Str s
            \/ s ∈ allowed_next (effectiveRole_of policyContext)
                   (JS.to_string (JS.or (workflowStatus article) (JS.Str "draft")))).
Proof.
  unfold not_bypassed, authenticated, requested_status, workflow_status.
  intros Hapi Hid Hreq [Htruthy Hvalid]%valid_status_accepted Hpar.
  cbv zeta. rewrite Hapi, Hid, Hreq, Htruthy, Hvalid, Hpar.
  cbn [negb]. unfold try_catch, mbind, outcome_bind, throw.
  fold (roleType_of policyContext) (roleName_of policyContext).
  fold (effectiveRole_of policyContext).
  destruct (findOne strapi _ _ _) as [[article |] | e].
  - set (cur := JS.or (workflowStatus article) (JS.Str "draft")).
    fold (allowed_next (effectiveRole_of policyContext) (JS.to_string cur)).
    unfold JS.strict_eq. case_bool_decide as Hsame.
    + split; [| done]. intros _. exists article. split; [done |]. by left.
    + assert (Hinc : JS.array_includes
                (allowed_next (effectiveRole_of policyContext) (JS.to_string cur))
                (JS.Str s) = true
              <-> s ∈ allowed_next (effectiveRole_of policyContext) (JS.to_string cur)).
      { unfold JS.array_includes, JS.strict_eq.
        rewrite existsb_exists. setoid_rewrite bool_decide_eq_true.
        setoid_rewrite <- list_elem_of_In. split.
        - intros (x & Hin & Heq). by simplify_eq.
        - intros Hin. by exists s. }
      destruct (JS.array_includes (allowed_next _ _) _) eqn:E; cbn [negb].
      * split; [| done]. intros _. exists article. split; [done |].
        right. by apply Hinc.
      * split; [done |]. intros (article' & Hfind & [Heq | Hin]); simplify_eq.
        apply Hinc in Hin. discriminate Hin.
  - split; [done |]. by intros (article & Hfind & _).
  - split; [done |]. by intros (article & Hfind & _).
Qed.

(** X1. The table never leads out of the three states and has no self
    loop: whatever role and current status are looked up, every allowed
    next status is one of draft, review, published, differs from the
    current status, and is only offered from one of the three states. *)
Lemma allowed_next_sound (effectiveRole currentStatus s : string) :
  s ∈ allowed_next effectiveRole currentStatus ->
  s ∈ validStatuses /\ currentStatus ∈ validStatuses /\ s <> currentStatus.
Proof.
  rewrite allowed_next_cases. unfold validStatuses.
  repeat case_decide; subst; intros Hin;
    repeat (apply elem_of_cons in Hin as [-> | Hin]);
    try (by apply elem_of_nil in Hin);
    (split; [repeat constructor | split; [repeat constructor | discriminate]]).
Qed.

(** A reporter's draft may go to review. *)
Lemma allowed_next_sound_witness :
  "review" ∈ validStatuses /\ "draft" ∈ validStatuses /\ "review" <> "draft".
Proof.
  apply (allowed_next_sound "reporter" "draft" "review").
  vm_compute. constructor.
Defined.

Lemma allowed_next_unlisted (effectiveRole currentStatus : string) :
  effectiveRole <> "reporter" -> effectiveRole <> "reviewer" ->
  effectiveRole <> "editor" ->
  allowed_next effectiveRole currentStatus = [].
Proof.
  intros H1 H2 H3. rewrite allowed_next_cases.
  by rewrite !decide_False by done.
Qed.

Lemma allowed_next_published (effectiveRole currentStatus : string) :
  "published" ∈ allowed_next effectiveRole currentStatus ->
  effectiveRole = "editor".
Proof.
  rewrite allowed_next_cases.
  repeat case_decide; subst; intros Hin; try done;
    repeat (apply elem_of_cons in Hin as [Heq | Hin]; [discriminate Heq |]);
    by apply elem_of_nil in Hin.
Qed.

Lemma allowed_next_grows (currentStatus : string) :
  allowed_next "reporter" currentStatus ⊆ allowed_next "reviewer" currentStatus
  /\ allowed_next "reviewer" currentStatus ⊆ allowed_next "editor" currentStatus.
Proof.
  rewrite !allowed_next_cases.
  rewrite !(decide_True (P := "reporter" = "reporter")) by done.
  rewrite !(decide_False (P := "reviewer" = "reporter")) by done.
  rewrite !(decide_True (P := "reviewer" = "reviewer")) by done.
  rewrite !(decide_False (P := "editor" = "reporter")) by done.
  rewrite !(decide_False (P := "editor" = "reviewer")) by done.
  rewrite !(decide_True (P := "editor" = "editor")) by done.
  repeat case_decide; subst; split; intros x Hx;
    repeat (apply elem_of_cons in Hx as [-> | Hx]);
    try (by apply elem_of_nil in Hx); repeat constructor.
Qed.

Lemma valid_status_inv (v : JS.value) :
  JS.array_includes validStatuses v = true ->
  exists s : string, v = JS.Str s /\ s ∈ validStatuses.
Proof.
  unfold JS.array_includes, JS.strict_eq. rewrite existsb_exists.
  intros (s & Hin%list_elem_of_In & Heq%bool_decide_eq_true).
  by exists s.
Qed.

Lemma workflow_status_invalid
    (policyContext : PolicyContext) (config : PolicyConfig) (strapi : Strapi) :
  not_bypassed policyContext ->
  authenticated policyContext ->
  JS.truthy (requested_status policyContext) = true ->
  JS.array_includes validStatuses (requested_status policyContext) = false ->
  workflow_status policyContext config strapi =
    throw ("Invalid status value: " ++ JS.dq
           ++ JS.to_string (requested_status policyContext) ++ JS.dq
           ++ ". Valid values are: draft, review, published").
Proof.
  unfold not_bypassed, authenticated, requested_status, workflow_status.
  intros Hapi Hid Htruthy Hinvalid. cbv zeta.
  by rewrite Hapi, Hid, Htruthy, Hinvalid.
Qed.



(** X3. Only an editor can move an existing article to [published]: for
    an authenticated principal whose effective role is anything else, a
    request for [published] passes the workflow check only when the
    article is already published. *)
Theorem only_editor_publishes_existing
    (policyContext : PolicyContext) (config : PolicyConfig) (strapi : Strapi) :
  not_bypassed policyContext ->
  authenticated policyContext ->
  JS.truthy (params_id policyContext) = true ->
  requested_status policyContext = JS.Str "published" ->
  effectiveRole_of policyContext <> "editor" ->
  workflow_status policyContext config strapi = Returned true ->
  exists article : Entity,
    findOne strapi "api::article.article" (params_id policyContext) []
    = Returned (Some article)
    /\ workflowStatus article = JS.Str "published".
Proof.
  intros Hapi Hid Hpar Hreq Hrole Hpass.
  assert (Hin : "published" ∈ validStatuses)
    by (unfold validStatuses; repeat constructor).
  destruct (proj1 (workflow_status_existing _ _ _ "published"
                     Hapi Hid Hreq Hin Hpar) Hpass)
    as (article & Hfind & [Hcur | Hnext]).
  - exists article. split; [done |].
    unfold JS.or in Hcur. by destruct (JS.truthy (workflowStatus article)).
  - by apply allowed_next_published in Hnext.
Qed.

(** A reporter re-sending [published] for a published article. *)
Lemma only_editor_publishes_existing_witness :
  exists article : Entity,
    findOne (Sample.store 3 (JS.Str "published")) "api::article.article"
      (JS.Str "5") [] = Returned (Some article)
    /\ workflowStatus article = JS.Str "published".
Proof.
  apply (only_editor_publishes_existing
    (Sample.session (Sample.user 7 (Some "reporter") (Some "Reporter"))
       (JS.Str "published") (JS.Str "5"))
    Sample.no_config (Sample.store 3 (JS.Str "published")));
    try reflexivity.
  intros H. vm_compute in H. discriminate H.
Defined.

(** X4. A role without a populated row in the table (reader, admin, no
    role, any other name) cannot change the status of an existing article:
    a request that carries a status passes only when that status is the
    current one. *)
Theorem unlisted_role_changes_no_status
    (policyContext : PolicyContext) (config : PolicyConfig) (strapi : Strapi) :
  not_bypassed policyContext ->
  authenticated policyContext ->
  JS.truthy (params_id policyContext) = true ->
  JS.truthy (requested_status policyContext) = true ->
  effectiveRole_of policyContext <> "reporter" ->
  effectiveRole_of policyContext <> "reviewer" ->
  effectiveRole_of policyContext <> "editor" ->
  workflow_status policyContext config strapi = Returned true ->
  exists article : Entity,
    findOne strapi "api::article.article" (params_id policyContext) []
    = Returned (Some article)
    /\ JS.or (workflowStatus article) (JS.Str "draft")
       = requested_status policyContext.
Proof.
  intros Hapi Hid Hpar Htruthy H1 H2 H3 Hpass.
  destruct (JS.array_includes validStatuses (requested_status policyContext))
    eqn:Hvalid.
  - destruct (valid_status_inv _ Hvalid) as (s & Hreq & Hin).
    destruct (proj1 (workflow_status_existing _ _ _ s Hapi Hid Hreq Hin Hpar) Hpass)
      as (article & Hfind & [Hcur | Hnext]).
    + exists article. by rewrite Hreq.
    + rewrite allowed_next_unlisted in Hnext by done.
      by apply elem_of_nil in Hnext.
  - rewrite (workflow_status_invalid _ _ _ Hapi Hid Htruthy Hvalid) in Hpass.
    discriminate Hpass.
Qed.

(** An admin re-sending [review] for an article in review. *)
Lemma unlisted_role_changes_no_status_witness :
  exists article : Entity,
    findOne (Sample.store 3 (JS.Str "review")) "api::article.article"
      (JS.Str "5") [] = Returned (Some article)
    /\ JS.or (workflowStatus article) (JS.Str "draft") = JS.Str "review".
Proof.
  apply (unlisted_role_changes_no_status
    (Sample.session (Sample.user 7 (Some "admin") (Some "Admin"))
       (JS.Str "review") (JS.Str "5"))
    Sample.no_config (Sample.store 3 (JS.Str "review")));
    try reflexivity; intros H; vm_compute in H; discriminate H.
Defined.

(** X5. On existing articles the transitions grow with the role: a
    request that passes the workflow check for a reporter passes for a
    reviewer and for an editor, and one that passes for a reviewer passes
    for an editor, the request and the store being the same. *)
Theorem higher_role_keeps_transitions
    (policyContext policyContext' : PolicyContext) (config config' : PolicyConfig)
    (strapi : Strapi) :
  not_bypassed policyContext -> not_bypassed policyContext' ->
  authenticated policyContext -> authenticated policyContext' ->
  requested_status policyContext' = requested_status policyContext ->
  params_id policyContext' = params_id policyContext ->
  JS.truthy (params_id policyContext) = true ->
  (effectiveRole_of policyContext = "reporter"
   /\ effectiveRole_of policyContext' = "reviewer")
  \/ (effectiveRole_of policyContext = "reporter"
      /\ effectiveRole_of policyContext' = "editor")
  \/ (effectiveRole_of policyContext = "reviewer"
      /\ effectiveRole_of policyContext' = "editor") ->
  workflow_status policyContext config strapi = Returned true ->
  workflow_status policyContext' config' strapi = Returned true.
Proof.
  intros Hapi Hapi' Hid Hid' Hreq Hparams Hpar Hroles Hpass.
  destruct (JS.truthy (requested_status policyContext)) eqn:Htruthy;
    [| apply workflow_status_no_status; [done | by rewrite Hreq]].
  destruct (JS.array_includes validStatuses (requested_status policyContext))
    eqn:Hvalid.
  - destruct (valid_status_inv _ Hvalid) as (s & Hs & Hin).
    destruct (proj1 (workflow_status_existing _ _ _ s Hapi Hid Hs Hin Hpar) Hpass)
      as (article & Hfind & Hok).
    apply (workflow_status_existing _ _ _ s Hapi' Hid');
      [by rewrite Hreq | done | by rewrite Hparams |].
    exists article. rewrite Hparams. split; [done |].
    destruct Hok as [Hcur | Hnext]; [by left | right].
    destruct (allowed_next_grows
                (JS.to_string (JS.or (workflowStatus article) (JS.Str "draft"))))
      as [Hlow Hhigh].
    destruct Hroles as [[Hr Hr'] | [[Hr Hr'] | [Hr Hr']]];
      rewrite Hr in Hnext; rewrite Hr'; auto.
  - rewrite (workflow_status_invalid _ _ _ Hapi Hid Htruthy Hvalid) in Hpass.
    discriminate Hpass.
Qed.

(** Draft to review, allowed to a reporter, is allowed to a reviewer. *)
Lemma higher_role_keeps_transitions_witness :
  workflow_status
    (Sample.session (Sample.user 8 (Some "reviewer") (Some "Reviewer"))
       (JS.Str "review") (JS.Str "5"))
    Sample.no_config (Sample.store 3 (JS.Str "draft"))
  = Returned true.
Proof.
  apply (higher_role_keeps_transitions
    (Sample.session (Sample.user 7 (Some "reporter") (Some "Reporter"))
       (JS.Str "review") (JS.Str "5"))
    (Sample.session (Sample.user 8 (Some "reviewer") (Some "Reviewer"))
       (JS.Str "review") (JS.Str "5"))
    Sample.no_config Sample.no_config (Sample.store 3 (JS.Str "draft")));
    try reflexivity.
  left. split; reflexivity.
Defined.

(** X6. When the article cannot be read, a status change is denied for
    every role: a rejected store call always gives the fixed message
    [Unable to verify article status], whatever was thrown, and a missing
    article gives [Article not found]. *)
Theorem workflow_lookup_failures
    (policyContext : PolicyContext) (config : PolicyConfig) (strapi : Strapi)
    (s : string) :
  not_bypassed policyContext ->
  authenticated policyContext ->
  requested_status policyContext = JS.Str s ->
  s ∈ validStatuses ->
  JS.truthy (params_id policyContext) = true ->
  (forall e : thrown,
     findOne strapi "api::article.article" (params_id policyContext) []
     = Thrown e ->
     workflow_status policyContext config strapi
     = throw "Unable to verify article status")
  /\ (findOne strapi "api::article.article" (params_id policyContext) []
      = Returned None ->
      workflow_status policyContext config strapi = throw "Article not found").
Proof.
  unfold not_bypassed, authenticated, requested_status, workflow_status.
  intros Hapi Hid Hreq [Htruthy Hvalid]%valid_status_accepted Hpar.
  cbv zeta. rewrite Hapi, Hid, Hreq, Htruthy, Hvalid, Hpar.
  split; [intros e Hfind | intros Hfind]; by rewrite Hfind.
Qed.

(** An editor publishing while the store is unreachable. *)
Lemma workflow_lookup_failures_witness :
  workflow_status
    (Sample.session (Sample.user 7 (Some "editor") (Some "Editor"))
       (JS.Str "published") (JS.Str "5"))
    Sample.no_config
    (mkStrapi (fun _ _ _ => Thrown (Error "connection refused")))
  = throw "Unable to verify article status".
Proof.
  assert (Hin : "published" ∈ validStatuses)
    by (unfold validStatuses; repeat constructor).
  destruct (workflow_lookup_failures
    (Sample.session (Sample.user 7 (Some "editor") (Some "Editor"))
       (JS.Str "published") (JS.Str "5"))
    Sample.no_config
    (mkStrapi (fun _ _ _ => Thrown (Error "connection refused")))
    "published" eq_refl eq_refl eq_refl Hin eq_refl) as [Hfail _].
  apply (Hfail (Error "connection refused")). reflexivity.
Defined.

(** X7. An article whose stored status is missing (undefined, null or
    empty) is treated exactly as an article in [draft]: the workflow check
    gives the same outcome on both. *)
Theorem missing_stored_status_is_draft
    (policyContext : PolicyContext) (config : PolicyConfig)
    (strapi strapi' : Strapi) (article : Entity) :
  JS.truthy (workflowStatus article) = false ->
  findOne strapi "api::article.article" (params_id policyContext) []
  = Returned (Some article) ->
  findOne strapi' "api::article.article" (params_id policyContext) []
  = Returned (Some (mkEntity (createdBy article) (JS.Str "draft"))) ->
  workflow_status policyContext config strapi
  = workflow_status policyContext config strapi'.
Proof.
  intros Hfalsy Hfind Hfind'. unfold workflow_status. cbv zeta.
  rewrite Hfind, Hfind'. cbn [try_catch mbind outcome_bind workflowStatus].
  assert (Hcur : JS.or (workflowStatus article) (JS.Str "draft") = JS.Str "draft")
    by (unfold JS.or; by rewrite Hfalsy).
  assert (Hcur' : JS.or (JS.Str "draft") (JS.Str "draft") = JS.Str "draft")
    by reflexivity.
  by rewrite Hcur, Hcur'.
Qed.

(** A reporter submitting an article that has no stored status. *)
Lemma missing_stored_status_is_draft_witness :
  let ctx := Sample.session (Sample.user 7 (Some "reporter") (Some "Reporter"))
               (JS.Str "review") (JS.Str "5") in
  workflow_status ctx Sample.no_config (Sample.store 3 JS.Null)
  = workflow_status ctx Sample.no_config (Sample.store 3 (JS.Str "draft")).
Proof.
  intros ctx.
  apply (missing_stored_status_is_draft ctx Sample.no_config
           (Sample.store 3 JS.Null) (Sample.store 3 (JS.Str "draft"))
           (mkEntity (Some (mkCreator (JS.Num 3))) JS.Null)); reflexivity.
Defined.

(** ** Normal form of configured roles *)

Lemma lower_ascii_idemp (c : Ascii.ascii) :
  JS.lower_ascii (JS.lower_ascii c) = JS.lower_ascii c.
Proof. by destruct c as [[] [] [] [] [] [] [] []]. Qed.

Lemma is_space_lower (c : Ascii.ascii) :
  JS.is_space (JS.lower_ascii c) = JS.is_space c.
Proof. by destruct c as [[] [] [] [] [] [] [] []]. Qed.

Lemma toLowerCase_idemp (s : string) :
  JS.toLowerCase (JS.toLowerCase s) = JS.toLowerCase s.
Proof.
  induction s as [| c s IH]; [done |].
  cbn [JS.toLowerCase]. by rewrite lower_ascii_idemp, IH.
Qed.

Lemma is_empty_lower (s : string) :
  JS.is_empty (JS.toLowerCase s) = JS.is_empty s.
Proof. by destruct s. Qed.

Lemma toLowerCase_trimStart (s : string) :
  JS.toLowerCase (JS.trimStart s) = JS.trimStart (JS.toLowerCase s).
Proof.
  induction s as [| c s IH]; [done |].
  cbn [JS.toLowerCase JS.trimStart]. rewrite is_space_lower.
  by destruct (JS.is_space c).
Qed.

Lemma toLowerCase_trimEnd (s : string) :
  JS.toLowerCase (JS.trimEnd s) = JS.trimEnd (JS.toLowerCase s).
Proof.
  induction s as [| c s IH]; [done |].
  cbn [JS.toLowerCase JS.trimEnd]. cbv zeta.
  rewrite is_space_lower, <- IH, is_empty_lower.
  by destruct (JS.is_space c && JS.is_empty (JS.trimEnd s)).
Qed.

Lemma toLowerCase_trim (s : string) :
  JS.toLowerCase (JS.trim s) = JS.trim (JS.toLowerCase s).
Proof. unfold JS.trim. by rewrite toLowerCase_trimEnd, toLowerCase_trimStart. Qed.

Lemma trimStart_idemp (s : string) :
  JS.trimStart (JS.trimStart s) = JS.trimStart s.
Proof.
  induction s as [| c s IH]; [done |].
  cbn [JS.trimStart]. destruct (JS.is_space c) eqn:E; [done |].
  cbn [JS.trimStart]. by rewrite E.
Qed.

Lemma trimEnd_idemp (s : string) :
  JS.trimEnd (JS.trimEnd s) = JS.trimEnd s.
Proof.
  induction s as [| c s IH]; [done |].
  cbn [JS.trimEnd]. cbv zeta.
  destruct (JS.is_space c && JS.is_empty (JS.trimEnd s)) eqn:E; [done |].
  cbn [JS.trimEnd]. cbv zeta. by rewrite IH, E.
Qed.

Lemma trimStart_trimEnd (s : string) :
  JS.trimStart (JS.trimEnd s) = JS.trimEnd (JS.trimStart s).
Proof.
  induction s as [| c s IH]; [done |].
  cbn [JS.trimStart JS.trimEnd]. cbv zeta.
  destruct (JS.is_space c) eqn:E; cbn [andb].
  - destruct (JS.is_empty (JS.trimEnd s)) eqn:E'.
    + rewrite <- IH. unfold JS.is_empty in E'.
      apply String.eqb_eq in E'. by rewrite E'.
    + cbn [JS.trimStart]. by rewrite E.
  - cbn [JS.trimStart JS.trimEnd]. cbv zeta. by rewrite E.
Qed.

Lemma trim_idemp (s : string) : JS.trim (JS.trim s) = JS.trim s.
Proof.
  unfold JS.trim.
  by rewrite trimStart_trimEnd, trimStart_idemp, trimEnd_idemp.
Qed.

Lemma normalize_role_idemp (r : string) :
  normalize_role (normalize_role r) = normalize_role r.
Proof.
  unfold normalize_role.
  by rewrite toLowerCase_trim, toLowerCase_idemp, trim_idemp.
Qed.

Lemma elem_of_normalized_allowed (x : string) (l : list string) :
  x ∈ normalized_allowed l <-> exists r : string, x = normalize_role r /\ r ∈ l.
Proof.
  unfold normalized_allowed. rewrite elem_of_list_to_set.
  apply (list_elem_of_fmap normalize_role).
Qed.

Lemma normalized_allowed_normal_form (l : list string) :
  normalized_allowed (map normalize_role l) = normalized_allowed l.
Proof.
  apply set_eq. intros x. rewrite !elem_of_normalized_allowed. split.
  - intros (r & -> & (r' & -> & Hin)%(list_elem_of_fmap normalize_role)).
    exists r'. by rewrite normalize_role_idemp.
  - intros (r & -> & Hin). exists (normalize_role r).
    rewrite normalize_role_idemp. split; [done |].
    by apply (list_elem_of_fmap_2 normalize_role).
Qed.

Lemma role_check_allows_iff
    (policyContext : PolicyContext) (config : PolicyConfig) (strapi : Strapi) :
  not_bypassed policyContext ->
  role_check policyContext config strapi = Returned true
  <-> authenticated policyContext
      /\ ~ (roleType_of policyContext = EmptyString
            /\ roleName_of policyContext = EmptyString)
      /\ (roleType_of policyContext ∈ normalized_allowed (default [] (roles config))
          \/ roleName_of policyContext ∈ normalized_allowed (default [] (roles config))).
Proof.
  intros Hapi.
  destruct (JS.truthy (id_of (state_user (state policyContext)))) eqn:Hid.
  - rewrite (role_check_authenticated _ _ _ Hapi Hid). cbv zeta.
    unfold authenticated. rewrite Hid.
    destruct (default [] (roles config)) as [| r l] eqn:Hroles.
    { split; [done |]. intros (_ & _ & [Hin | Hin]);
        by apply not_elem_of_empty in Hin. }
    unfold JS.is_empty.
    destruct (String.eqb_spec (roleType_of policyContext) EmptyString) as [Ht | Ht];
      destruct (String.eqb_spec (roleName_of policyContext) EmptyString) as [Hn | Hn];
      cbn [andb];
      try (split; [done | by intros (_ & Hno & _); destruct Hno]).
    all: destruct (bool_decide (roleType_of policyContext ∈ _)
                   || bool_decide (roleName_of policyContext ∈ _)) eqn:E.
    all: rewrite ?orb_true_iff, ?orb_false_iff, ?bool_decide_eq_true,
           ?bool_decide_eq_false in E.
    all: split; [try done | try done].
    all: try (intros _; split; [done |]; split; [| done]; intros [? ?]; done).
    all: intros (_ & _ & Hm); tauto.
  - assert (Hno : ~ authenticated policyContext)
      by (unfold authenticated; rewrite Hid; done).
    rewrite (role_check_unauthenticated _ _ _ Hapi Hno).
    split; [done | by intros [? _]].
Qed.

(** X8. Adding roles to the configured list never turns an allow of the
    role gate into a denial. *)
Theorem role_check_monotone_in_roles
    (policyContext : PolicyContext) (config config' : PolicyConfig)
    (strapi strapi' : Strapi) (l l' : list string) :
  roles config = Some l ->
  roles config' = Some l' ->
  l ⊆ l' ->
  role_check policyContext config strapi = Returned true ->
  role_check policyContext config' strapi' = Returned true.
Proof.
  intros Hl Hl' Hsub Hpass.
  destruct (is_api_token (state policyContext)) eqn:Hapi.
  { unfold role_check. by rewrite Hapi. }
  apply (role_check_allows_iff _ _ _ Hapi).
  apply (role_check_allows_iff _ _ _ Hapi) in Hpass as (Hid & Hrole & Hm).
  split; [done |]. split; [done |].
  rewrite Hl in Hm. rewrite Hl'. cbn [default from_option id] in *.
  rewrite !elem_of_normalized_allowed in *.
  destruct Hm as [(r & Hr & Hin) | (r & Hr & Hin)]; [left | right];
    exists r; split; auto.
Qed.

(** A reviewer allowed by [reviewer, editor] is allowed by the longer
    list. *)
Lemma role_check_monotone_in_roles_witness :
  role_check
    (Sample.session (Sample.user 7 (Some "reviewer") (Some "Reviewer"))
       JS.Undefined JS.Undefined)
    (Sample.with_roles ["reporter"; "reviewer"; "editor"; "admin"])
    (Sample.store 3 JS.Null)
  = Returned true.
Proof.
  apply (role_check_monotone_in_roles
    (Sample.session (Sample.user 7 (Some "reviewer") (Some "Reviewer"))
       JS.Undefined JS.Undefined)
    (Sample.with_roles ["reviewer"; "editor"])
    (Sample.with_roles ["reporter"; "reviewer"; "editor"; "admin"])
    (Sample.store 3 JS.Null) (Sample.store 3 JS.Null)
    ["reviewer"; "editor"] ["reporter"; "reviewer"; "editor"; "admin"]);
    try reflexivity.
  intros x Hx.
  repeat (apply elem_of_cons in Hx as [-> | Hx]);
    [repeat constructor .. | by apply elem_of_nil in Hx].
Defined.

(** X9. The role gate reads the configured roles up to case and
    surrounding white space: replacing every configured role by its
    lower-cased, trimmed form does not change whom the gate allows. *)
Theorem role_check_config_normal_form
    (policyContext : PolicyContext) (config config' : PolicyConfig)
    (strapi : Strapi) (l : list string) :
  roles config = Some l ->
  roles config' = Some (map normalize_role l) ->
  role_check policyContext config strapi = Returned true
  <-> role_check policyContext config' strapi = Returned true.
Proof.
  intros Hl Hl'.
  destruct (is_api_token (state policyContext)) eqn:Hapi.
  { unfold role_check. by rewrite Hapi. }
  rewrite !(role_check_allows_iff _ _ _ Hapi), Hl, Hl'.
  cbn [default from_option id].
  by rewrite normalized_allowed_normal_form.
Qed.

(** [  Editor ] and [ADMIN] in the configuration admit an editor, as
    [editor] and [admin] do. *)
Lemma role_check_config_normal_form_witness :
  role_check
    (Sample.session (Sample.user 7 (Some "editor") (Some "Editor"))
       JS.Undefined JS.Undefined)
    (Sample.with_roles ["editor"; "admin"]) (Sample.store 3 JS.Null)
  = Returned true.
Proof.
  apply (role_check_config_normal_form
    (Sample.session (Sample.user 7 (Some "editor") (Some "Editor"))
       JS.Undefined JS.Undefined)
    (Sample.with_roles ["  Editor "; "ADMIN"])
    (Sample.with_roles ["editor"; "admin"]) (Sample.store 3 JS.Null)
    ["  Editor "; "ADMIN"]); reflexivity.
Defined.

(** ** Ownership *)

Lemma is_owner_found
    (policyContext : PolicyContext) (config : PolicyConfig) (strapi : Strapi)
    (entity : Entity) :
  not_bypassed policyContext ->
  authenticated policyContext ->
  JS.truthy (params_id policyContext) = true ->
  findOne strapi
    (JS.str_or (JS.or_empty (contentType config)) "api::article.article")
    (params_id policyContext) ["createdBy"] = Returned (Some entity) ->
  is_owner policyContext config strapi =
    if negb (JS.truthy (id_of_creator entity)) then
      throw "Unable to verify ownership - resource has no creator"
    else if JS.strict_eq (id_of_creator entity)
              (id_of (state_user (state policyContext))) then Returned true
    else throw "You do not have permission to modify this resource. Only the owner can perform this action.".
Proof.
  unfold not_bypassed, authenticated, is_owner.
  intros -> -> -> ->. cbv zeta. cbn [negb mbind outcome_bind].
  destruct (JS.truthy (id_of_creator entity)); [| done].
  cbn [negb]. by destruct (JS.strict_eq _ _).
Qed.

(** X10. The plain ownership check passes, on a resource the store
    returns, if and only if the resource's creator id is the principal's
    id, whatever the principal's role (an editor who is not the owner is
    denied); otherwise it is denied with the not-owner message, or with the
    no-creator message when no creator is recorded. *)
Theorem is_owner_decision
    (policyContext : PolicyContext) (config : PolicyConfig) (strapi : Strapi)
    (entity : Entity) :
  not_bypassed policyContext ->
  authenticated policyContext ->
  JS.truthy (params_id policyContext) = true ->
  findOne strapi
    (JS.str_or (JS.or_empty (contentType config)) "api::article.article")
    (params_id policyContext) ["createdBy"] = Returned (Some entity) ->
  (is_owner policyContext config strapi = Returned true
   <-> id_of_creator entity = id_of (state_user (state policyContext)))
  /\ (id_of_creator entity <> id_of (state_user (state policyContext)) ->
      is_owner policyContext config strapi =
        if JS.truthy (id_of_creator entity) then
          throw "You do not have permission to modify this resource. Only the owner can perform this action."
        else throw "Unable to verify ownership - resource has no creator").
Proof.
  intros Hapi Hid Hpar Hfind.
  rewrite (is_owner_found _ _ _ entity Hapi Hid Hpar Hfind).
  unfold JS.strict_eq.
  destruct (JS.truthy (id_of_creator entity)) eqn:Hcr; cbn [negb].
  - case_bool_decide as Heq; split; done.
  - assert (id_of_creator entity <> id_of (state_user (state policyContext)))
      by (intros Heq; unfold authenticated in Hid; congruence).
    split; [split; done | done].
Qed.

(** An editor who did not create the article fails the plain check. *)
Lemma is_owner_decision_witness :
  is_owner
    (Sample.session (Sample.user 7 (Some "editor") (Some "Editor"))
       JS.Undefined (JS.Str "5"))
    Sample.no_config (Sample.store 3 (JS.Str "draft"))
  = throw "You do not have permission to modify this resource. Only the owner can perform this action.".
Proof.
  destruct (is_owner_decision
    (Sample.session (Sample.user 7 (Some "editor") (Some "Editor"))
       JS.Undefined (JS.Str "5"))
    Sample.no_config (Sample.store 3 (JS.Str "draft"))
    (mkEntity (Some (mkCreator (JS.Num 3))) (JS.Str "draft"))
    eq_refl eq_refl eq_refl eq_refl) as [_ Hdeny].
  apply Hdeny. discriminate.
Defined.

(** X11. The ownership-or-editor check is the plain ownership check plus
    the editor override: whenever is-owner allows, is-owner-or-editor
    allows, and for a principal who is not an editor is-owner-or-editor
    allows only when is-owner does. *)
Theorem is_owner_implies_owner_or_editor
    (policyContext : PolicyContext) (config : PolicyConfig) (strapi : Strapi) :
  (is_owner policyContext config strapi = Returned true ->
   is_owner_or_editor policyContext config strapi = Returned true)
  /\ (~ (roleType_of policyContext = "editor" \/ roleName_of policyContext = "editor") ->
      is_owner_or_editor policyContext config strapi = Returned true ->
      is_owner policyContext config strapi = Returned true).
Proof.
  unfold roleType_of, roleName_of.
  rewrite <- !String.eqb_eq, <- orb_true_iff.
  unfold is_owner, is_owner_or_editor, try_catch, mbind, outcome_bind, throw.
  cbv zeta.
  destruct (is_api_token (state policyContext)); [done |].
  destruct (negb (JS.truthy (id_of (state_user (state policyContext)))));
    [by split; [| intros _] |].
  destruct (_ || _).
  { split; [done |]. by intros []. }
  destruct (negb (JS.truthy (params_id policyContext))); [by split; [| intros _] |].
  destruct (findOne strapi _ _ _) as [[entity |] | [message |]];
    repeat case_match; simplify_eq; by split; [| intros _].
Qed.

(** The owner passes both checks. *)
Lemma is_owner_implies_owner_or_editor_witness :
  is_owner_or_editor
    (Sample.session (Sample.user 7 (Some "reporter") (Some "Reporter"))
       JS.Undefined (JS.Str "5"))
    Sample.no_config (Sample.store 7 (JS.Str "draft"))
  = Returned true.
Proof.
  apply (proj1 (is_owner_implies_owner_or_editor
    (Sample.session (Sample.user 7 (Some "reporter") (Some "Reporter"))
       JS.Undefined (JS.Str "5"))
    Sample.no_config (Sample.store 7 (JS.Str "draft")))).
  reflexivity.
Defined.

(** X12. For an authenticated principal who is not an editor, both
    ownership checks fail closed when there is nothing to own: without a
    resource id they reject with [Resource ID is required], and when the
    store has no such resource with [Resource not found]. *)
Theorem ownership_needs_a_resource
    (policyContext : PolicyContext) (config : PolicyConfig) (strapi : Strapi) :
  not_bypassed policyContext ->
  authenticated policyContext ->
  ~ (roleType_of policyContext = "editor" \/ roleName_of policyContext = "editor") ->
  (JS.truthy (params_id policyContext) = false ->
   is_owner policyContext config strapi = throw "Resource ID is required"
   /\ is_owner_or_editor policyContext config strapi
      = throw "Resource ID is required")
  /\ (JS.truthy (params_id policyContext) = true ->
      findOne strapi
        (JS.str_or (JS.or_empty (contentType config)) "api::article.article")
        (params_id policyContext) ["createdBy"] = Returned None ->
      is_owner policyContext config strapi = throw "Resource not found"
      /\ is_owner_or_editor policyContext config strapi
         = throw "Resource not found").
Proof.
  unfold not_bypassed, authenticated, roleType_of, roleName_of.
  rewrite <- !String.eqb_eq, <- orb_true_iff.
  intros Hapi Hid Hed%not_true_is_false.
  unfold is_owner, is_owner_or_editor. cbv zeta. rewrite Hapi, Hid, Hed.
  split.
  - by intros ->.
  - by intros -> ->.
Qed.

(** A reporter on a request without a resource id. *)
Lemma ownership_needs_a_resource_witness :
  let ctx := Sample.session (Sample.user 7 (Some "reporter") (Some "Reporter"))
               JS.Undefined JS.Undefined in
  is_owner ctx Sample.no_config (Sample.store 7 (JS.Str "draft"))
  = throw "Resource ID is required"
  /\ is_owner_or_editor ctx Sample.no_config (Sample.store 7 (JS.Str "draft"))
     = throw "Resource ID is required".
Proof.
  intros ctx.
  assert (Hrole : ~ (roleType_of ctx = "editor" \/ roleName_of ctx = "editor"))
    by (intros [H | H]; vm_compute in H; discriminate H).
  destruct (ownership_needs_a_resource ctx Sample.no_config
              (Sample.store 7 (JS.Str "draft")) eq_refl eq_refl Hrole)
    as [Hmissing _].
  apply Hmissing. reflexivity.
Defined.

(** X13. When the store call of an ownership check is rejected, an
    [Error] whose message contains one of [permission], [not found],
    [logged in], [ownership], [required] reaches the caller unchanged;
    anything else is replaced by the policy's generic message. *)
Theorem ownership_store_failure
    (policyContext : PolicyContext) (config : PolicyConfig) (strapi : Strapi)
    (e : thrown) :
  not_bypassed policyContext ->
  authenticated policyContext ->
  ~ (roleType_of policyContext = "editor" \/ roleName_of policyContext = "editor") ->
  JS.truthy (params_id policyContext) = true ->
  findOne strapi
    (JS.str_or (JS.or_empty (contentType config)) "api::article.article")
    (params_id policyContext) ["createdBy"] = Thrown e ->
  (forall message : string,
     e = Error message -> is_own_error message = true ->
     is_owner policyContext config strapi = Thrown (Error message)
     /\ is_owner_or_editor policyContext config strapi = Thrown (Error message))
  /\ ((forall message : string, e = Error message -> is_own_error message = false) ->
      is_owner policyContext config strapi
      = throw "An error occurred while verifying ownership"
      /\ is_owner_or_editor policyContext config strapi
         = throw "An error occurred while verifying access permissions").
Proof.
  unfold not_bypassed, authenticated, roleType_of, roleName_of.
  rewrite <- !String.eqb_eq, <- orb_true_iff.
  intros Hapi Hid Hed%not_true_is_false Hpar Hfind.
  unfold is_owner, is_owner_or_editor. cbv zeta.
  rewrite Hapi, Hid, Hed, Hpar, Hfind.
  cbn [negb mbind outcome_bind try_catch]. split.
  - intros message -> Hown. by rewrite Hown.
  - intros Hother. destruct e as [message |]; [| done].
    by rewrite (Hother message eq_refl).
Qed.

(** A database error that mentions [not found] is passed on verbatim. *)
Lemma ownership_store_failure_witness :
  let ctx := Sample.session (Sample.user 7 (Some "reporter") (Some "Reporter"))
               JS.Undefined (JS.Str "5") in
  let strapi := mkStrapi (fun _ _ _ =>
                  Thrown (Error "relation articles_created_by not found")) in
  is_owner ctx Sample.no_config strapi
  = Thrown (Error "relation articles_created_by not found")
  /\ is_owner_or_editor ctx Sample.no_config strapi
     = Thrown (Error "relation articles_created_by not found").
Proof.
  intros ctx strapi.
  assert (Hrole : ~ (roleType_of ctx = "editor" \/ roleName_of ctx = "editor"))
    by (intros [H | H]; vm_compute in H; discriminate H).
  destruct (ownership_store_failure ctx Sample.no_config strapi
              (Error "relation articles_created_by not found")
              eq_refl eq_refl Hrole eq_refl eq_refl) as [Hpass _].
  apply (Hpass "relation articles_created_by not found"); reflexivity.
Defined.

(** ** Routes *)

Lemma global_policies_cases (name : string) :
  global_policies !! name =
    if decide (name = "global::can-publish") then Some can_publish
    else if decide (name = "global::cms-role") then Some cms_role
    else if decide (name = "global::is-owner") then Some is_owner
    else if decide (name = "global::is-owner-or-editor") then Some is_owner_or_editor
    else if decide (name = "global::role-check") then Some role_check
    else if decide (name = "global::workflow-status") then Some workflow_status
    else None.
Proof.
  unfold global_policies.
  rewrite !list_to_map_cons, !list_to_map_nil. cbn [fst snd].
  rewrite !lookup_insert, lookup_empty.
  repeat case_decide; simplify_eq; done.
Qed.

Lemma run_named (name : string) (policy : Policy)
    (policyContext : PolicyContext) (strapi : Strapi) :
  global_policies !! name = Some policy ->
  run_entry (Named name) policyContext strapi
  = Some (policy policyContext (mkConfig None None) strapi).
Proof. intros H. unfold run_entry. cbn [entry_name entry_config]. by rewrite H. Qed.

Lemma run_role_check (l : list string)
    (policyContext : PolicyContext) (strapi : Strapi) :
  run_entry (role_check_entry l) policyContext strapi
  = Some (role_check policyContext (mkConfig (Some l) None) strapi).
Proof.
  unfold run_entry, role_check_entry. cbn [entry_name entry_config].
  by rewrite global_policies_cases.
Qed.

Lemma run_cms_role (policyContext : PolicyContext) (strapi : Strapi) :
  run_entry (Named "global::cms-role") policyContext strapi
  = Some (cms_role policyContext (mkConfig None None) strapi).
Proof. apply run_named. by rewrite global_policies_cases. Qed.

Lemma run_can_publish (policyContext : PolicyContext) (strapi : Strapi) :
  run_entry (Named "global::can-publish") policyContext strapi
  = Some (can_publish policyContext (mkConfig None None) strapi).
Proof. apply run_named. by rewrite global_policies_cases. Qed.

Lemma run_is_owner_or_editor (policyContext : PolicyContext) (strapi : Strapi) :
  run_entry (Named "global::is-owner-or-editor") policyContext strapi
  = Some (is_owner_or_editor policyContext (mkConfig None None) strapi).
Proof. apply run_named. by rewrite global_policies_cases. Qed.

Lemma run_workflow_status (policyContext : PolicyContext) (strapi : Strapi) :
  run_entry (Named "global::workflow-status") policyContext strapi
  = Some (workflow_status policyContext (mkConfig None None) strapi).
Proof. apply run_named. by rewrite global_policies_cases. Qed.

(** Every route of the two tables, one case each. *)
Ltac each_route H :=
  unfold all_routes, article_routes, tag_routes in H; cbn [app] in H;
  repeat (apply elem_of_cons in H as [-> | H]);
  [.. | by apply elem_of_nil in H].

Ltac run_entries :=
  rewrite ?run_role_check, ?run_cms_role, ?run_can_publish,
    ?run_is_owner_or_editor, ?run_workflow_status.

(** The delete route is in the table. *)
Lemma delete_in_routes :
  mkRoute "DELETE" "/articles/:id" "article.delete" true
    [role_check_entry ["editor"; "admin"]; Named "global::is-owner-or-editor"]
  ∈ all_routes.
Proof. unfold all_routes, article_routes. cbn [app]. repeat constructor. Qed.

(** X14. A request made with an API token passes the policies of every
    route of the article and tag tables. *)
Theorem api_token_passes_every_route
    (r : Route) (policyContext : PolicyContext) (strapi : Strapi) :
  r ∈ all_routes ->
  auth_strategy_name (state policyContext) = Some "api-token" ->
  route_passes r policyContext strapi.
Proof.
  intros Hr Hapi%api_token_flag. unfold route_passes.
  each_route Hr; cbn [policies]; repeat constructor; run_entries;
    f_equal; unfold role_check, cms_role, can_publish, is_owner_or_editor,
      workflow_status; by rewrite Hapi.
Qed.

(** A reader's API token on the delete route. *)
Lemma api_token_passes_every_route_witness :
  route_passes
    (mkRoute "DELETE" "/articles/:id" "article.delete" true
       [role_check_entry ["editor"; "admin"]; Named "global::is-owner-or-editor"])
    (Sample.token (Sample.user 7 (Some "reader") (Some "Reader"))
       JS.Undefined (JS.Str "5"))
    (Sample.store 3 (JS.Str "draft")).
Proof.
  apply api_token_passes_every_route; [apply delete_in_routes | reflexivity].
Defined.

(** X15. A request with no user and no API token passes no route that
    carries a policy. *)
Theorem anonymous_passes_no_guarded_route
    (r : Route) (policyContext : PolicyContext) (strapi : Strapi) :
  r ∈ all_routes ->
  policies r <> [] ->
  not_bypassed policyContext ->
  state_user (state policyContext) = None ->
  ~ route_passes r policyContext strapi.
Proof.
  unfold not_bypassed, route_passes.
  intros Hr Hguard Hapi Huser Hpass.
  each_route Hr; cbn [policies] in *; try done;
    apply Forall_cons in Hpass as [Hfirst _]; revert Hfirst; run_entries;
    unfold role_check, cms_role, can_publish; rewrite Hapi, Huser; done.
Qed.

(** The delete route, without a user. *)
Lemma anonymous_passes_no_guarded_route_witness :
  ~ route_passes
      (mkRoute "DELETE" "/articles/:id" "article.delete" true
         [role_check_entry ["editor"; "admin"]; Named "global::is-owner-or-editor"])
      (Sample.session None JS.Undefined (JS.Str "5"))
      (Sample.store 3 (JS.Str "draft")).
Proof.
  apply anonymous_passes_no_guarded_route;
    [apply delete_in_routes | discriminate | reflexivity | reflexivity].
Defined.

Lemma reader_not_allowed (l : list string) (roleType roleName : string) :
  bool_decide ("reader" ∈ normalized_allowed l) = false ->
  bool_decide (EmptyString ∈ normalized_allowed l) = false ->
  roleType = "reader" ->
  roleName = EmptyString \/ roleName = "reader" ->
  ~ (roleType ∈ normalized_allowed l \/ roleName ∈ normalized_allowed l).
Proof.
  intros Hreader%bool_decide_eq_false Hempty%bool_decide_eq_false -> Hname.
  intros [Hin | Hin]; [done |]. by destruct Hname as [-> | ->].
Qed.

Lemma resolved_tag (policyContext : PolicyContext) (user : User) (tag : string) :
  state_user (state policyContext) = Some user ->
  roleType_of policyContext = tag ->
  tag <> EmptyString ->
  JS.toLowerCase
    (JS.trim (JS.str_or (JS.or_empty (type_of (user_role user)))
                        (JS.or_empty (name_of (user_role user)))))
  = JS.trim tag.
Proof.
  unfold roleType_of, lowered, role_of. intros -> Htag Hne. cbn [mbind option_bind] in Htag.
  rewrite toLowerCase_trim.
  assert (Htype : JS.or_empty (type_of (user_role user)) <> EmptyString).
  { intros Hempty. rewrite Hempty in Htag. by subst. }
  unfold JS.str_or, JS.is_empty.
  apply String.eqb_neq in Htype. by rewrite Htype, Htag.
Qed.

(** X16. A principal whose role type is [reader] (and whose role name
    is absent or [reader]) passes no route that carries a policy. *)
Theorem reader_passes_no_guarded_route
    (r : Route) (policyContext : PolicyContext) (strapi : Strapi) :
  r ∈ all_routes ->
  policies r <> [] ->
  not_bypassed policyContext ->
  roleType_of policyContext = "reader" ->
  roleName_of policyContext = EmptyString \/ roleName_of policyContext = "reader" ->
  ~ route_passes r policyContext strapi.
Proof.
  unfold route_passes.
  intros Hr Hguard Hapi Htype Hname Hpass.
  assert (Huser : exists user, state_user (state policyContext) = Some user).
  { unfold roleType_of in Htype.
    destruct (state_user (state policyContext)) as [user |]; [by exists user | done]. }
  destruct Huser as [user Huser].
  assert (Hcms : cms_role policyContext (mkConfig None None) strapi = Returned false).
  { rewrite (cms_role_decision _ _ _ user Hapi Huser).
    rewrite (resolved_tag _ user "reader" Huser Htype) by done.
    vm_compute. reflexivity. }
  assert (Hpub : can_publish policyContext (mkConfig None None) strapi <> Returned true).
  { destruct (JS.truthy (id_of (state_user (state policyContext)))) eqn:Hid.
    - rewrite (can_publish_decision _ _ _ Hapi Hid), Htype.
      by destruct Hname as [-> | ->].
    - unfold can_publish. cbv zeta. by rewrite Hapi, Hid. }
  each_route Hr; cbn [policies] in *; try done;
    apply Forall_cons in Hpass as [Hfirst _]; revert Hfirst; run_entries;
    intros [= Hfirst]; try congruence.
  all: apply (role_check_allows_iff _ _ _ Hapi) in Hfirst as (_ & _ & Hm).
  all: revert Hm; cbn [roles default from_option id].
  all: (apply reader_not_allowed; [vm_compute; reflexivity .. | done | done]).
Qed.

(** A reader on the delete route, even as the creator of the article. *)
Lemma reader_passes_no_guarded_route_witness :
  ~ route_passes
      (mkRoute "DELETE" "/articles/:id" "article.delete" true
         [role_check_entry ["editor"; "admin"]; Named "global::is-owner-or-editor"])
      (Sample.session (Sample.user 7 (Some "reader") (Some "Reader"))
         JS.Undefined (JS.Str "5"))
      (Sample.store 7 (JS.Str "draft")).
Proof.
  apply reader_passes_no_guarded_route;
    [apply delete_in_routes | discriminate | reflexivity | reflexivity
    | right; reflexivity].
Defined.

Lemma is_owner_or_editor_allows_iff
    (policyContext : PolicyContext) (config : PolicyConfig) (strapi : Strapi) :
  not_bypassed policyContext ->
  is_owner_or_editor policyContext config strapi = Returned true
  <-> authenticated policyContext
      /\ ((roleType_of policyContext = "editor" \/ roleName_of policyContext = "editor")
          \/ (JS.truthy (params_id policyContext) = true
              /\ exists entity : Entity,
                   findOne strapi
                     (JS.str_or (JS.or_empty (contentType config)) "api::article.article")
                     (params_id policyContext) ["createdBy"] = Returned (Some entity)
                   /\ id_of_creator entity = id_of (state_user (state policyContext)))).
Proof.
  intros Hapi. unfold authenticated.
  destruct (JS.truthy (id_of (state_user (state policyContext)))) eqn:Hid.
  2: { unfold is_owner_or_editor. cbv zeta. rewrite Hapi, Hid.
       split; [done | by intros [? _]]. }
  destruct (decide (roleType_of policyContext = "editor"
                    \/ roleName_of policyContext = "editor")) as [Hed | Hed].
  { rewrite (is_owner_or_editor_editor _ _ _ Hapi Hid Hed). split; auto. }
  assert (Hedb : String.eqb (lowered (type_of (role_of (state_user (state policyContext))))) "editor"
                 || String.eqb (lowered (name_of (role_of (state_user (state policyContext))))) "editor"
                 = false).
  { apply not_true_is_false. intros Hb. apply Hed.
    by rewrite orb_true_iff, !String.eqb_eq in Hb. }
  destruct (JS.truthy (params_id policyContext)) eqn:Hpar.
  2: { unfold is_owner_or_editor. cbv zeta. rewrite Hapi, Hid, Hedb, Hpar.
       split; [done |]. by intros (_ & [Hed' | [? _]]). }
  destruct (findOne strapi
              (JS.str_or (JS.or_empty (contentType config)) "api::article.article")
              (params_id policyContext) ["createdBy"]) as [[entity |] | e] eqn:Hfind.
  - rewrite (is_owner_or_editor_other _ _ _ entity Hapi Hid Hed Hpar Hfind).
    unfold JS.strict_eq.
    destruct (JS.truthy (id_of_creator entity)) eqn:Hcr; cbn [negb].
    + case_bool_decide as Heq.
      * split; [| done]. intros _. split; [done |]. right. split; [done |].
        by exists entity.
      * split; [done |]. intros (_ & [? | (_ & entity' & ? & ?)]); [done |].
        by simplify_eq.
    + split; [done |]. intros (_ & [? | (_ & entity' & ? & ?)]); [done |].
      simplify_eq. congruence.
  - unfold is_owner_or_editor. cbv zeta. rewrite Hapi, Hid, Hedb, Hpar, Hfind.
    split; [done |]. by intros (_ & [Hed' | (_ & entity' & ? & ?)]).
  - unfold is_owner_or_editor. cbv zeta. rewrite Hapi, Hid, Hedb, Hpar, Hfind.
    cbn [negb mbind outcome_bind try_catch].
    split; [| by intros (_ & [Hed' | (_ & entity' & ? & ?)])].
    destruct e as [message |]; [destruct (is_own_error message) |]; done.
Qed.

Lemma elem_of_editor_admin (x : string) :
  x ∈ normalized_allowed ["editor"; "admin"] <-> x = "editor" \/ x = "admin".
Proof.
  rewrite elem_of_normalized_allowed. split.
  - intros (r & -> & Hin).
    repeat (apply elem_of_cons in Hin as [-> | Hin]); [by left | by right |].
    by apply elem_of_nil in Hin.
  - intros [-> | ->]; [exists "editor" | exists "admin"];
      (split; [reflexivity | repeat constructor]).
Qed.

(** X17. The delete route lets through exactly the authenticated
    editors and the authenticated admins who created the article: its role
    gate stops every other role, so a reporter or reviewer cannot delete an
    article of their own, and a non-owning admin is stopped by the
    ownership check. *)
Theorem delete_route_decision
    (r : Route) (policyContext : PolicyContext) (strapi : Strapi) :
  r ∈ all_routes ->
  handler r = "article.delete" ->
  not_bypassed policyContext ->
  route_passes r policyContext strapi
  <-> authenticated policyContext
      /\ ((roleType_of policyContext = "editor" \/ roleName_of policyContext = "editor")
          \/ ((roleType_of policyContext = "admin" \/ roleName_of policyContext = "admin")
              /\ JS.truthy (params_id policyContext) = true
              /\ exists entity : Entity,
                   findOne strapi "api::article.article"
                     (params_id policyContext) ["createdBy"] = Returned (Some entity)
                   /\ id_of_creator entity = id_of (state_user (state policyContext)))).
Proof.
  intros Hr Hhandler Hapi. unfold route_passes.
  each_route Hr; cbn [handler] in Hhandler; try discriminate Hhandler.
  cbn [policies]. rewrite !Forall_cons, Forall_nil. run_entries.
  assert (Hsome : forall o o' : outcome bool, Some o = Some o' <-> o = o')
    by (intros; split; congruence).
  rewrite !Hsome, (role_check_allows_iff _ _ _ Hapi),
    (is_owner_or_editor_allows_iff _ _ _ Hapi).
  cbn [roles contentType default from_option id JS.or_empty JS.str_or JS.is_empty
       String.eqb].
  rewrite !elem_of_editor_admin.
  split.
  - intros ((Hid & Hrole & Hm) & (_ & [Hed | Hown]) & _); split; try done.
    + by left.
    + destruct (decide (roleType_of policyContext = "editor"
                        \/ roleName_of policyContext = "editor")); [by left |].
      right. split; [tauto | done].
  - intros (Hid & [Hed | (Hadmin & Hown)]).
    + split; [| by split; [split; [| left] |]].
      split; [done |]. split; [| tauto].
      intros [Ht Hn]. rewrite Ht, Hn in Hed. by destruct Hed.
    + split; [| by split; [split; [| right] |]].
      split; [done |]. split; [| tauto].
      intros [Ht Hn]. rewrite Ht, Hn in Hadmin. by destruct Hadmin.
Qed.

(** An admin deleting an article of their own. *)
Lemma delete_route_decision_witness :
  route_passes
    (mkRoute "DELETE" "/articles/:id" "article.delete" true
       [role_check_entry ["editor"; "admin"]; Named "global::is-owner-or-editor"])
    (Sample.session (Sample.user 7 (Some "admin") (Some "Admin"))
       JS.Undefined (JS.Str "5"))
    (Sample.store 7 (JS.Str "draft")).
Proof.
  apply (delete_route_decision _
    (Sample.session (Sample.user 7 (Some "admin") (Some "Admin"))
       JS.Undefined (JS.Str "5"))
    (Sample.store 7 (JS.Str "draft")) delete_in_routes eq_refl eq_refl).
  split; [reflexivity |]. right.
  split; [left; reflexivity |]. split; [reflexivity |].
  exists (mkEntity (Some (mkCreator (JS.Num 7))) (JS.Str "draft")).
  split; reflexivity.
Defined.

Lemma editor_allowed (l : list string) (roleType roleName : string) :
  bool_decide ("editor" ∈ normalized_allowed l) = true ->
  roleType = "editor" ->
  ~ (roleType = EmptyString /\ roleName = EmptyString)
  /\ (roleType ∈ normalized_allowed l \/ roleName ∈ normalized_allowed l).
Proof.
  intros Hin%bool_decide_eq_true ->. split; [by intros [? _] | by left].
Qed.

(** X18. An authenticated principal whose role type is [editor] passes
    the policies of every route other than the update routes (where the
    workflow check depends on the request). *)
Theorem editor_passes_every_other_route
    (r : Route) (policyContext : PolicyContext) (strapi : Strapi) :
  r ∈ all_routes ->
  handler r <> "article.update" ->
  authenticated policyContext ->
  roleType_of policyContext = "editor" ->
  route_passes r policyContext strapi.
Proof.
  intros Hr Hhandler Hid Htype.
  destruct (is_api_token (state policyContext)) eqn:Hapi.
  { unfold route_passes.
    each_route Hr; cbn [policies]; repeat constructor; run_entries;
      f_equal; unfold role_check, cms_role, can_publish, is_owner_or_editor,
        workflow_status; by rewrite Hapi. }
  assert (Huser : exists user, state_user (state policyContext) = Some user).
  { unfold roleType_of in Htype.
    destruct (state_user (state policyContext)) as [user |]; [by exists user | done]. }
  destruct Huser as [user Huser].
  assert (Hcms : cms_role policyContext (mkConfig None None) strapi = Returned true).
  { rewrite (cms_role_decision _ _ _ user Hapi Huser).
    rewrite (resolved_tag _ user "editor" Huser Htype) by done.
    vm_compute. reflexivity. }
  assert (Hpub : can_publish policyContext (mkConfig None None) strapi = Returned true).
  { by rewrite (can_publish_decision _ _ _ Hapi Hid), Htype. }
  assert (Hown : is_owner_or_editor policyContext (mkConfig None None) strapi
                 = Returned true).
  { apply is_owner_or_editor_editor; auto. }
  unfold route_passes.
  each_route Hr; cbn [policies handler] in *; try done;
    repeat constructor; run_entries; f_equal; try done.
  all: apply (role_check_allows_iff _ _ _ Hapi); split; [done |].
  all: cbn [roles default from_option id].
  all: apply editor_allowed; [vm_compute; reflexivity | done].
Qed.

(** An editor deleting somebody else's article. *)
Lemma editor_passes_every_other_route_witness :
  route_passes
    (mkRoute "DELETE" "/articles/:id" "article.delete" true
       [role_check_entry ["editor"; "admin"]; Named "global::is-owner-or-editor"])
    (Sample.session (Sample.user 7 (Some "editor") (Some "Editor"))
       JS.Undefined (JS.Str "5"))
    (Sample.store 3 (JS.Str "draft")).
Proof.
  apply editor_passes_every_other_route;
    [apply delete_in_routes | discriminate | reflexivity | reflexivity].
Defined.

(** X19. In the route tables every route that is not a GET carries at
    least one policy; a route without policies is public ([auth: false]);
    an article route with policies requires authentication, while every
    tag route, the guarded write routes included, has [auth: false]; and
    every policy name a route uses is a registered global policy. *)
Theorem route_tables_are_guarded (r : Route) :
  r ∈ all_routes ->
  (method r <> "GET" -> policies r <> [])
  /\ (policies r = [] -> auth r = false)
  /\ (r ∈ article_routes -> policies r <> [] -> auth r = true)
  /\ (r ∈ tag_routes -> auth r = false)
  /\ Forall (fun e => is_Some (global_policies !! entry_name e)) (policies r).
Proof.
  intros Hr.
  assert (Hnames : forall name, 
            name ∈ ["global::role-check"; "global::cms-role";
                    "global::is-owner-or-editor"; "global::workflow-status";
                    "global::can-publish"] ->
            is_Some (global_policies !! name)).
  { intros name Hin. rewrite global_policies_cases.
    repeat (apply elem_of_cons in Hin as [-> | Hin]);
      [.. | by apply elem_of_nil in Hin]; by eexists. }
  each_route Hr; cbn [method policies auth].
  all: split; [done |]; split; [done |].
  all: split; [try done |].
  all: try (intros Hin _; unfold article_routes in Hin;
            repeat (apply elem_of_cons in Hin as [Heq | Hin];
                    [discriminate Heq |]);
            by apply elem_of_nil in Hin).
  all: split; [try done |].
  all: try (intros Hin; unfold tag_routes in Hin;
            repeat (apply elem_of_cons in Hin as [Heq | Hin];
                    [discriminate Heq |]);
            by apply elem_of_nil in Hin).
  all: repeat constructor; apply Hnames; cbn [entry_name role_check_entry];
    repeat constructor.
Qed.

(** The delete route carries policies. *)
Lemma route_tables_are_guarded_witness :
  policies
    (mkRoute "DELETE" "/articles/:id" "article.delete" true
       [role_check_entry ["editor"; "admin"]; Named "global::is-owner-or-editor"])
  <> [].
Proof.
  destruct (route_tables_are_guarded _ delete_in_routes) as [Hguard _].
  apply Hguard. discriminate.
Defined.

(** * Properties of the user lifecycle hooks *)

(** ** The matcher *)



Lemma Matches_nullable r : Regex.nullable r = true <-> Matches r [].
Proof.
  induction r as [| |p|r1 IH1 r2 IH2|r1 IH1 r2 IH2|r IH]; simpl.
  - split; [done | inversion 1].
  - split; [constructor | done].
  - split; [done | inversion 1].
  - rewrite andb_true_iff, IH1, IH2. split.
    + intros [H1 H2]. apply (M_Cat _ _ [] []); done.
    + intros H. inversion H as [| |? ? w1 w2 H1 H2 Hr Heq| | | |]; subst.
      apply app_eq_nil in Heq as [-> ->]. done.
  - rewrite orb_true_iff, IH1, IH2. split.
    + intros [H|H]; [by apply M_AltL | by apply M_AltR].
    + inversion 1; subst; auto.
  - split; [constructor | done].
Qed.

Lemma Matches_star_cons r c w :
  Matches (Regex.Star r) (c :: w) ->
  exists w1 w2, w = (w1 ++ w2)%list /\ Matches r (c :: w1)
                /\ Matches (Regex.Star r) w2.
Proof.
  intros H. remember (Regex.Star r) as s eqn:Hs.
  remember (c :: w) as cw eqn:Hw. revert Hs Hw.
  induction H as [| | | | | |r' w1 w2 H1 _ H2 IH2]; intros Hs Hw;
    try discriminate.
  injection Hs as ->. destruct w1 as [|a w1]; simpl in Hw.
  - by apply IH2.
  - injection Hw as -> <-. eauto.
Qed.

Lemma Matches_deriv r : forall c w,
  Matches (Regex.deriv c r) w <-> Matches r (c :: w).
Proof.
  induction r as [| |p|r1 IH1 r2 IH2|r1 IH1 r2 IH2|r IH]; intros c w; simpl.
  - split; inversion 1.
  - split; inversion 1.
  - destruct (p c) eqn:E; split; intros H.
    + inversion H; subst. by constructor.
    + inversion H; subst. constructor.
    + inversion H.
    + inversion H; subst. congruence.
  - destruct (Regex.nullable r1) eqn:N.
    + split; intros H.
      * inversion H as [| | |? ? ? Hc|? ? ? Hc| |]; subst.
        -- inversion Hc as [| |? ? w1 w2 H1 H2| | | |]; subst.
           apply IH1 in H1. by apply (M_Cat _ _ (c :: w1) w2).
        -- apply IH2 in Hc. apply Matches_nullable in N.
           by apply (M_Cat _ _ [] (c :: w)).
      * inversion H as [| |? ? w1 w2 H1 H2 Hr Heq| | | |]; subst.
        destruct w1 as [|a w1]; simpl in Heq.
        -- subst w2. apply M_AltR. by apply IH2.
        -- injection Heq as -> <-. apply M_AltL. constructor; [|done].
           by apply IH1.
    + split; intros H.
      * inversion H as [| |? ? w1 w2 H1 H2| | | |]; subst.
        apply IH1 in H1. by apply (M_Cat _ _ (c :: w1) w2).
      * inversion H as [| |? ? w1 w2 H1 H2 Hr Heq| | | |]; subst.
        destruct w1 as [|a w1]; simpl in Heq.
        -- apply Matches_nullable in H1. congruence.
        -- injection Heq as -> <-. constructor; [|done]. by apply IH1.
  - split; intros H.
    + inversion H; subst; [apply M_AltL | apply M_AltR]; by
        first [apply IH1 | apply IH2].
    + inversion H; subst; [apply M_AltL | apply M_AltR]; by
        first [apply IH1 | apply IH2].
  - split; intros H.
    + inversion H as [| |? ? w1 w2 H1 H2| | | |]; subst.
      apply IH in H1. by apply (M_Star_cons _ (c :: w1) w2).
    + apply Matches_star_cons in H as (w1 & w2 & -> & H1 & H2).
      constructor; [|done]. by apply IH.
Qed.

Lemma matches_Matches w : forall r,
  Regex.matches r w = true <-> Matches r w.
Proof.
  induction w as [|c w IH]; intros r; simpl.
  - apply Matches_nullable.
  - rewrite IH. apply Matches_deriv.
Qed.

Lemma Matches_star_any w : Matches (Regex.Star Regex.any) w.
Proof.
  induction w as [|a w IH]; [constructor|].
  apply (M_Star_cons _ [a] w); [by constructor | done].
Qed.

Lemma Matches_star_class p w :
  Matches (Regex.Star (Regex.Class p)) w <-> forallb p w = true.
Proof.
  split.
  - intros H. remember (Regex.Star (Regex.Class p)) as s eqn:Hs.
    revert Hs. induction H as [| | | | | |r w1 w2 H1 _ _ IH2]; intros Hs;
      try discriminate; [done|].
    injection Hs as ->. inversion H1; subst. simpl.
    apply andb_true_iff. split; [done | by apply IH2].
  - induction w as [|a w IH]; simpl; [constructor|].
    intros [Ha Hw]%andb_true_iff.
    apply (M_Star_cons _ [a] w); [by constructor | by apply IH].
Qed.

Lemma Matches_plus_class p w :
  Matches (Regex.Plus (Regex.Class p)) w <-> w <> [] /\ forallb p w = true.
Proof.
  unfold Regex.Plus. split.
  - intros H. inversion H as [| |? ? w1 w2 H1 H2| | | |]; subst.
    inversion H1; subst. apply Matches_star_class in H2. simpl.
    split; [done|]. apply andb_true_iff. done.
  - intros [Hne Hall]. destruct w as [|a w]; [done|]. simpl in Hall.
    apply andb_true_iff in Hall as [Ha Hw].
    apply (M_Cat _ _ [a] w); [by constructor | by apply Matches_star_class].
Qed.

Lemma Matches_chr c w : Matches (Regex.Chr c) w <-> w = [c].
Proof.
  unfold Regex.Chr. split.
  - inversion 1 as [|? ? Hc| | | | |]; subst.
    apply Ascii.eqb_eq in Hc. by subst.
  - intros ->. constructor. apply Ascii.eqb_refl.
Qed.

(** An unanchored test of a character class looks for one character of
    the class. *)
Lemma test_class p s : Regex.test (Regex.Class p) s = existsb p (chars s).
Proof.
  apply Bool.eq_true_iff_eq. unfold Regex.test, chars.
  rewrite matches_Matches, existsb_exists. split.
  - intros H. inversion H as [| |? ? w1 w2 H1 H2| | | |]; subst.
    inversion H2 as [| |? ? w3 w4 Hc Hr| | | |]; subst.
    inversion Hc; subst. exists c. split; [|done].
    apply in_or_app. right. by left.
  - intros (c & Hin & Hc). apply in_split in Hin as (l1 & l2 & ->).
    constructor; [apply Matches_star_any|].
    apply (M_Cat _ _ [c] l2); [by constructor | apply Matches_star_any].
Qed.

Lemma chars_app a b : chars (a ++ b) = (chars a ++ chars b)%list.
Proof.
  induction a as [|c a IH]; [done|].
  change (String c a ++ b) with (String c (a ++ b)). unfold chars in *.
  simpl. by rewrite IH.
Qed.

Lemma chars_inj a b : chars a = chars b -> a = b.
Proof.
  intros H. rewrite <- (String.string_of_list_ascii_of_string a),
    <- (String.string_of_list_ascii_of_string b). unfold chars in H.
  by rewrite H.
Qed.

Lemma chars_of_list l : chars (String.string_of_list_ascii l) = l.
Proof. apply String.list_ascii_of_string_of_list_ascii. Qed.

Lemma chars_nil s : chars s = [] <-> s = EmptyString.
Proof. destruct s; split; done. Qed.

Lemma plain_forallb s :
  Lifecycles.plain s <->
  chars s <> [] /\
  forallb (fun c => negb (JS.is_space c || Ascii.eqb c (Ascii.ascii_of_nat 64)))
          (chars s) = true.
Proof.
  unfold Lifecycles.plain. rewrite chars_nil, forallb_forall.
  split; intros [Hne H]; (split; [done|]); intros c Hc.
  - apply list_elem_of_In, H in Hc as [Hs Hat]. rewrite Hs. simpl.
    apply negb_true_iff. by apply Ascii.eqb_neq.
  - apply list_elem_of_In, H in Hc.
    apply negb_true_iff, orb_false_iff in Hc as [Hs Hat].
    split; [done|]. by apply Ascii.eqb_neq.
Qed.

Lemma emailRegex_shape e :
  Regex.test_whole Lifecycles.emailRegex e = true <-> Lifecycles.email_shape e.
Proof.
  unfold Regex.test_whole, Lifecycles.emailRegex, Lifecycles.email_shape.
  rewrite matches_Matches. fold (chars e). split.
  - intros H.
    inversion H as [| |? ? wl w1 Hl Hr1| | | |]; subst.
    inversion Hr1 as [| |? ? wa w2 Ha Hr2| | | |]; subst.
    inversion Hr2 as [| |? ? wd w3 Hd Hr3| | | |]; subst.
    inversion Hr3 as [| |? ? wp wt Hp Ht| | | |]; subst.
    apply Matches_chr in Ha as ->. apply Matches_chr in Hp as ->.
    exists (String.string_of_list_ascii wl), (String.string_of_list_ascii wd),
      (String.string_of_list_ascii wt).
    rewrite !plain_forallb, !chars_of_list.
    apply Matches_plus_class in Hl, Hd, Ht.
    split; [|done]. apply chars_inj.
    rewrite !chars_app, !chars_of_list. by symmetry.
  - intros (l & d & t & -> & Hl & Hd & Ht).
    rewrite !chars_app. apply plain_forallb in Hl, Hd, Ht.
    constructor; [by apply Matches_plus_class|].
    constructor; [by apply Matches_chr|].
    constructor; [by apply Matches_plus_class|].
    constructor; [by apply Matches_chr|].
    by apply Matches_plus_class.
Qed.

(** ** Passwords *)

Lemma test_range lo hi s :
  Regex.test (Regex.range lo hi) s = true <-> contains (between lo hi) s.
Proof.
  unfold Regex.range. rewrite test_class, existsb_exists.
  unfold contains, between. split; intros (c & Hin & Hc); exists c.
  - apply andb_true_iff in Hc as [H1%Nat.leb_le H2%Nat.leb_le].
    split; [by apply list_elem_of_In | done].
  - split; [by apply list_elem_of_In|].
    apply andb_true_iff. split; apply Nat.leb_le; tauto.
Qed.

Lemma test_one_of l s :
  Regex.test (Regex.one_of l) s = true <-> contains (fun c => c ∈ chars l) s.
Proof.
  unfold Regex.one_of. rewrite test_class, existsb_exists.
  unfold contains. fold (chars l).
  split; intros (c & Hin & Hc); exists c.
  - split; [by apply list_elem_of_In|].
    apply existsb_exists in Hc as (x & Hx & ->%Ascii.eqb_eq).
    by apply list_elem_of_In.
  - split; [by apply list_elem_of_In|].
    apply existsb_exists. exists c. split; [by apply list_elem_of_In|].
    apply Ascii.eqb_refl.
Qed.

Lemma password_ok_iff p : Lifecycles.password_ok p <-> Lifecycles.strong p.
Proof.
  unfold Lifecycles.password_ok, Lifecycles.validatePasswordStrength,
    Lifecycles.strong.
  rewrite <- !test_range, <- test_one_of.
  fold Lifecycles.upper Lifecycles.lower Lifecycles.digit Lifecycles.special.
  destruct (JS.is_empty p) eqn:Hemp.
  { apply String.eqb_eq in Hemp as ->. simpl. split; [done|]. lia. }
  destruct (JS.string_length p <? 8)%nat eqn:Hlen.
  { apply Nat.ltb_lt in Hlen. simpl. split; [done|]. lia. }
  apply Nat.ltb_ge in Hlen.
  destruct (Regex.test Lifecycles.upper p),  (Regex.test Lifecycles.lower p),
    (Regex.test Lifecycles.digit p), (Regex.test Lifecycles.special p);
    simpl; split; try done; intros (_ & ? & ? & ? & ?); done.
Qed.

Lemma contains_app P a s b : contains P s -> contains P (a ++ s ++ b).
Proof.
  intros (c & Hin & Hc). exists c. split; [|done].
  rewrite !chars_app. set_solver.
Qed.

Lemma string_length_append a b :
  JS.string_length (a ++ b) = (JS.string_length a + JS.string_length b)%nat.
Proof.
  induction a as [|c a IH]; [done|].
  change (String c a ++ b) with (String c (a ++ b)).
  cbn [JS.string_length]. rewrite IH. lia.
Qed.

(** ** Emails *)

Lemma lower_ascii_at (c : Ascii.ascii) :
  JS.lower_ascii c = Ascii.ascii_of_nat 64 <-> c = Ascii.ascii_of_nat 64.
Proof. destruct c as [[] [] [] [] [] [] [] []]; by vm_compute. Qed.

Lemma lower_ascii_dot (c : Ascii.ascii) :
  JS.lower_ascii c = Ascii.ascii_of_nat 46 <-> c = Ascii.ascii_of_nat 46.
Proof. destruct c as [[] [] [] [] [] [] [] []]; by vm_compute. Qed.

Lemma chars_toLowerCase s :
  chars (JS.toLowerCase s) = JS.lower_ascii <$> chars s.
Proof.
  induction s as [|c s IH]; [done|]. unfold chars in *. simpl. by rewrite IH.
Qed.

Lemma toLowerCase_app a b :
  JS.toLowerCase (a ++ b) = JS.toLowerCase a ++ JS.toLowerCase b.
Proof.
  induction a as [|c a IH]; [done|].
  change (String c a ++ b) with (String c (a ++ b)). cbn [JS.toLowerCase].
  by rewrite IH.
Qed.

Lemma toLowerCase_app_inv a : forall e b,
  JS.toLowerCase e = a ++ b ->
  exists a' b', e = a' ++ b' /\ JS.toLowerCase a' = a /\ JS.toLowerCase b' = b.
Proof.
  induction a as [|c a IH]; intros e b H.
  - exists EmptyString, e. done.
  - change (String c a ++ b) with (String c (a ++ b)) in H.
    destruct e as [|c' e]; [done|]. cbn [JS.toLowerCase] in H.
    injection H as Hc He. apply IH in He as (a' & b' & -> & Ha & Hb).
    exists (String c' a'), b'. cbn [JS.toLowerCase]. by rewrite Hc, Ha.
Qed.

Lemma plain_toLowerCase s : Lifecycles.plain (JS.toLowerCase s) <-> Lifecycles.plain s.
Proof.
  unfold Lifecycles.plain. rewrite chars_toLowerCase.
  split; intros [Hne H]; split.
  - intros ->. by apply Hne.
  - intros c Hc. destruct (H (JS.lower_ascii c)) as [Hs Hat].
    { apply list_elem_of_fmap. eauto. }
    rewrite is_space_lower in Hs. split; [done|].
    intros ->. by apply Hat.
  - destruct s; [done|]. by cbn.
  - intros c (c' & -> & Hc)%list_elem_of_fmap. destruct (H c' Hc) as [Hs Hat].
    rewrite is_space_lower. split; [done|].
    intros E. apply Hat. by apply lower_ascii_at.
Qed.

Lemma toLowerCase_single c s :
  JS.toLowerCase s = String c EmptyString ->
  exists c', s = String c' EmptyString /\ JS.lower_ascii c' = c.
Proof.
  destruct s as [|c' [|]]; try done. cbn. intros [= <-]. eauto.
Qed.

Lemma email_shape_toLowerCase e :
  Lifecycles.email_shape (JS.toLowerCase e) <-> Lifecycles.email_shape e.
Proof.
  unfold Lifecycles.email_shape. split.
  - intros (l & d & t & H & Hl & Hd & Ht).
    apply toLowerCase_app_inv in H as (l' & r1 & -> & <- & H).
    apply toLowerCase_app_inv in H as (x & r2 & -> & Hx & H).
    apply toLowerCase_app_inv in H as (d' & r3 & -> & <- & H).
    apply toLowerCase_app_inv in H as (y & t' & -> & Hy & <-).
    apply toLowerCase_single in Hx as (cx & -> & Hx).
    apply toLowerCase_single in Hy as (cy & -> & Hy).
    apply (proj1 (lower_ascii_at _)) in Hx.
    apply (proj1 (lower_ascii_dot _)) in Hy.
    subst. exists l', d', t'.
    split; [done|]. split; [by apply plain_toLowerCase|].
    split; by apply plain_toLowerCase.
  - intros (l & d & t & -> & Hl & Hd & Ht).
    exists (JS.toLowerCase l), (JS.toLowerCase d), (JS.toLowerCase t).
    rewrite !toLowerCase_app, !plain_toLowerCase. done.
Qed.

Lemma split_toLowerCase e :
  Lifecycles.split (Ascii.ascii_of_nat 64) (JS.toLowerCase e)
  = JS.toLowerCase <$> Lifecycles.split (Ascii.ascii_of_nat 64) e.
Proof.
  induction e as [|c e IH]; [done|].
  cbn [JS.toLowerCase Lifecycles.split]. rewrite IH.
  destruct (Ascii.eqb c _) eqn:E.
  - apply Ascii.eqb_eq in E as ->. done.
  - apply Ascii.eqb_neq in E.
    destruct (Ascii.eqb (JS.lower_ascii c) _) eqn:E'.
    { apply Ascii.eqb_eq in E'. apply (proj1 (lower_ascii_at _)) in E'. done. }
    by destruct (Lifecycles.split _ e).
Qed.

Lemma split_none c s :
  (forall x, x ∈ chars s -> x <> c) -> Lifecycles.split c s = [s].
Proof.
  induction s as [|a s IH]; intros H; [done|]. cbn [Lifecycles.split].
  destruct (Ascii.eqb a c) eqn:E.
  - apply Ascii.eqb_eq in E. exfalso. apply (H a); [|done].
    unfold chars. simpl. by left.
  - rewrite IH; [done|]. intros x Hx. apply H. unfold chars in *. simpl.
    by right.
Qed.

Lemma split_first c l r :
  (forall x, x ∈ chars l -> x <> c) ->
  Lifecycles.split c (l ++ String c r) = l :: Lifecycles.split c r.
Proof.
  induction l as [|a l IH]; intros H.
  - change (EmptyString ++ String c r) with (String c r).
    cbn [Lifecycles.split]. by rewrite Ascii.eqb_refl.
  - change (String a l ++ String c r) with (String a (l ++ String c r)).
    cbn [Lifecycles.split]. destruct (Ascii.eqb a c) eqn:E.
    + apply Ascii.eqb_eq in E. exfalso. apply (H a); [|done].
      unfold chars. simpl. by left.
    + rewrite IH; [done|]. intros x Hx. apply H. unfold chars in *. simpl.
      by right.
Qed.

Lemma plain_no_at s x :
  Lifecycles.plain s -> x ∈ chars s -> x <> Ascii.ascii_of_nat 64.
Proof. intros [_ H] Hx. by apply H. Qed.

(** The domain the disposable check looks at is all that follows the
    [@]. *)
Lemma split_shape l d t :
  Lifecycles.plain l -> Lifecycles.plain d -> Lifecycles.plain t ->
  Lifecycles.split (Ascii.ascii_of_nat 64) (l ++ "@" ++ d ++ "." ++ t)
  = [l; d ++ "." ++ t].
Proof.
  intros Hl Hd Ht.
  change ("@" ++ d ++ "." ++ t) with (String (Ascii.ascii_of_nat 64) (d ++ "." ++ t)).
  rewrite split_first by (intros x; by apply plain_no_at).
  rewrite split_none; [done|]. intros x. rewrite !chars_app.
  intros [Hx|[Hx|Hx]%elem_of_app]%elem_of_app.
  - by apply (plain_no_at d).
  - apply list_elem_of_singleton in Hx as ->. done.
  - by apply (plain_no_at t).
Qed.

Lemma array_includes_str l s : JS.array_includes l (JS.Str s) = true <-> s ∈ l.
Proof.
  unfold JS.array_includes. rewrite existsb_exists. split.
  - intros (x & Hx & E). unfold JS.strict_eq in E.
    apply bool_decide_eq_true in E as [= ->]. by apply list_elem_of_In.
  - intros H. exists s. split; [by apply list_elem_of_In|].
    unfold JS.strict_eq. by apply bool_decide_eq_true.
Qed.

Lemma email_ok_iff e :
  Lifecycles.email_ok e <->
  exists l d t,
    e = l ++ "@" ++ d ++ "." ++ t
    /\ Lifecycles.plain l /\ Lifecycles.plain d /\ Lifecycles.plain t
    /\ JS.toLowerCase (d ++ "." ++ t) ∉ Lifecycles.disposableDomains.
Proof.
  unfold Lifecycles.email_ok, Lifecycles.validateEmail. split.
  - destruct (JS.is_empty e); [done|].
    destruct (Regex.test_whole Lifecycles.emailRegex e) eqn:Hre; [|done].
    apply emailRegex_shape in Hre as (l & d & t & -> & Hl & Hd & Ht).
    cbn [negb]. rewrite split_shape by done. cbn [lookup list_lookup].
    destruct (JS.array_includes _ _) eqn:Hd'; [done|]. intros _.
    exists l, d, t. repeat (split; [done|]).
    intros Hin. apply array_includes_str in Hin. congruence.
  - intros (l & d & t & -> & Hl & Hd & Ht & Hdom).
    assert (Hre : Regex.test_whole Lifecycles.emailRegex
                    (l ++ "@" ++ d ++ "." ++ t) = true).
    { apply emailRegex_shape. by exists l, d, t. }
    rewrite Hre. rewrite split_shape by done. cbn [lookup list_lookup negb].
    destruct (JS.is_empty _) eqn:Hemp.
    { apply String.eqb_eq in Hemp. destruct Hl as [Hl _]. by destruct l. }
    destruct (JS.array_includes _ _) eqn:Hd'; [|done].
    apply array_includes_str in Hd'. done.
Qed.

Lemma validateEmail_toLowerCase e :
  Lifecycles.validateEmail (JS.Str (JS.toLowerCase e))
  = Lifecycles.validateEmail (JS.Str e).
Proof.
  unfold Lifecycles.validateEmail. rewrite is_empty_lower.
  assert (Hre : Regex.test_whole Lifecycles.emailRegex (JS.toLowerCase e)
                = Regex.test_whole Lifecycles.emailRegex e).
  { apply Bool.eq_true_iff_eq. rewrite !emailRegex_shape.
    apply email_shape_toLowerCase. }
  rewrite Hre, split_toLowerCase, list_lookup_fmap.
  destruct (Lifecycles.split _ e !! 1%nat) as [d|]; [|done].
  cbn [fmap option_fmap option_map]. by rewrite toLowerCase_idemp.
Qed.

(** ** The hooks *)

Lemma beforeCreate_steps db data :
  Lifecycles.beforeCreate db data =
  (if JS.truthy (Lifecycles.email data)
   then Lifecycles.check_email db None data else Returned data)
    ≫= fun data => Lifecycles.check_password data
    ≫= fun data =>
       if JS.strict_eq (Lifecycles.role data) JS.Null
       then throw "User must have a role assigned" else Returned data.
Proof. reflexivity. Qed.

Lemma beforeUpdate_steps db userId data :
  Lifecycles.beforeUpdate db userId data =
  if JS.strict_eq (Lifecycles.role data) JS.Null
  then throw "User role cannot be set to null"
  else
    (if negb (JS.strict_eq (Lifecycles.email data) JS.Undefined)
     then Lifecycles.check_email db (Some userId) data else Returned data)
      ≫= Lifecycles.check_password.
Proof. reflexivity. Qed.

Lemma valid_email_is_string v :
  Lifecycles.valid (Lifecycles.validateEmail v) = true ->
  exists e, v = JS.Str e /\ Lifecycles.email_ok e.
Proof. destruct v; try done. eauto. Qed.

Lemma valid_password_is_string v :
  Lifecycles.valid (Lifecycles.validatePasswordStrength v) = true ->
  exists p, v = JS.Str p /\ Lifecycles.password_ok p.
Proof. destruct v; try done. eauto. Qed.

Lemma check_email_returned db exclude data out :
  Lifecycles.check_email db exclude data = Returned out <->
  exists e,
    Lifecycles.email data = JS.Str e /\ Lifecycles.email_ok e
    /\ Lifecycles.findOne_user db
         (Lifecycles.mkUserQuery (JS.toLowerCase e) exclude) = Returned false
    /\ out = Lifecycles.mkUserData (JS.Str (JS.toLowerCase e))
               (Lifecycles.password data) (Lifecycles.role data).
Proof.
  unfold Lifecycles.check_email. cbv zeta. split.
  - destruct (Lifecycles.valid _) eqn:Hv; [|done].
    apply valid_email_is_string in Hv as (e & He & Hok). rewrite He.
    cbn [negb Lifecycles.email_toLowerCase mbind outcome_bind].
    destruct (Lifecycles.findOne_user _ _) as [[]|] eqn:Hq; try done.
    intros [= <-]. by exists e.
  - intros (e & He & Hok & Hq & ->). rewrite He.
    unfold Lifecycles.email_ok in Hok. rewrite Hok.
    cbn [negb Lifecycles.email_toLowerCase mbind outcome_bind].
    by rewrite Hq.
Qed.

Lemma check_password_returned data out :
  Lifecycles.check_password data = Returned out <->
  out = data
  /\ (JS.truthy (Lifecycles.password data) = true ->
      exists p, Lifecycles.password data = JS.Str p /\ Lifecycles.password_ok p).
Proof.
  unfold Lifecycles.check_password. cbv zeta.
  destruct (JS.truthy _) eqn:Ht.
  - destruct (Lifecycles.valid _) eqn:Hv; cbn [negb].
    + apply valid_password_is_string in Hv. split.
      * intros [= <-]. done.
      * intros [-> _]. done.
    + split; [done|]. intros [_ H]. destruct (H eq_refl) as (p & Hp & Hok).
      rewrite Hp in Hv. unfold Lifecycles.password_ok in Hok. congruence.
  - split; [intros [= <-]; done | intros [-> _]; done].
Qed.

Lemma email_ok_lower e :
  Lifecycles.email_ok e -> Lifecycles.email_ok (JS.toLowerCase e).
Proof.
  unfold Lifecycles.email_ok. by rewrite validateEmail_toLowerCase.
Qed.

Lemma email_ok_truthy e : Lifecycles.email_ok e -> JS.truthy (JS.Str e) = true.
Proof.
  unfold Lifecycles.email_ok, Lifecycles.validateEmail. simpl.
  unfold JS.is_empty. by destruct (String.eqb e EmptyString).
Qed.

Lemma role_not_null v : JS.strict_eq v JS.Null = false <-> v <> JS.Null.
Proof. unfold JS.strict_eq. apply bool_decide_eq_false. Qed.

Lemma beforeCreate_returned db data out :
  Lifecycles.beforeCreate db data = Returned out <->
  Lifecycles.role data <> JS.Null
  /\ (JS.truthy (Lifecycles.password data) = true ->
      exists p, Lifecycles.password data = JS.Str p /\ Lifecycles.password_ok p)
  /\ if JS.truthy (Lifecycles.email data) then
       exists e,
         Lifecycles.email data = JS.Str e /\ Lifecycles.email_ok e
         /\ Lifecycles.findOne_user db
              (Lifecycles.mkUserQuery (JS.toLowerCase e) None) = Returned false
         /\ out = Lifecycles.mkUserData (JS.Str (JS.toLowerCase e))
                    (Lifecycles.password data) (Lifecycles.role data)
     else out = data.
Proof.
  rewrite beforeCreate_steps. split.
  - intros H.
    destruct (if JS.truthy (Lifecycles.email data) then _ else _)
      as [d1|] eqn:H1; [|done].
    cbn [mbind outcome_bind] in H.
    destruct (Lifecycles.check_password d1) as [d2|] eqn:H2; [|done].
    cbn [mbind outcome_bind] in H.
    destruct (JS.strict_eq _ _) eqn:Hr; [done|]. injection H as ->.
    apply check_password_returned in H2 as [-> Hp].
    apply role_not_null in Hr.
    destruct (JS.truthy (Lifecycles.email data)).
    + apply check_email_returned in H1 as (e & He & Hok & Hq & ->).
      cbn in Hr, Hp. repeat (split; [done|]). by exists e.
    + by injection H1 as ->.
  - intros (Hr & Hp & He).
    destruct (JS.truthy (Lifecycles.email data)).
    + destruct He as (e & He & Hok & Hq & ->).
      set (out := Lifecycles.mkUserData _ _ _).
      assert (H1 : Lifecycles.check_email db None data = Returned out)
        by (apply check_email_returned; by exists e).
      assert (H2 : Lifecycles.check_password out = Returned out)
        by (by apply check_password_returned).
      rewrite H1. cbn [mbind outcome_bind]. rewrite H2.
      cbn [mbind outcome_bind].
      change (Lifecycles.role out) with (Lifecycles.role data).
      by rewrite (proj2 (role_not_null _) Hr).
    + subst out.
      assert (H2 : Lifecycles.check_password data = Returned data)
        by (by apply check_password_returned).
      cbn [mbind outcome_bind]. rewrite H2. cbn [mbind outcome_bind].
      by rewrite (proj2 (role_not_null _) Hr).
Qed.

Lemma beforeUpdate_returned db userId data out :
  Lifecycles.beforeUpdate db userId data = Returned out <->
  Lifecycles.role data <> JS.Null
  /\ (JS.truthy (Lifecycles.password data) = true ->
      exists p, Lifecycles.password data = JS.Str p /\ Lifecycles.password_ok p)
  /\ if decide (Lifecycles.email data = JS.Undefined) then out = data
     else
       exists e,
         Lifecycles.email data = JS.Str e /\ Lifecycles.email_ok e
         /\ Lifecycles.findOne_user db
              (Lifecycles.mkUserQuery (JS.toLowerCase e) (Some userId))
            = Returned false
         /\ out = Lifecycles.mkUserData (JS.Str (JS.toLowerCase e))
                    (Lifecycles.password data) (Lifecycles.role data).
Proof.
  rewrite beforeUpdate_steps.
  destruct (JS.strict_eq _ JS.Null) eqn:Hr.
  { split; [done|]. intros [Hne _]. apply role_not_null in Hne. congruence. }
  apply role_not_null in Hr. unfold JS.strict_eq.
  destruct (decide (Lifecycles.email data = JS.Undefined)) as [E|E].
  - rewrite bool_decide_eq_true_2 by done. cbn [negb mbind outcome_bind].
    rewrite check_password_returned.
    split; [intros [-> Hp]; done | intros (_ & Hp & ->); done].
  - rewrite bool_decide_eq_false_2 by done. cbn [negb]. split.
    + intros H.
      destruct (Lifecycles.check_email _ _ _) as [d1|] eqn:H1; [|done].
      cbn [mbind outcome_bind] in H.
      apply check_password_returned in H as [-> Hp].
      apply check_email_returned in H1 as (e & He & Hok & Hq & ->).
      cbn in Hp. repeat (split; [done|]). by exists e.
    + intros (_ & Hp & e & He & Hok & Hq & ->).
      set (out := Lifecycles.mkUserData _ _ _).
      assert (H1 : Lifecycles.check_email db (Some userId) data = Returned out)
        by (apply check_email_returned; by exists e).
      rewrite H1. cbn [mbind outcome_bind]. by apply check_password_returned.
Qed.



(** X20. Among the values that are not strings and the strings of
    ASCII characters, [validatePasswordStrength] accepts exactly the
    strings of at least eight characters that have an upper-case letter,
    a lower-case letter, a digit and one of the listed special
    characters; a value that is not a string is never accepted. *)
Theorem password_accepted_iff_strong (v : JS.value) :
  ascii_value v = true ->
  Lifecycles.valid (Lifecycles.validatePasswordStrength v) = true
  <-> exists p, v = JS.Str p /\ Lifecycles.strong p.
Proof.
  intros _. split.
  - intros (p & -> & Hok)%valid_password_is_string.
    exists p. split; [done|]. by apply password_ok_iff.
  - intros (p & -> & Hs). by apply password_ok_iff.
Qed.

Lemma password_accepted_iff_strong_witness :
  exists p, JS.Str "Abcdef1!" = JS.Str p /\ Lifecycles.strong p.
Proof.
  apply (proj1 (password_accepted_iff_strong (JS.Str "Abcdef1!") eq_refl)).
  vm_compute. reflexivity.
Defined.

(** X21. A password that [validatePasswordStrength] accepts is still
    accepted with any text put before it and after it. *)
Theorem strong_password_survives_padding (a p b : string) :
  Lifecycles.password_ok p -> Lifecycles.password_ok (a ++ p ++ b).
Proof.
  rewrite !password_ok_iff. unfold Lifecycles.strong.
  intros (Hlen & Hu & Hl & Hd & Hs).
  split; [rewrite !string_length_append; lia|].
  repeat split; by apply contains_app.
Qed.

Lemma strong_password_survives_padding_witness :
  Lifecycles.password_ok ("my " ++ "Abcdef1!" ++ " is long").
Proof.
  apply (strong_password_survives_padding "my " "Abcdef1!" " is long").
  vm_compute. reflexivity.
Defined.

(** X22. Among the values that are not strings and the strings of
    ASCII characters, [validateEmail] accepts exactly the strings
    [local@domain.tld] whose three parts are non-empty and free of white
    space and of [@], and whose part after the [@], in lower case, is not
    one of the disposable domains. *)
Theorem email_accepted_iff_shape (v : JS.value) :
  ascii_value v = true ->
  Lifecycles.valid (Lifecycles.validateEmail v) = true
  <-> exists l d t,
        v = JS.Str (l ++ "@" ++ d ++ "." ++ t)
        /\ Lifecycles.plain l /\ Lifecycles.plain d /\ Lifecycles.plain t
        /\ JS.toLowerCase (d ++ "." ++ t) ∉ Lifecycles.disposableDomains.
Proof.
  intros _. split.
  - intros (e & -> & Hok)%valid_email_is_string.
    apply email_ok_iff in Hok as (l & d & t & -> & H). by exists l, d, t.
  - intros (l & d & t & -> & H). apply email_ok_iff. by exists l, d, t.
Qed.

Lemma email_accepted_iff_shape_witness :
  exists l d t,
    JS.Str "reporter@example.com" = JS.Str (l ++ "@" ++ d ++ "." ++ t)
    /\ Lifecycles.plain l /\ Lifecycles.plain d /\ Lifecycles.plain t
    /\ JS.toLowerCase (d ++ "." ++ t) ∉ Lifecycles.disposableDomains.
Proof.
  apply (proj1 (email_accepted_iff_shape (JS.Str "reporter@example.com")
                  eq_refl)).
  vm_compute. reflexivity.
Defined.

(** X23. [validateEmail] does not look at the case of the letters: two
    emails with the same lower-case form get the same verdict and the same
    message. *)
Theorem email_validation_ignores_case (e1 e2 : string) :
  JS.toLowerCase e1 = JS.toLowerCase e2 ->
  Lifecycles.validateEmail (JS.Str e1) = Lifecycles.validateEmail (JS.Str e2).
Proof.
  intros H. rewrite <- (validateEmail_toLowerCase e1), H.
  apply validateEmail_toLowerCase.
Qed.

Lemma email_validation_ignores_case_witness :
  Lifecycles.validateEmail (JS.Str "Reporter@Example.com")
  = Lifecycles.validateEmail (JS.Str "reporter@EXAMPLE.com").
Proof.
  apply (email_validation_ignores_case "Reporter@Example.com"
           "reporter@EXAMPLE.com").
  vm_compute. reflexivity.
Defined.

Lemma returned_well_formed (data : Lifecycles.UserData) (e : string) :
  Lifecycles.role data <> JS.Null ->
  (JS.truthy (Lifecycles.password data) = true ->
   exists p, Lifecycles.password data = JS.Str p /\ Lifecycles.password_ok p) ->
  Lifecycles.email_ok e ->
  Lifecycles.well_formed
    (Lifecycles.mkUserData (JS.Str (JS.toLowerCase e))
       (Lifecycles.password data) (Lifecycles.role data)).
Proof.
  intros Hr Hp Hok. split; [done|]. split; [|done].
  intros _. exists (JS.toLowerCase e).
  split; [done|]. split; [by apply email_ok_lower | apply toLowerCase_idemp].
Qed.

(** X24. What [beforeCreate] lets through is well formed: the role is
    not [null], an email that is there is valid and in lower case, a
    password that is there is strong; the password and the role are the
    ones that came in. *)
Theorem beforeCreate_leaves_well_formed (db : Lifecycles.UsersDb)
    (data out : Lifecycles.UserData) :
  Lifecycles.beforeCreate db data = Returned out ->
  Lifecycles.well_formed out
  /\ Lifecycles.password out = Lifecycles.password data
  /\ Lifecycles.role out = Lifecycles.role data.
Proof.
  intros (Hr & Hp & He)%beforeCreate_returned.
  destruct (JS.truthy (Lifecycles.email data)) eqn:Ht.
  - destruct He as (e & He & Hok & Hq & ->).
    split; [by apply returned_well_formed | done].
  - subst out. split; [|done]. split; [done|]. split; [|done].
    intros Ht'. congruence.
Qed.

Lemma beforeCreate_leaves_well_formed_witness :
  Lifecycles.well_formed SampleUsers.stored_user
  /\ Lifecycles.password SampleUsers.stored_user
     = Lifecycles.password SampleUsers.new_user
  /\ Lifecycles.role SampleUsers.stored_user
     = Lifecycles.role SampleUsers.new_user.
Proof.
  apply (beforeCreate_leaves_well_formed SampleUsers.empty_db).
  vm_compute. reflexivity.
Defined.

(** X25. [beforeCreate] is idempotent: what it lets through it lets
    through again, unchanged. *)
Theorem beforeCreate_idempotent (db : Lifecycles.UsersDb)
    (data out : Lifecycles.UserData) :
  Lifecycles.beforeCreate db data = Returned out ->
  Lifecycles.beforeCreate db out = Returned out.
Proof.
  intros (Hr & Hp & He)%beforeCreate_returned.
  apply beforeCreate_returned.
  destruct (JS.truthy (Lifecycles.email data)) eqn:Ht.
  - destruct He as (e & He & Hok & Hq & ->).
    cbn [Lifecycles.role Lifecycles.password Lifecycles.email].
    repeat (split; [done|]).
    rewrite (email_ok_truthy _ (email_ok_lower _ Hok)).
    exists (JS.toLowerCase e). split; [done|].
    split; [by apply email_ok_lower|]. by rewrite toLowerCase_idemp.
  - subst out. repeat (split; [done|]). by rewrite Ht.
Qed.

Lemma beforeCreate_idempotent_witness :
  Lifecycles.beforeCreate SampleUsers.empty_db SampleUsers.stored_user
  = Returned SampleUsers.stored_user.
Proof.
  apply (beforeCreate_idempotent SampleUsers.empty_db SampleUsers.new_user).
  vm_compute. reflexivity.
Defined.

(** X26. What [beforeUpdate] lets through is well formed, it has an
    email whenever the update named one, and the hook lets it through
    again, unchanged. *)
Theorem beforeUpdate_leaves_well_formed (db : Lifecycles.UsersDb)
    (userId : JS.value) (data out : Lifecycles.UserData) :
  Lifecycles.beforeUpdate db userId data = Returned out ->
  Lifecycles.well_formed out
  /\ (Lifecycles.email data <> JS.Undefined ->
      JS.truthy (Lifecycles.email out) = true)
  /\ Lifecycles.beforeUpdate db userId out = Returned out.
Proof.
  intros (Hr & Hp & He)%beforeUpdate_returned.
  rewrite beforeUpdate_returned.
  destruct (decide (Lifecycles.email data = JS.Undefined)) as [E|E].
  - subst out. split; [|split].
    + split; [done|]. split; [|done]. rewrite E. done.
    + done.
    + repeat (split; [done|]). by rewrite decide_True.
  - destruct He as (e & He & Hok & Hq & ->). split; [|split].
    + by apply returned_well_formed.
    + intros _. apply (email_ok_truthy _ (email_ok_lower _ Hok)).
    + cbn [Lifecycles.role Lifecycles.password Lifecycles.email].
      repeat (split; [done|]). rewrite decide_False by done.
      exists (JS.toLowerCase e). split; [done|].
      split; [by apply email_ok_lower|]. by rewrite toLowerCase_idemp.
Qed.

Lemma beforeUpdate_leaves_well_formed_witness :
  Lifecycles.well_formed SampleUsers.stored_user
  /\ (Lifecycles.email SampleUsers.new_user <> JS.Undefined ->
      JS.truthy (Lifecycles.email SampleUsers.stored_user) = true)
  /\ Lifecycles.beforeUpdate SampleUsers.empty_db (JS.Num 7)
       SampleUsers.stored_user = Returned SampleUsers.stored_user.
Proof.
  apply (beforeUpdate_leaves_well_formed SampleUsers.empty_db (JS.Num 7)
           SampleUsers.new_user).
  vm_compute. reflexivity.
Defined.

(** X27. Neither hook lets a [null] role through: [beforeUpdate] rejects
    it before anything else, with its own message, and [beforeCreate]
    never returns on it. *)
Theorem null_role_never_accepted (db : Lifecycles.UsersDb) (userId : JS.value)
    (data : Lifecycles.UserData) :
  Lifecycles.role data = JS.Null ->
  Lifecycles.beforeUpdate db userId data
    = Thrown (Error "User role cannot be set to null")
  /\ forall out, Lifecycles.beforeCreate db data <> Returned out.
Proof.
  intros Hr. split.
  - rewrite beforeUpdate_steps, Hr. done.
  - intros out (Hne & _)%beforeCreate_returned. done.
Qed.

Lemma null_role_never_accepted_witness :
  Lifecycles.beforeUpdate SampleUsers.failing_db (JS.Num 7)
    (Lifecycles.mkUserData (JS.Num 1) (JS.Num 2) JS.Null)
    = Thrown (Error "User role cannot be set to null")
  /\ forall out,
       Lifecycles.beforeCreate SampleUsers.failing_db
         (Lifecycles.mkUserData (JS.Num 1) (JS.Num 2) JS.Null) <> Returned out.
Proof.
  apply (null_role_never_accepted SampleUsers.failing_db (JS.Num 7)
           (Lifecycles.mkUserData (JS.Num 1) (JS.Num 2) JS.Null)).
  reflexivity.
Defined.

Lemma check_email_ignores_case db exclude e1 e2 p r :
  JS.toLowerCase e1 = JS.toLowerCase e2 ->
  Lifecycles.check_email db exclude (Lifecycles.mkUserData (JS.Str e1) p r)
  = Lifecycles.check_email db exclude (Lifecycles.mkUserData (JS.Str e2) p r).
Proof.
  intros H. unfold Lifecycles.check_email.
  cbn [Lifecycles.email Lifecycles.password Lifecycles.role
       Lifecycles.email_toLowerCase].
  rewrite <- (validateEmail_toLowerCase e1), <- (validateEmail_toLowerCase e2).
  by rewrite H.
Qed.

Lemma truthy_str_lower e :
  JS.truthy (JS.Str (JS.toLowerCase e)) = JS.truthy (JS.Str e).
Proof. by destruct e. Qed.

(** X28. The hooks do not look at the case of an email: on two emails
    with the same lower-case form, and the same password and role,
    [beforeCreate] gives the same result, and so does [beforeUpdate]. *)
Theorem hooks_ignore_email_case (db : Lifecycles.UsersDb) (userId : JS.value)
    (e1 e2 : string) (p r : JS.value) :
  JS.toLowerCase e1 = JS.toLowerCase e2 ->
  Lifecycles.beforeCreate db (Lifecycles.mkUserData (JS.Str e1) p r)
  = Lifecycles.beforeCreate db (Lifecycles.mkUserData (JS.Str e2) p r)
  /\ Lifecycles.beforeUpdate db userId (Lifecycles.mkUserData (JS.Str e1) p r)
     = Lifecycles.beforeUpdate db userId (Lifecycles.mkUserData (JS.Str e2) p r).
Proof.
  intros H. rewrite !beforeCreate_steps, !beforeUpdate_steps.
  cbn [Lifecycles.email Lifecycles.role].
  rewrite (check_email_ignores_case db None e1 e2 p r H).
  rewrite (check_email_ignores_case db (Some userId) e1 e2 p r H).
  rewrite <- (truthy_str_lower e1), <- (truthy_str_lower e2), H.
  split.
  - destruct (JS.truthy _) eqn:Ht; [done|].
    assert (Hemp : forall e, JS.truthy (JS.Str (JS.toLowerCase e)) = false ->
                             e = EmptyString) by (intros [|]; done).
    pose proof (Hemp e2 Ht) as E2. rewrite <- H in Ht.
    pose proof (Hemp e1 Ht) as E1. by subst.
  - assert (Hne : forall e, JS.strict_eq (JS.Str e) JS.Undefined = false)
      by (intros e; by apply bool_decide_eq_false_2).
    by rewrite !Hne.
Qed.

Lemma hooks_ignore_email_case_witness :
  Lifecycles.beforeCreate SampleUsers.taken_db
    (Lifecycles.mkUserData (JS.Str "A@b.c") JS.Undefined JS.Undefined)
  = Lifecycles.beforeCreate SampleUsers.taken_db
      (Lifecycles.mkUserData (JS.Str "a@B.C") JS.Undefined JS.Undefined)
  /\ Lifecycles.beforeUpdate SampleUsers.taken_db (JS.Num 7)
       (Lifecycles.mkUserData (JS.Str "A@b.c") JS.Undefined JS.Undefined)
     = Lifecycles.beforeUpdate SampleUsers.taken_db (JS.Num 7)
         (Lifecycles.mkUserData (JS.Str "a@B.C") JS.Undefined JS.Undefined).
Proof.
  apply (hooks_ignore_email_case SampleUsers.taken_db (JS.Num 7) "A@b.c"
           "a@B.C" JS.Undefined JS.Undefined).
  vm_compute. reflexivity.
Defined.

Lemma check_email_lookup db exclude data e :
  Lifecycles.email data = JS.Str e -> Lifecycles.email_ok e ->
  Lifecycles.check_email db exclude data =
  Lifecycles.findOne_user db
    (Lifecycles.mkUserQuery (JS.toLowerCase e) exclude)
    ≫= fun existingUser : bool =>
    if existingUser then throw "Email already exists"
    else Returned (Lifecycles.mkUserData (JS.Str (JS.toLowerCase e))
                     (Lifecycles.password data) (Lifecycles.role data)).
Proof.
  intros He Hok. unfold Lifecycles.check_email. cbv zeta. rewrite He.
  unfold Lifecycles.email_ok in Hok. rewrite Hok. done.
Qed.

(** X29. With a valid email of ASCII characters the uniqueness query
    decides before the password and, in [beforeCreate], the role are
    looked at: when the
    store finds a user with the lower-cased email the hook throws
    [Email already exists], and when the query itself fails the hook fails
    with the error of the store, unchanged.  [beforeUpdate] does the same
    once the role is not [null], with the user's own id left out of the
    query. *)
Theorem uniqueness_query_decides (db : Lifecycles.UsersDb) (userId : JS.value)
    (data : Lifecycles.UserData) (e : string) :
  Lifecycles.email data = JS.Str e ->
  is_ascii e = true ->
  Lifecycles.email_ok e ->
  let create_query :=
    Lifecycles.findOne_user db
      (Lifecycles.mkUserQuery (JS.toLowerCase e) None) in
  let update_query :=
    Lifecycles.findOne_user db
      (Lifecycles.mkUserQuery (JS.toLowerCase e) (Some userId)) in
  (forall err, create_query = Thrown err ->
     Lifecycles.beforeCreate db data = Thrown err)
  /\ (create_query = Returned true ->
      Lifecycles.beforeCreate db data = Thrown (Error "Email already exists"))
  /\ (Lifecycles.role data <> JS.Null ->
      forall err, update_query = Thrown err ->
        Lifecycles.beforeUpdate db userId data = Thrown err)
  /\ (Lifecycles.role data <> JS.Null ->
      update_query = Returned true ->
      Lifecycles.beforeUpdate db userId data
      = Thrown (Error "Email already exists")).
Proof.
  intros He _ Hok. cbv zeta.
  pose proof (email_ok_truthy _ Hok) as Ht. rewrite <- He in Ht.
  assert (Hne : JS.strict_eq (Lifecycles.email data) JS.Undefined = false)
    by (rewrite He; by apply bool_decide_eq_false_2).
  rewrite beforeCreate_steps, beforeUpdate_steps, Ht, Hne.
  rewrite !(check_email_lookup db _ data e He Hok). cbn [negb].
  split; [|split; [|split]].
  - by intros err ->.
  - by intros ->.
  - intros Hr%role_not_null err ->. by rewrite Hr.
  - intros Hr%role_not_null ->. by rewrite Hr.
Qed.

Lemma uniqueness_query_decides_witness :
  Lifecycles.beforeCreate SampleUsers.taken_db SampleUsers.new_user
  = Thrown (Error "Email already exists").
Proof.
  assert (Hok : Lifecycles.email_ok "Reporter@Example.com")
    by (vm_compute; reflexivity).
  destruct (uniqueness_query_decides SampleUsers.taken_db (JS.Num 7)
              SampleUsers.new_user "Reporter@Example.com" eq_refl eq_refl Hok)
    as (_ & Htaken & _).
  apply Htaken. reflexivity.
Defined.

Lemma validateEmail_falsy (v : JS.value) :
  JS.truthy v = false ->
  Lifecycles.validateEmail v = Lifecycles.mkValidation false "Email is required".
Proof.
  destruct v as [| | |n|s]; try done. cbn [JS.truthy]. intros Hs.
  apply negb_false_iff in Hs. unfold Lifecycles.validateEmail, JS.is_empty.
  by rewrite Hs.
Qed.

(** X30. The hooks differ on an email that is there but falsy ([null],
    the empty string, [0], [false]): [beforeCreate] does not look at it,
    and with no password and a role that is not [null] returns the data
    as they are, without a query; [beforeUpdate] rejects it with
    [Email is required]. *)
Theorem falsy_email_create_vs_update (db : Lifecycles.UsersDb)
    (userId : JS.value) (data : Lifecycles.UserData) :
  JS.truthy (Lifecycles.email data) = false ->
  Lifecycles.email data <> JS.Undefined ->
  Lifecycles.role data <> JS.Null ->
  Lifecycles.beforeUpdate db userId data = Thrown (Error "Email is required")
  /\ (JS.truthy (Lifecycles.password data) = false ->
      Lifecycles.beforeCreate db data = Returned data).
Proof.
  intros Ht Hne Hr. split.
  - rewrite beforeUpdate_steps, (proj2 (role_not_null _) Hr).
    unfold JS.strict_eq at 1. rewrite bool_decide_eq_false_2 by done.
    cbn [negb]. unfold Lifecycles.check_email. cbv zeta.
    by rewrite (validateEmail_falsy _ Ht).
  - intros Hp. apply beforeCreate_returned. rewrite Ht, Hp. done.
Qed.

Lemma falsy_email_create_vs_update_witness :
  Lifecycles.beforeUpdate SampleUsers.empty_db (JS.Num 7)
    (Lifecycles.mkUserData JS.Null JS.Undefined JS.Undefined)
  = Thrown (Error "Email is required")
  /\ (JS.truthy JS.Undefined = false ->
      Lifecycles.beforeCreate SampleUsers.empty_db
        (Lifecycles.mkUserData JS.Null JS.Undefined JS.Undefined)
      = Returned (Lifecycles.mkUserData JS.Null JS.Undefined JS.Undefined)).
Proof.
  apply (falsy_email_create_vs_update SampleUsers.empty_db (JS.Num 7)
           (Lifecycles.mkUserData JS.Null JS.Undefined JS.Undefined));
    [reflexivity | discriminate | discriminate].
Defined.
